(** * CyberSec-Game: scene state machine and world-interaction engine

    A shallow embedding of [game/save_system.py] and [game/scenes.py]
    (with the parts of [game/input.py] and [game/tiled.py] they consume),
    followed by the properties of the natural-language specification.

    Conventions of the embedding.
    - A Python [float] is an IEEE-754 binary64 value, represented by the
      Standard Library's [spec_float] with its correctly rounded operations.
    - A Python [int] is a [Z].  The fields of a [pygame.Rect] are C ints;
      they are taken on [Z], which agrees with pygame as long as the
      values fit 32 bits: the conversion of a larger value by pygame is
      not modelled, and a property that places a rectangle at coordinates
      read from data asks for that range.
    - A value decoded from JSON is a [pyval]; a [dict] keeps insertion
      order and is an association list with unique string keys.
    - A raised exception is the [Raise] branch of [result]; state changes
      made before the exception are dropped together with the frame.
    - Writing the save file is the assignment of the document to the
      [slot] of the application state; the text of the file, its encoding
      and I/O failures are not modelled. *)

From Stdlib Require Import ZArith QArith Bool Lia SpecFloat.
From stdpp Require Import gmap strings list fin_maps.

Local Open Scope Z_scope.

(** ** Exceptions *)

Inductive exn : Type :=
| TypeError | ValueError | KeyError | AttributeError | IndexError
| OverflowError | ZeroDivisionError | FileNotFoundError | RuntimeError.

(** The outcome of a call: a value, a raised exception, or [Unmodelled]
    where the embedding does not expand a Python built-in (the text of
    [repr], the parsing of numerals out of strings).  Nothing is claimed
    about Python's behaviour on an [Unmodelled] path. *)
Inductive result (A : Type) : Type :=
| Ok (a : A)
| Raise (e : exn)
| Unmodelled.
Arguments Ok {A} a.
Arguments Raise {A} e.
Arguments Unmodelled {A}.

Definition bind {A B} (r : result A) (k : A -> result B) : result B :=
  match r with
  | Ok a => k a
  | Raise e => Raise e
  | Unmodelled => Unmodelled
  end.

Notation "'do' x <- r ; k" := (bind r (fun x => k))
  (at level 10, x pattern, r at level 100, k at level 200).

(** [try: ... except Exception: ...] *)
Definition try_except {A} (r : result A) (handler : result A) : result A :=
  match r with
  | Ok a => Ok a
  | Raise _ => handler
  | Unmodelled => Unmodelled
  end.

(** ** Python floats (binary64) *)

Module PyFloat.

Definition float : Type := spec_float.

Definition prec : Z := 53.
Definition emax : Z := 1024.

Definition mul : float -> float -> float := SFmul prec emax.
Definition div : float -> float -> float := SFdiv prec emax.
Definition add : float -> float -> float := SFadd prec emax.
Definition sub : float -> float -> float := SFsub prec emax.
Definition sqrt : float -> float := SFsqrt prec emax.

(** [a / b] raises on a zero divisor instead of producing an infinity. *)
Definition truediv (a b : float) : result float :=
  if SFeqb b (S754_zero false) then Raise ZeroDivisionError else Ok (div a b).

Definition eqb : float -> float -> bool := SFeqb.
Definition ltb : float -> float -> bool := SFltb.
Definition neqb (a b : float) : bool := negb (eqb a b).
Definition gtb (a b : float) : bool := ltb b a.

(** The nearest double of an integer, and of a short decimal literal
    [n/d] (both operands exact, the quotient correctly rounded). *)
Definition of_Z (z : Z) : float := binary_normalize prec emax z 0 false.
Definition lit (n d : Z) : float := div (of_Z n) (of_Z d).

Definition zero : float := S754_zero false.
Definition one : float := of_Z 1.
Definition two : float := of_Z 2.
Definition half : float := lit 1 2.

(** [float(i)] for an [int]. *)
Definition of_int (z : Z) : result float :=
  match of_Z z with
  | S754_infinity _ => Raise OverflowError
  | f => Ok f
  end.

(** [int(f)]: truncation toward zero; NaN and the infinities raise. *)
Definition to_int (f : float) : result Z :=
  match f with
  | S754_zero _ => Ok 0
  | S754_finite s m e => Ok (cond_Zopp s (Z.shiftl (Z.pos m) e))
  | S754_infinity _ => Raise OverflowError
  | S754_nan => Raise ValueError
  end.

(** The exact rational value of a finite float. *)
Definition to_Q (f : float) : option Q :=
  match f with
  | S754_zero _ => Some 0%Q
  | S754_finite s m e =>
      Some (match e with
            | Z0 => inject_Z (cond_Zopp s (Z.pos m))
            | Z.pos p => inject_Z (cond_Zopp s (Z.pos m * 2 ^ Z.pos p))
            | Z.neg p => Qmake (cond_Zopp s (Z.pos m)) (2 ^ p)%positive
            end)
  | _ => None
  end.

End PyFloat.

Abbreviation float := PyFloat.float.

(** ** pygame.Rect

    [colliderect] follows pygame 2: rectangles that only touch do not
    collide, a rectangle of zero width or height collides with nothing, and
    a negative size extends the rectangle to the left (upward). *)

Module Rect.

Record t : Type := mk { x : Z; y : Z; w : Z; h : Z }.

Definition left (r : t) : Z := x r.
Definition top (r : t) : Z := y r.
Definition right (r : t) : Z := x r + w r.
Definition bottom (r : t) : Z := y r + h r.
Definition centerx (r : t) : Z := x r + Z.quot (w r) 2.
Definition centery (r : t) : Z := y r + Z.quot (h r) 2.

Definition set_x (r : t) (v : Z) : t := mk v (y r) (w r) (h r).
Definition set_y (r : t) (v : Z) : t := mk (x r) v (w r) (h r).
Definition set_left (r : t) (v : Z) : t := set_x r v.
Definition set_top (r : t) (v : Z) : t := set_y r v.
Definition set_right (r : t) (v : Z) : t := set_x r (v - w r).
Definition set_bottom (r : t) (v : Z) : t := set_y r (v - h r).

Definition colliderect (a b : t) : bool :=
  if (w a =? 0) || (h a =? 0) || (w b =? 0) || (h b =? 0) then false
  else
    (Z.min (x a) (x a + w a) <? Z.max (x b) (x b + w b))
    && (Z.min (y a) (y a + h a) <? Z.max (y b) (y b + h b))
    && (Z.max (x a) (x a + w a) >? Z.min (x b) (x b + w b))
    && (Z.max (y a) (y a + h a) >? Z.min (y b) (y b + h b)).

(** [inner] lies fully within [outer]. *)
Definition within (outer inner : t) : Prop :=
  x outer <= x inner /\ y outer <= y inner
  /\ x inner + w inner <= x outer + w outer
  /\ y inner + h inner <= y outer + h outer.

End Rect.

(** ** Values decoded from JSON *)

#[local] Unset Elimination Schemes.
Inductive pyval : Type :=
| PNone
| PBool (b : bool)
| PInt (z : Z)
| PFloat (f : float)
| PStr (s : string)
| PList (l : list pyval)
| PDict (d : list (string * pyval)).
#[local] Set Elimination Schemes.

Abbreviation pydict := (list (string * pyval)).

Module Dict.

(** [d.get(k)] / [k in d] *)
Fixpoint get (k : string) (d : pydict) : option pyval :=
  match d with
  | [] => None
  | (k', v) :: d' => if String.eqb k' k then Some v else get k d'
  end.

Definition has (k : string) (d : pydict) : bool :=
  match get k d with Some _ => true | None => false end.

(** [d.get(k, dflt)] *)
Definition get_default (k : string) (dflt : pyval) (d : pydict) : pyval :=
  match get k d with Some v => v | None => dflt end.

(** [d[k] = v]: an existing key keeps its position, a new key is appended. *)
Fixpoint set (k : string) (v : pyval) (d : pydict) : pydict :=
  match d with
  | [] => [(k, v)]
  | (k', v') :: d' =>
      if String.eqb k' k then (k', v) :: d' else (k', v') :: set k v d'
  end.

(** [d.update(other)] for a dict [other] *)
Definition update (d other : pydict) : pydict :=
  fold_left (fun acc kv => set (fst kv) (snd kv) acc) other d.

End Dict.

(** [str(v)]: expanded for text, [None], booleans and integers; the [repr]
    of a float, list or dict is kept symbolic. *)
Inductive text : Type :=
| Text (s : string)
| Repr (v : pyval).

Module Py.

(** Truth value of [v] in a condition *)
Definition truthy (v : pyval) : bool :=
  match v with
  | PNone => false
  | PBool b => b
  | PInt z => negb (z =? 0)
  | PFloat f => PyFloat.neqb f PyFloat.zero
  | PStr s => negb (String.eqb s "")
  | PList l => match l with [] => false | _ => true end
  | PDict d => match d with [] => false | _ => true end
  end.

Definition digit (n : Z) : string :=
  String (Ascii.ascii_of_N (Z.to_N (48 + n))) "".

Fixpoint digits (fuel : nat) (n : Z) (acc : string) : string :=
  match fuel with
  | O => acc
  | S fuel' =>
      if n <? 10 then digit n +:+ acc
      else digits fuel' (n / 10) (digit (n mod 10) +:+ acc)
  end.

Definition decimal (z : Z) : string :=
  if z <? 0 then "-" +:+ digits (Z.to_nat (Z.log2 (- z)) + 1) (- z) ""
  else digits (Z.to_nat (Z.log2 z) + 1) z "".

Definition str (v : pyval) : text :=
  match v with
  | PStr s => Text s
  | PNone => Text "None"
  | PBool true => Text "True"
  | PBool false => Text "False"
  | PInt z => Text (decimal z)
  | _ => Repr v
  end.

(** A [str] used where its characters matter (a map id, a file path). *)
Definition chars (t : text) : result string :=
  match t with
  | Text s => Ok s
  | Repr _ => Unmodelled
  end.

(** [int(v)]; numerals inside strings are not parsed by the embedding. *)
Definition int (v : pyval) : result Z :=
  match v with
  | PInt z => Ok z
  | PBool b => Ok (if b then 1 else 0)
  | PFloat f => PyFloat.to_int f
  | PStr _ => Unmodelled
  | PNone | PList _ | PDict _ => Raise TypeError
  end.

(** [float(v)] *)
Definition float_ (v : pyval) : result float :=
  match v with
  | PInt z => PyFloat.of_int z
  | PBool b => Ok (PyFloat.of_Z (if b then 1 else 0))
  | PFloat f => Ok f
  | PStr _ => Unmodelled
  | PNone | PList _ | PDict _ => Raise TypeError
  end.

(** [v.get(k)] and [v.get(k, dflt)]: only a dict has the method. *)
Definition get (v : pyval) (k : string) : result (option pyval) :=
  match v with
  | PDict d => Ok (Dict.get k d)
  | _ => Raise AttributeError
  end.

Definition get_default (v : pyval) (k : string) (dflt : pyval) : result pyval :=
  match v with
  | PDict d => Ok (Dict.get_default k dflt d)
  | _ => Raise AttributeError
  end.

(** [v[k]] for a string [k] *)
Definition getitem (v : pyval) (k : string) : result pyval :=
  match v with
  | PDict d => match Dict.get k d with Some x => Ok x | None => Raise KeyError end
  | _ => Raise TypeError
  end.

(** [v[k] = x] for a string [k] *)
Definition setitem (v : pyval) (k : string) (x : pyval) : result pyval :=
  match v with
  | PDict d => Ok (PDict (Dict.set k x d))
  | _ => Raise TypeError
  end.

(** [d.setdefault(k, dflt)]: the value under [k] and the dict afterwards *)
Definition setdefault (d : pydict) (k : string) (dflt : pyval) : pyval * pydict :=
  match Dict.get k d with
  | Some v => (v, d)
  | None => (dflt, Dict.set k dflt d)
  end.

(** [d[k1][k2] = x] *)
Definition setitem2 (d : pydict) (k1 k2 : string) (x : pyval) : result pydict :=
  do inner <- getitem (PDict d) k1;
  do inner' <- setitem inner k2 x;
  Ok (Dict.set k1 inner' d).

(** [d.setdefault(k1, {})[k2] = x] *)
Definition setdefault_setitem (d : pydict) (k1 k2 : string) (x : pyval) : result pydict :=
  let '(inner, d1) := setdefault d k1 (PDict []) in
  do inner' <- setitem inner k2 x;
  Ok (Dict.set k1 inner' d1).

Definition is_ascii (s : string) : bool :=
  forallb (fun c => (Ascii.N_of_ascii c <? 128)%N) (String.list_ascii_of_string s).

(** [len(v)]; the length of text is counted for ASCII text only. *)
Definition len (v : pyval) : result Z :=
  match v with
  | PList l => Ok (Z.of_nat (length l))
  | PDict d => Ok (Z.of_nat (length d))
  | PStr s => if is_ascii s then Ok (Z.of_nat (String.length s)) else Unmodelled
  | PNone | PBool _ | PInt _ | PFloat _ => Raise TypeError
  end.

(** [l[i]] for a list: a negative index counts from the end. *)
Definition list_index (l : list pyval) (i : Z) : result pyval :=
  let n := Z.of_nat (length l) in
  let j := if i <? 0 then i + n else i in
  if (0 <=? j) && (j <? n)
  then match l !! Z.to_nat j with Some v => Ok v | None => Raise IndexError end
  else Raise IndexError.

(** [v[i]] for an integer [i] *)
Definition getindex (v : pyval) (i : Z) : result pyval :=
  match v with
  | PList l => list_index l i
  | PDict _ => Raise KeyError
  | PStr s =>
      if is_ascii s
      then list_index (map (fun c => PStr (String c EmptyString))
                           (String.list_ascii_of_string s)) i
      else Unmodelled
  | PNone | PBool _ | PInt _ | PFloat _ => Raise TypeError
  end.

(** [a or b] *)
Definition or_else (a b : pyval) : pyval := if truthy a then a else b.

(** Truth value of the result of [str] *)
Definition text_truthy (t : text) : bool :=
  match t with
  | Text s => negb (String.eqb s "")
  | Repr _ => true
  end.

End Py.

(** [clamp] of scenes.py, for any ordered numeric type. *)
Definition clamp {A} (lt : A -> A -> bool) (v lo hi : A) : A :=
  if lt v lo then lo
  else if lt hi v then hi
  else v.

(** [dist_sq] of scenes.py; its callers pass integer centre coordinates. *)
Definition dist_sq (ax ay bx by_ : Z) : Z :=
  let dx := ax - bx in
  let dy := ay - by_ in
  dx * dx + dy * dy.

(** ** game/constants.py

    The module is not among the sources; its values are parameters of the
    development.  [PLAYER_SPEED] stands for the constant converted to
    [float], as the product [vx * PLAYER_SPEED] converts it. *)
Record Constants : Type := {
  PLAYER_SPEED : float;
  PLAYER_W : Z;
  PLAYER_H : Z;
  SCREEN_W : Z;
  SCREEN_H : Z;
  TILE_SIZE : Z
}.

(** ** game/input.py *)

Inductive key : Type :=
| K_w | K_s | K_a | K_d | K_e | K_RETURN | K_ESCAPE | K_UP | K_DOWN
| K_other (code : Z).

Inductive event : Type :=
| KEYDOWN (k : key)
| QUIT
| OtherEvent.

Record InputState : Type := {
  up : bool;
  down : bool;
  left : bool;
  right : bool;
  interact_pressed : bool;
  confirm_pressed : bool;
  cancel_pressed : bool
}.

Definition on_event (st : InputState) (ev : event) : InputState :=
  match ev with
  | KEYDOWN K_e =>
      {| up := up st; down := down st; left := left st; right := right st;
         interact_pressed := true; confirm_pressed := confirm_pressed st;
         cancel_pressed := cancel_pressed st |}
  | KEYDOWN K_RETURN =>
      {| up := up st; down := down st; left := left st; right := right st;
         interact_pressed := interact_pressed st; confirm_pressed := true;
         cancel_pressed := cancel_pressed st |}
  | KEYDOWN K_ESCAPE =>
      {| up := up st; down := down st; left := left st; right := right st;
         interact_pressed := interact_pressed st;
         confirm_pressed := confirm_pressed st; cancel_pressed := true |}
  | _ => st
  end.

(** [keys] is the answer of [pygame.key.get_pressed()]. *)
Definition build_input_state (keys : key -> bool) (events : list event) : InputState :=
  let st := {| up := keys K_w; down := keys K_s; left := keys K_a; right := keys K_d;
               interact_pressed := false; confirm_pressed := false;
               cancel_pressed := false |} in
  fold_left on_event events st.

(** ** Map providers *)

(** An entry of [_npcs()] *)
Record Npc : Type := {
  npc_id : string;
  npc_dialogue : pyval;
  npc_rect : Rect.t;
  npc_sprite : pyval
}.

(** An entry of [_portals()] or [_books()]: the rectangle under key
    ["rect"] and the remaining keys of the dict. *)
Record Interactable : Type := {
  rect : Rect.t;
  props : pydict
}.

(** game/tiled.py, as left by [TiledMap.__init__]; tile layers and the
    tileset serve drawing only and are left out. *)
Record TiledObject : Type := {
  obj_name : string;
  obj_x : float;
  obj_y : float;
  obj_w : float;
  obj_h : float;
  obj_properties : pydict
}.

Record TiledMap : Type := {
  tiled_pixel_w : Z;
  tiled_pixel_h : Z;
  tiled_properties : pydict;
  tiled_colliders : list Rect.t;
  tiled_npcs : list TiledObject;
  tiled_portals : list TiledObject;
  tiled_books : list TiledObject
}.

(** [GeneratedMap]; [gen_npcs] is [None] where the constructor never
    assigns the attribute.  Decorations and the background are left out. *)
Record GeneratedMap : Type := {
  gen_map_id : string;
  gen_default_zoom : float;
  gen_width : Z;
  gen_height : Z;
  gen_tile_w : Z;
  gen_tile_h : Z;
  gen_pixel_w : Z;
  gen_pixel_h : Z;
  gen_colliders : list Rect.t;
  gen_portals : list Interactable;
  gen_books : list Interactable;
  gen_npcs : option (list Npc)
}.

Inductive MapProvider : Type :=
| Tiled (m : TiledMap)
| Generated (g : GeneratedMap).

Section GeneratedMapInit.

Variable K : Constants.

Definition wall_colliders (wpx hpx : Z) : list Rect.t :=
  [ Rect.mk 0 0 wpx 16;
    Rect.mk 0 (hpx - 16) wpx 16;
    Rect.mk 0 0 16 hpx;
    Rect.mk (wpx - 16) 0 16 hpx ].

Definition door_sprite : pyval := PStr "assets/sprites/door.png".
Definition book_sprite : pyval := PStr "assets/sprites/book.png".

Definition city_npcs : list Npc :=
  [ {| npc_id := "aya"; npc_dialogue := PStr "data/dialogues/npc_aya.json";
       npc_rect := Rect.mk 320 220 18 22;
       npc_sprite := PStr "assets/sprites/npc_aya.png" |};
    {| npc_id := "mika"; npc_dialogue := PStr "data/dialogues/npc_mika.json";
       npc_rect := Rect.mk 1050 320 18 22;
       npc_sprite := PStr "assets/sprites/npc_mika.png" |} ].

Definition city_portals : list Interactable :=
  [ {| rect := Rect.mk 600 420 22 18;
       props := [ ("target_map", PStr "house_1");
                  ("target_x", PFloat (PyFloat.of_Z 240));
                  ("target_y", PFloat (PyFloat.of_Z 300));
                  ("target_zoom", PFloat (PyFloat.lit 16 10));
                  ("prompt", PStr "Press E to enter");
                  ("sprite", door_sprite) ] |} ].

Definition house_1_npcs : list Npc :=
  [ {| npc_id := "ren"; npc_dialogue := PStr "data/dialogues/npc_ren.json";
       npc_rect := Rect.mk 280 200 18 22;
       npc_sprite := PStr "assets/sprites/npc_ren.png" |} ].

Definition house_1_books : list Interactable :=
  [ {| rect := Rect.mk 420 190 18 18;
       props := [ ("title", PStr "Phishing Basics");
                  ("text", PStr "Phishing to metoda oszustwa, w której cyberprzestępcy podszywają się pod zaufane osoby lub instytucje, np. banki czy serwisy społecznościowe. Celem jest wyłudzenie poufnych informacji, takich jak hasła, dane kart kredytowych czy login do konta. Phishing może przybierać formę fałszywych e-maili, SMS-ów, a nawet wiadomości w mediach społecznościowych. Najlepszą ochroną jest ostrożność, sprawdzanie adresów URL i nigdy nieklikanie podejrzanych linków.");
                  ("prompt", PStr "Press E to read: Phishing Basics");
                  ("sprite", book_sprite) ] |};
    {| rect := Rect.mk 520 250 18 18;
       props := [ ("title", PStr "Passwords & Passphrases");
                  ("text", PStr "Hasła to Twoja pierwsza linia obrony w świecie cyfrowym. Silne hasło powinno być długie, unikalne i zawierać kombinację liter, cyfr i znaków specjalnych. Unikaj łatwych haseł typu „123456” lub „password” oraz używania tego samego hasła w wielu serwisach. Dobrym rozwiązaniem jest menedżer haseł, który pozwala bezpiecznie przechowywać i generować skomplikowane hasła.");
                  ("prompt", PStr "Press E to read: Passwords");
                  ("sprite", book_sprite) ] |};
    {| rect := Rect.mk 600 310 18 18;
       props := [ ("title", PStr "MFA Tips");
                  ("text", PStr "MFA, czyli uwierzytelnianie wieloskładnikowe, dodaje dodatkową warstwę ochrony do Twoich kont. Oprócz hasła, wymaga np. kodów SMS, aplikacji uwierzytelniającej (Authenticator) lub biometrii. Dzięki MFA, nawet jeśli ktoś pozna Twoje hasło, nie będzie mógł zalogować się bez dodatkowego czynnika. To prosta i skuteczna metoda zwiększenia bezpieczeństwa kont online.");
                  ("sprite", book_sprite) ] |} ].

Definition house_1_portals (hpx : Z) : list Interactable :=
  [ {| rect := Rect.mk 220 (hpx - 60) 140 34;
       props := [ ("target_map", PStr "city");
                  ("target_x", PFloat (PyFloat.of_Z 500));
                  ("target_y", PFloat (PyFloat.of_Z 450));
                  ("target_zoom", PFloat PyFloat.one);
                  ("prompt", PStr "Press E to exit");
                  ("sprite", door_sprite) ] |} ].

(** [GeneratedMap(map_id)] with the default tile counts *)
Definition GeneratedMap_init (map_id : string) : GeneratedMap :=
  let is_city := String.eqb map_id "city" in
  let width_tiles := if is_city then 160 else 60 in
  let height_tiles := if is_city then 120 else 45 in
  let default_zoom := if is_city then PyFloat.one else PyFloat.lit 16 10 in
  let wpx := width_tiles * TILE_SIZE K in
  let hpx := height_tiles * TILE_SIZE K in
  let walls := wall_colliders wpx hpx in
  {| gen_map_id := map_id;
     gen_default_zoom := default_zoom;
     gen_width := width_tiles;
     gen_height := height_tiles;
     gen_tile_w := TILE_SIZE K;
     gen_tile_h := TILE_SIZE K;
     gen_pixel_w := wpx;
     gen_pixel_h := hpx;
     gen_colliders :=
       if is_city
       then walls ++ [Rect.mk 400 260 220 160; Rect.mk 900 520 260 190]
       else walls;
     gen_portals :=
       if is_city then city_portals
       else if String.eqb map_id "house_1" then house_1_portals hpx
       else [];
     gen_books :=
       if is_city then []
       else if String.eqb map_id "house_1" then house_1_books
       else [];
     gen_npcs :=
       if is_city then Some city_npcs
       else if String.eqb map_id "house_1" then Some house_1_npcs
       else None |}.

End GeneratedMapInit.

(** ** Scenes *)

Record WorldState : Type := {
  map_id : string;
  provider : MapProvider;
  player : Rect.t;
  zoom : float;
  camera_x : float;
  camera_y : float;
  near_npc_label : option text;
  near_portal_label : option text;
  near_book_label : option text
}.

Record DialogueState : Type := {
  dialogue_path : string;
  dlg_npc_id : string;
  nodes : pyval;
  node_id : pyval;
  selected_choice : Z;
  portrait_anim_time : float
}.

Record ChallengeState : Type := {
  challenge_set_id : string;
  ch_title : text;
  category : string;
  questions : pyval;
  qi : Z;
  selected : Z;
  showing_feedback : bool;
  last_correct : bool;
  last_expl : text;
  points_earned : Z;
  max_points : Z
}.

Record ResultsState : Type := {
  res_title : text;
  points : Z;
  res_max_points : Z
}.

Record InfoState : Type := {
  info_title : text;
  info_text : text
}.

(** A scene object; overlay scenes carry the scene they return to. *)
Inductive scene : Type :=
| MenuScene (sel : Z)
| WorldScene (w : WorldState)
| InfoScene (return_scene : scene) (i : InfoState)
| DialogueScene (return_scene : scene) (d : DialogueState)
| ChallengeScene (return_scene : scene) (c : ChallengeState)
| ResultsScene (return_scene : scene) (r : ResultsState).

Record SceneResult : Type := {
  next_scene : option scene;
  quit_game : bool
}.

Definition no_transition : SceneResult :=
  {| next_scene := None; quit_game := false |}.
Definition goto (s : scene) : SceneResult :=
  {| next_scene := Some s; quit_game := false |}.

(** The application object: the shared save document [app.save], and the
    content of the save file at [SAVE_PATH]. *)
Inductive save_file : Type :=
| Absent
| Unparsable
| Parsed (j : pyval).

Record App : Type := {
  save : pydict;
  slot : save_file
}.

(** The documents under [data/], by path: a map file may be missing
    ([None]); opening a dialogue or challenge file may raise. *)
Record Files : Type := {
  map_file : string -> option (result TiledMap);
  json_file : string -> result pyval
}.

(** ** game/save_system.py *)

Module SaveSystem.

Definition default_scores : pyval :=
  PDict [ ("total", PInt 0); ("phishing", PInt 0); ("password", PInt 0);
          ("links", PInt 0); ("mfa", PInt 0) ].

Definition default_player : pyval :=
  PDict [ ("x", PFloat (PyFloat.of_Z 200)); ("y", PFloat (PyFloat.of_Z 200)) ].

Definition default_save : pydict :=
  [ ("world", PDict [ ("map", PStr "city") ]);
    ("player", default_player);
    ("trust", PDict []);
    ("scores", default_scores);
    ("completed", PDict [ ("challenges", PList []) ]) ].

(** One element of the sequence handed to [dict.update]: a sequence of
    exactly two items, the first of them hashable.  A key that is not a
    string leaves the string-keyed documents of the embedding. *)
Definition update_pair (base : pydict) (e : pyval) : result pydict :=
  let assign (k v : pyval) : result pydict :=
    match k with
    | PStr s => Ok (Dict.set s v base)
    | PList _ | PDict _ => Raise TypeError
    | _ => Unmodelled
    end in
  match e with
  | PList [k; v] => assign k v
  | PList _ => Raise ValueError
  | PDict [(k1, _); (k2, _)] => assign (PStr k1) (PStr k2)
  | PDict _ => Raise ValueError
  | PStr s =>
      if Py.is_ascii s then
        match s with
        | String a (String b EmptyString) =>
            assign (PStr (String a EmptyString)) (PStr (String b EmptyString))
        | _ => Raise ValueError
        end
      else Unmodelled
  | PNone | PBool _ | PInt _ | PFloat _ => Raise TypeError
  end.

Fixpoint update_pairs (base : pydict) (l : list pyval) : result pydict :=
  match l with
  | [] => Ok base
  | e :: l' => do base' <- update_pair base e; update_pairs base' l'
  end.

(** [base.update(data)] for whatever [json.load] returned *)
Definition dict_update (base : pydict) (data : pyval) : result pydict :=
  match data with
  | PDict d => Ok (Dict.update base d)
  | PList l => update_pairs base l
  | PStr s => update_pairs base (map (fun c => PStr (String c EmptyString)) (String.list_ascii_of_string s))
  | PNone | PBool _ | PInt _ | PFloat _ => Raise TypeError
  end.

(** [if k not in base or not isinstance(base[k], dict): base[k] = dflt] *)
Definition ensure_dict (k : string) (dflt : pyval) (base : pydict) : pydict :=
  match Dict.get k base with
  | Some (PDict _) => base
  | _ => Dict.set k dflt base
  end.

Definition ensure_world_map (base : pydict) : result pydict :=
  do world <- Py.getitem (PDict base) "world";
  match world with
  | PDict w =>
      if Dict.has "map" w then Ok base
      else Py.setitem2 base "world" "map" (PStr "city")
  | _ => Raise TypeError
  end.

Definition ensure_challenges (base : pydict) : result pydict :=
  do completed <- Py.getitem (PDict base) "completed";
  match completed with
  | PDict c =>
      match Dict.get "challenges" c with
      | Some (PList _) => Ok base
      | _ => Py.setitem2 base "completed" "challenges" (PList [])
      end
  | _ => Raise TypeError
  end.

Definition load_save (file : save_file) : result pydict :=
  match file with
  | Absent => Ok default_save
  | Unparsable => Ok default_save
  | Parsed data =>
      let base := default_save in
      do base <- dict_update base data;
      let base := ensure_dict "world" (PDict [ ("map", PStr "city") ]) base in
      do base <- ensure_world_map base;
      let base := ensure_dict "player" default_player base in
      let base := ensure_dict "trust" (PDict []) base in
      let base := ensure_dict "scores" default_scores base in
      let base := ensure_dict "completed" (PDict [ ("challenges", PList []) ]) base in
      ensure_challenges base
  end.

Definition save_game (data : pydict) (app : App) : App :=
  {| save := save app; slot := Parsed (PDict data) |}.

End SaveSystem.

(** ** Scene constructors ([__init__]) *)

Section Constructors.

Variable K : Constants.
Variable files : Files.

Definition MenuScene_init : scene := MenuScene 0.

Definition ResultsScene_init (return_scene : scene) (title : text)
    (pts max_pts : Z) : scene :=
  ResultsScene return_scene
    {| res_title := title; points := pts; res_max_points := max_pts |}.

Definition InfoScene_init (return_scene : scene) (title body : text) : scene :=
  InfoScene return_scene {| info_title := title; info_text := body |}.

(** The items a [for] loop draws from a decoded JSON value *)
Definition iterate (v : pyval) : result (list pyval) :=
  match v with
  | PList l => Ok l
  | PDict d => Ok (map (fun kv => PStr (fst kv)) d)
  | PStr s =>
      if Py.is_ascii s
      then Ok (map (fun c => PStr (String c EmptyString)) (String.list_ascii_of_string s))
      else Unmodelled
  | PNone | PBool _ | PInt _ | PFloat _ => Raise TypeError
  end.

(** [for q in self.questions: self.max_points += int(q.get("points", 100))] *)
Fixpoint sum_points (qs : list pyval) (acc : Z) : result Z :=
  match qs with
  | [] => Ok acc
  | q :: qs' =>
      do p <- Py.get_default q "points" (PInt 100);
      do n <- Py.int p;
      sum_points qs' (acc + n)
  end.

Definition ChallengeScene_init (return_scene : scene) (set_id : string) : result scene :=
  do data <- json_file files ("data/challenges/" +:+ set_id +:+ ".json");
  do title <- Py.get_default data "title" (PStr set_id);
  do cat <- Py.get_default data "category" (PStr "phishing");
  do cat <- Py.chars (Py.str cat);
  do qs <- Py.get_default data "questions" (PList []);
  do items <- iterate qs;
  do total <- sum_points items 0;
  Ok (ChallengeScene return_scene
        {| challenge_set_id := set_id;
           ch_title := Py.str title;
           category := cat;
           questions := qs;
           qi := 0;
           selected := 0;
           showing_feedback := false;
           last_correct := false;
           last_expl := Text "";
           points_earned := 0;
           max_points := total |}).

(** [open(path)] is modelled for a path given as text. *)
Definition DialogueScene_init (return_scene : scene) (dpath : pyval)
    (npc : string) : result scene :=
  match dpath with
  | PStr path =>
      do data <- json_file files path;
      do ns <- Py.get_default data "nodes" (PDict []);
      do start <- Py.get_default data "start_node" (PStr "intro");
      Ok (DialogueScene return_scene
            {| dialogue_path := path;
               dlg_npc_id := npc;
               nodes := ns;
               node_id := start;
               selected_choice := 0;
               portrait_anim_time := PyFloat.zero |})
  | _ => Unmodelled
  end.

Definition _map_default_zoom (m : MapProvider) : result float :=
  match m with
  | Tiled t =>
      try_except
        (Py.float_ (Dict.get_default "default_zoom" (PFloat PyFloat.one) (tiled_properties t)))
        (Ok PyFloat.one)
  | Generated g => Ok (gen_default_zoom g)
  end.

Definition WorldScene_init (app : App) (map_id_arg : option string)
    (spawn_xy : option (float * float)) (zoom_arg : option float)
    : result (WorldState * App) :=
  do mid <-
    match map_id_arg with
    | Some m => Ok m
    | None =>
        do m <- Py.get_default (Dict.get_default "world" (PDict []) (save app))
                  "map" (PStr "city");
        Py.chars (Py.str m)
    end;
  do sv <- Py.setdefault_setitem (save app) "world" "map" (PStr mid);
  do prov <-
    match map_file files ("data/maps/" +:+ mid +:+ ".json") with
    | Some loaded => do t <- loaded; Ok (Tiled t)
    | None => Ok (Generated (GeneratedMap_init K mid))
    end;
  do pxy <-
    match spawn_xy with
    | Some xy => Ok xy
    | None =>
        do pl <- Py.getitem (PDict sv) "player";
        do vx <- Py.getitem pl "x";
        do fx <- Py.float_ vx;
        do vy <- Py.getitem pl "y";
        do fy <- Py.float_ vy;
        Ok (fx, fy)
    end;
  do ix <- PyFloat.to_int (fst pxy);
  do iy <- PyFloat.to_int (snd pxy);
  do z <-
    match zoom_arg with
    | Some z => Ok z
    | None => _map_default_zoom prov
    end;
  Ok ({| map_id := mid;
         provider := prov;
         player := Rect.mk ix iy (PLAYER_W K) (PLAYER_H K);
         zoom := clamp PyFloat.ltb z PyFloat.one (PyFloat.lit 5 2);
         camera_x := PyFloat.zero;
         camera_y := PyFloat.zero;
         near_npc_label := None;
         near_portal_label := None;
         near_book_label := None |},
      {| save := sv; slot := slot app |}).

End Constructors.

(** ** WorldScene *)

(** What [_nearest_interactable] returns: the kind, the data and the
    squared distance.  Distances are integers (centre coordinates are),
    and the float thresholds and the float [0.0] they are compared with
    are whole numbers, so the comparisons are those of [Z]. *)
Inductive Nearest : Type :=
| NearNpc (data : Npc) (dist : Z)
| NearPortal (data : Interactable) (dist : Z)
| NearBook (data : Interactable) (dist : Z).

Module World.
Section WithConstants.

Variable K : Constants.
Variable files : Files.

Definition _world_bounds (w : WorldState) : Rect.t :=
  match provider w with
  | Tiled t => Rect.mk 0 0 (tiled_pixel_w t) (tiled_pixel_h t)
  | Generated g => Rect.mk 0 0 (gen_pixel_w g) (gen_pixel_h g)
  end.

Definition _colliders (w : WorldState) : list Rect.t :=
  match provider w with
  | Tiled t => tiled_colliders t
  | Generated g => gen_colliders g
  end.

(** [pygame.Rect(int(o.x), int(o.y), max(10, int(o.w)), max(10, int(o.h)))] *)
Definition object_rect (o : TiledObject) : result Rect.t :=
  do ix <- PyFloat.to_int (obj_x o);
  do iy <- PyFloat.to_int (obj_y o);
  do iw <- PyFloat.to_int (obj_w o);
  do ih <- PyFloat.to_int (obj_h o);
  Ok (Rect.mk ix iy (Z.max 10 iw) (Z.max 10 ih)).

Fixpoint collect {A B} (f : A -> result B) (l : list A) : result (list B) :=
  match l with
  | [] => Ok []
  | a :: l' => do b <- f a; do bs <- collect f l'; Ok (b :: bs)
  end.

Definition tiled_npc (o : TiledObject) : result Npc :=
  do id <- Py.chars (Py.str (Dict.get_default "npc_id" (PStr (obj_name o)) (obj_properties o)));
  do r <- object_rect o;
  Ok {| npc_id := id;
        npc_dialogue := Dict.get_default "dialogue" PNone (obj_properties o);
        npc_rect := r;
        npc_sprite := Dict.get_default "sprite" PNone (obj_properties o) |}.

Definition _npcs (w : WorldState) : result (list Npc) :=
  match provider w with
  | Tiled t => collect tiled_npc (tiled_npcs t)
  | Generated g =>
      match gen_npcs g with
      | Some l => Ok l
      | None => Raise AttributeError
      end
  end.

(** [{"rect": rect, **p.properties}]: a property named ["rect"] would
    replace the rectangle and is not modelled. *)
Definition tiled_portal (o : TiledObject) : result Interactable :=
  do r <- object_rect o;
  if Dict.has "rect" (obj_properties o) then Unmodelled
  else Ok {| rect := r; props := obj_properties o |}.

Definition _portals (w : WorldState) : result (list Interactable) :=
  match provider w with
  | Tiled t => collect tiled_portal (tiled_portals t)
  | Generated g => Ok (gen_portals g)
  end.

(** [props = dict(b.properties); props["rect"] = rect] *)
Definition tiled_book (o : TiledObject) : result Interactable :=
  do r <- object_rect o;
  Ok {| rect := r;
        props := List.filter (fun kv => negb (String.eqb (fst kv) "rect")) (obj_properties o) |}.

Definition _books (w : WorldState) : result (list Interactable) :=
  match provider w with
  | Tiled t => collect tiled_book (tiled_books t)
  | Generated g => Ok (gen_books g)
  end.

(** *** Movement *)

(** The velocity of [update] (lines 452-466): the direction flags, scaled
    by [1.0 / math.sqrt(2.0)] when both axes are active. *)
Definition inv_sqrt2 : float := PyFloat.div PyFloat.one (PyFloat.sqrt PyFloat.two).

Definition velocity (st : InputState) : float * float :=
  let vx := PyFloat.zero in
  let vy := PyFloat.zero in
  let vx := if left st then PyFloat.sub vx PyFloat.one else vx in
  let vx := if right st then PyFloat.add vx PyFloat.one else vx in
  let vy := if up st then PyFloat.sub vy PyFloat.one else vy in
  let vy := if down st then PyFloat.add vy PyFloat.one else vy in
  if PyFloat.neqb vx PyFloat.zero && PyFloat.neqb vy PyFloat.zero
  then (PyFloat.mul vx inv_sqrt2, PyFloat.mul vy inv_sqrt2)
  else (vx, vy).

(** [dx = vx * PLAYER_SPEED * dt] and [dy] (lines 468-469) *)
Definition displacement (st : InputState) (dt : float) : float * float :=
  let '(vx, vy) := velocity st in
  (PyFloat.mul (PyFloat.mul vx (PLAYER_SPEED K)) dt,
   PyFloat.mul (PyFloat.mul vy (PLAYER_SPEED K)) dt).

(** One collider of the loop of [_move_and_collide] *)
Definition push_back (dx dy : float) (p c : Rect.t) : Rect.t :=
  if Rect.colliderect p c then
    let p :=
      if PyFloat.gtb dx PyFloat.zero then Rect.set_right p (Rect.left c)
      else if PyFloat.ltb dx PyFloat.zero then Rect.set_left p (Rect.right c)
      else p in
    if PyFloat.gtb dy PyFloat.zero then Rect.set_bottom p (Rect.top c)
    else if PyFloat.ltb dy PyFloat.zero then Rect.set_top p (Rect.bottom c)
    else p
  else p.

Definition with_player (w : WorldState) (p : Rect.t) : WorldState :=
  {| map_id := map_id w; provider := provider w; player := p; zoom := zoom w;
     camera_x := camera_x w; camera_y := camera_y w;
     near_npc_label := near_npc_label w;
     near_portal_label := near_portal_label w;
     near_book_label := near_book_label w |}.

(** The clamp [int(clamp(float(v), 0.0, float(hi)))] acts on integers
    that a double holds exactly, and is taken on [Z]. *)
Definition _move_and_collide (dx dy : float) (w : WorldState) : result WorldState :=
  if PyFloat.eqb dx PyFloat.zero && PyFloat.eqb dy PyFloat.zero then Ok w
  else
    do kx <- PyFloat.to_int dx;
    do ky <- PyFloat.to_int dy;
    let p := player w in
    let p := Rect.set_x p (Rect.x p + kx) in
    let p := Rect.set_y p (Rect.y p + ky) in
    let bounds := _world_bounds w in
    let p := Rect.set_x p (clamp Z.ltb (Rect.x p) 0 (Rect.w bounds - Rect.w p)) in
    let p := Rect.set_y p (clamp Z.ltb (Rect.y p) 0 (Rect.h bounds - Rect.h p)) in
    Ok (with_player w (fold_left (push_back dx dy) (_colliders w) p)).

(** The two per-axis steps of [update] (lines 450-472) *)
Definition integrate (st : InputState) (dt : float) (w : WorldState) : result WorldState :=
  let '(dx, dy) := displacement st dt in
  do w <- _move_and_collide dx PyFloat.zero w;
  _move_and_collide PyFloat.zero dy w.

(** [max(0.0, v)] *)
Definition max0 (v : float) : float :=
  if PyFloat.gtb v PyFloat.zero then v else PyFloat.zero.

Definition update (st : InputState) (dt : float) (w : WorldState) (app : App)
    : result (WorldState * App * SceneResult) :=
  do w <- integrate st dt w;
  let bounds := _world_bounds w in
  do fw <- PyFloat.truediv (PyFloat.of_Z (SCREEN_W K)) (zoom w);
  do view_w <- PyFloat.to_int fw;
  do fh <- PyFloat.truediv (PyFloat.of_Z (SCREEN_H K)) (zoom w);
  do view_h <- PyFloat.to_int fh;
  let view_w := Z.max 160 view_w in
  let view_h := Z.max 120 view_h in
  let p := player w in
  let target_x :=
    PyFloat.sub
      (PyFloat.add (PyFloat.of_Z (Rect.x p)) (PyFloat.mul (PyFloat.of_Z (Rect.w p)) PyFloat.half))
      (PyFloat.mul (PyFloat.of_Z view_w) PyFloat.half) in
  let target_y :=
    PyFloat.sub
      (PyFloat.add (PyFloat.of_Z (Rect.y p)) (PyFloat.mul (PyFloat.of_Z (Rect.h p)) PyFloat.half))
      (PyFloat.mul (PyFloat.of_Z view_h) PyFloat.half) in
  let max_cx := max0 (PyFloat.of_Z (Rect.w bounds - view_w)) in
  let max_cy := max0 (PyFloat.of_Z (Rect.h bounds - view_h)) in
  let w :=
    {| map_id := map_id w; provider := provider w; player := player w; zoom := zoom w;
       camera_x := clamp PyFloat.ltb target_x PyFloat.zero max_cx;
       camera_y := clamp PyFloat.ltb target_y PyFloat.zero max_cy;
       near_npc_label := near_npc_label w;
       near_portal_label := near_portal_label w;
       near_book_label := near_book_label w |} in
  do sv <- Py.setdefault_setitem (save app) "world" "map" (PStr (map_id w));
  do sv <- Py.setitem2 sv "player" "x" (PFloat (PyFloat.of_Z (Rect.x p)));
  do sv <- Py.setitem2 sv "player" "y" (PFloat (PyFloat.of_Z (Rect.y p)));
  Ok (w, {| save := sv; slot := slot app |}, no_transition).

(** *** Interaction *)

Definition with_labels (w : WorldState) (n p b : option text) : WorldState :=
  {| map_id := map_id w; provider := provider w; player := player w; zoom := zoom w;
     camera_x := camera_x w; camera_y := camera_y w;
     near_npc_label := n; near_portal_label := p; near_book_label := b |}.

Definition center_dist_sq (p r : Rect.t) : Z :=
  dist_sq (Rect.centerx p) (Rect.centery p) (Rect.centerx r) (Rect.centery r).

(** The loop of [_closest_npc] *)
Fixpoint closest_npc_loop (p : Rect.t) (l : list Npc) (best : option Npc)
    (best_d : Z) : option Npc :=
  match l with
  | [] => best
  | npc :: l' =>
      let d := center_dist_sq p (npc_rect npc) in
      if d <=? best_d then closest_npc_loop p l' (Some npc) d
      else closest_npc_loop p l' best best_d
  end.

Definition _closest_npc (max_dist : Z) (w : WorldState) : result (option Npc) :=
  do l <- _npcs w;
  Ok (closest_npc_loop (player w) l None (max_dist * max_dist)).

(** The loop shared by [_closest_portal] and [_closest_book]: the first
    rectangle that overlaps the player is returned at once. *)
Fixpoint closest_rect_loop (p : Rect.t) (l : list Interactable)
    (best : option Interactable) (best_d : Z) : option Interactable :=
  match l with
  | [] => best
  | o :: l' =>
      if Rect.colliderect p (rect o) then Some o
      else
        let d := center_dist_sq p (rect o) in
        if d <=? best_d then closest_rect_loop p l' (Some o) d
        else closest_rect_loop p l' best best_d
  end.

Definition _closest_portal (max_dist : Z) (w : WorldState) : result (option Interactable) :=
  do l <- _portals w;
  Ok (closest_rect_loop (player w) l None (max_dist * max_dist)).

Definition _closest_book (max_dist : Z) (w : WorldState) : result (option Interactable) :=
  do l <- _books w;
  Ok (closest_rect_loop (player w) l None (max_dist * max_dist)).

(** [0.0 if self.player.colliderect(r) else dist_sq(...)] *)
Definition effective_dist (p r : Rect.t) : Z :=
  if Rect.colliderect p r then 0 else center_dist_sq p r.

Definition nearest_dist (n : Nearest) : Z :=
  match n with
  | NearNpc _ d | NearPortal _ d | NearBook _ d => d
  end.

(** The candidate replaces [best] when strictly closer. *)
Definition closer (best : option Nearest) (cand : Nearest) : option Nearest :=
  let best_d := match best with Some b => nearest_dist b | None => 999999999 end in
  if nearest_dist cand <? best_d then Some cand else best.

Definition _nearest_interactable (w : WorldState) : result (option Nearest) :=
  let p := player w in
  do npc <- _closest_npc 48 w;
  let best :=
    match npc with
    | Some n => Some (NearNpc n (center_dist_sq p (npc_rect n)))
    | None => None
    end in
  do portal <- _closest_portal 70 w;
  let best :=
    match portal with
    | Some o => closer best (NearPortal o (effective_dist p (rect o)))
    | None => best
    end in
  do book <- _closest_book 60 w;
  let best :=
    match book with
    | Some o => closer best (NearBook o (effective_dist p (rect o)))
    | None => best
    end in
  Ok best.

(** [self.save["player"]["x"] = float(self.player.x)], the same for [y],
    then [save_game(self.save)] *)
Definition store_position (w : WorldState) (app : App) : result App :=
  do sv <- Py.setitem2 (save app) "player" "x" (PFloat (PyFloat.of_Z (Rect.x (player w))));
  do sv <- Py.setitem2 sv "player" "y" (PFloat (PyFloat.of_Z (Rect.y (player w))));
  Ok (SaveSystem.save_game sv {| save := sv; slot := slot app |}).

(** The target coordinates of a portal: [float(data.get("target_x",
    self.player.x))] and the same for [y], the position of the player
    when either conversion raises. *)
Definition portal_target (w : WorldState) (data : pydict) : result (float * float) :=
  try_except
    (do tx <- Py.float_ (Dict.get_default "target_x" (PInt (Rect.x (player w))) data);
     do ty <- Py.float_ (Dict.get_default "target_y" (PInt (Rect.y (player w))) data);
     Ok (tx, ty))
    (Ok (PyFloat.of_Z (Rect.x (player w)), PyFloat.of_Z (Rect.y (player w)))).

Definition portal_zoom (data : pydict) : result (option float) :=
  match Dict.get_default "target_zoom" PNone data with
  | PNone => Ok None
  | tzoom => try_except (do z <- Py.float_ tzoom; Ok (Some z)) (Ok None)
  end.

Definition handle_input (w : WorldState) (app : App) (st : InputState)
    (events : list event) : result (WorldState * App * SceneResult) :=
  if cancel_pressed st then
    do app <- store_position w app;
    Ok (w, app, goto MenuScene_init)
  else
    let w := with_labels w None None None in
    do nearest <- _nearest_interactable w;
    match nearest with
    | None => Ok (w, app, no_transition)
    | Some (NearNpc data _) =>
        let w := with_labels w (Some (Text ("Press E to talk to " +:+ npc_id data)))
                   (near_portal_label w) (near_book_label w) in
        if interact_pressed st then
          let dpath := Py.or_else (npc_dialogue data) (PStr "data/dialogues/npc_aya.json") in
          do sc <- DialogueScene_init files (WorldScene w) dpath (npc_id data);
          Ok (w, app, goto sc)
        else Ok (w, app, no_transition)
    | Some (NearPortal o _) =>
        let data := props o in
        let prompt :=
          Py.or_else (Dict.get_default "prompt" PNone data)
            (PStr (if String.eqb (map_id w) "city" then "Press E to enter"
                   else "Press E to exit")) in
        let w := with_labels w (near_npc_label w) (Some (Py.str prompt))
                   (near_book_label w) in
        if interact_pressed st then
          let target_map := Py.str (Dict.get_default "target_map" (PStr "") data) in
          do txy <- portal_target w data;
          do z <- portal_zoom data;
          if Py.text_truthy target_map then
            do app <- store_position w app;
            do target <- Py.chars target_map;
            do (w', app) <- WorldScene_init K files app (Some target) (Some txy) z;
            Ok (w, app, goto (WorldScene w'))
          else Ok (w, app, no_transition)
        else Ok (w, app, no_transition)
    | Some (NearBook o _) =>
        let data := props o in
        let title := Py.str (Dict.get_default "title" (PStr "Book") data) in
        let body := Py.str (Dict.get_default "text" (PStr "") data) in
        let prompt := Py.or_else (Dict.get_default "prompt" PNone data) (PStr "Press E to read") in
        let w := with_labels w (near_npc_label w) (near_portal_label w)
                   (Some (Py.str prompt)) in
        if interact_pressed st then
          Ok (w, app, goto (InfoScene_init (WorldScene w) title body))
        else Ok (w, app, no_transition)
    end.

End WithConstants.
End World.

(** ** InfoScene *)

Module Info.

Definition handle_input (return_scene : scene) (i : InfoState) (st : InputState)
    (events : list event) : SceneResult :=
  if cancel_pressed st || confirm_pressed st || interact_pressed st
  then goto return_scene
  else no_transition.

End Info.

(** The selection after the [KEYDOWN] events of a frame (the loops over
    [events] of the dialogue and challenge scenes) *)
Definition move_selection (sel : Z) (events : list event) : Z :=
  fold_left (fun s ev =>
               match ev with
               | KEYDOWN K_UP => s - 1
               | KEYDOWN K_DOWN => s + 1
               | _ => s
               end) events sel.

(** [if sel < 0: sel = 0] then [if sel >= n: sel = n - 1] *)
Definition clamp_selection (sel n : Z) : Z :=
  let sel := if sel <? 0 then 0 else sel in
  if sel >=? n then n - 1 else sel.

(** ** DialogueScene *)

Module Dialogue.
Section WithFiles.

Variable files : Files.

Definition update (dt : float) (d : DialogueState) : DialogueState * SceneResult :=
  ({| dialogue_path := dialogue_path d; dlg_npc_id := dlg_npc_id d;
      nodes := nodes d; node_id := node_id d;
      selected_choice := selected_choice d;
      portrait_anim_time := PyFloat.add (portrait_anim_time d) dt |},
   no_transition).

(** [self.nodes.get(self.node_id, {})]; the keys of a decoded JSON object
    are text, so another hashable id finds nothing. *)
Definition current_node (d : DialogueState) : result pyval :=
  match nodes d with
  | PDict ns =>
      match node_id d with
      | PStr id => Ok (Dict.get_default id (PDict []) ns)
      | PList _ | PDict _ => Raise TypeError
      | PNone | PBool _ | PInt _ | PFloat _ => Ok (PDict [])
      end
  | _ => Raise AttributeError
  end.

Definition with_node (d : DialogueState) (id : pyval) (sel : Z) : DialogueState :=
  {| dialogue_path := dialogue_path d; dlg_npc_id := dlg_npc_id d;
     nodes := nodes d; node_id := id; selected_choice := sel;
     portrait_anim_time := portrait_anim_time d |}.

(** [trust = save.setdefault("trust", {})] and
    [trust[npc] = int(trust.get(npc, 0)) + trust_delta] *)
Definition add_trust (npc : string) (trust_delta : Z) (sv : pydict) : result pydict :=
  let '(trust, sv) := Py.setdefault sv "trust" (PDict []) in
  do old <- Py.get_default trust npc (PInt 0);
  do old <- Py.int old;
  do trust <- Py.setitem trust npc (PInt (old + trust_delta));
  Ok (Dict.set "trust" trust sv).

(** The tail of [handle_input] (lines 760-771): the action of the node,
    then the end of the dialogue on an empty node. *)
Definition node_action (return_scene : scene) (d : DialogueState) (app : App)
    (node : pyval) : result (DialogueState * App * SceneResult) :=
  do action <- Py.get_default node "action" PNone;
  do launched <-
    match action with
    | PDict a =>
        match Dict.get "type" a with
        | Some (PStr ty) =>
            if String.eqb ty "start_challenge" then
              let ch_set := Py.str (Dict.get_default "challenge_set" (PStr "") a) in
              if Py.text_truthy ch_set then
                do id <- Py.chars ch_set;
                let app := SaveSystem.save_game (save app) app in
                do sc <- ChallengeScene_init files return_scene id;
                Ok (Some (d, app, goto sc))
              else Ok None
            else Ok None
        | _ => Ok None
        end
    | _ => Ok None
    end;
  match launched with
  | Some r => Ok r
  | None =>
      if negb (Py.truthy node)
      then Ok (d, SaveSystem.save_game (save app) app, goto return_scene)
      else Ok (d, app, no_transition)
  end.

Definition handle_input (return_scene : scene) (d : DialogueState) (app : App)
    (st : InputState) (events : list event)
    : result (DialogueState * App * SceneResult) :=
  if cancel_pressed st then
    Ok (d, SaveSystem.save_game (save app) app, goto return_scene)
  else
    do node <- current_node d;
    do choices <- Py.get_default node "choices" PNone;
    match choices with
    | PList (c :: cs) =>
        let opts := c :: cs in
        let sel := clamp_selection (move_selection (selected_choice d) events)
                     (Z.of_nat (length opts)) in
        let d := with_node d (node_id d) sel in
        if confirm_pressed st then
          do choice <- Py.list_index opts sel;
          do delta <- Py.get_default choice "trust_delta" (PInt 0);
          do delta <- Py.int delta;
          do sv <- add_trust (dlg_npc_id d) delta (save app);
          let app := {| save := sv; slot := slot app |} in
          do nxt <- Py.get_default choice "next" PNone;
          if Py.truthy nxt then
            do id <- Py.chars (Py.str nxt);
            Ok (with_node d (PStr id) 0, app, no_transition)
          else node_action return_scene d app node
        else node_action return_scene d app node
    | _ =>
        if confirm_pressed st then
          do nxt <- Py.get_default node "next" PNone;
          if Py.truthy nxt then
            do id <- Py.chars (Py.str nxt);
            Ok (with_node d (PStr id) (selected_choice d), app, no_transition)
          else node_action return_scene d app node
        else node_action return_scene d app node
    end.

End WithFiles.
End Dialogue.

(** ** ChallengeScene *)

Module Challenge.

Definition with_progress (c : ChallengeState) (i sel : Z) (feedback correct : bool)
    (expl : text) (earned : Z) : ChallengeState :=
  {| challenge_set_id := challenge_set_id c; ch_title := ch_title c;
     category := category c; questions := questions c;
     qi := i; selected := sel; showing_feedback := feedback;
     last_correct := correct; last_expl := expl;
     points_earned := earned; max_points := max_points c |}.

(** [self.challenge_set_id not in comp] then [comp.append(...)], for the
    value [comp] found under ["challenges"]; a dict answers by its keys
    and has no [append]. *)
Definition is_text (id : string) (v : pyval) : bool :=
  match v with PStr s => String.eqb s id | _ => false end.

Definition append_once (id : string) (comp : pyval) : result pyval :=
  match comp with
  | PList l => if existsb (is_text id) l then Ok comp else Ok (PList (l ++ [PStr id]))
  | PDict d => if Dict.has id d then Ok comp else Raise AttributeError
  | PStr _ => Unmodelled
  | PNone | PBool _ | PInt _ | PFloat _ => Raise TypeError
  end.

(** [comp = save.setdefault("completed", {}).setdefault("challenges", [])]
    and the conditional append (lines 912-914) *)
Definition record_completed (id : string) (sv : pydict) : result pydict :=
  let '(completed, sv) := Py.setdefault sv "completed" (PDict []) in
  match completed with
  | PDict c =>
      let '(comp, c) := Py.setdefault c "challenges" (PList []) in
      do comp <- append_once id comp;
      Ok (Dict.set "completed" (PDict (Dict.set "challenges" comp c)) sv)
  | _ => Raise AttributeError
  end.

(** [scores[k] = int(scores.get(k, 0)) + pts] *)
Definition bump (k : string) (pts : Z) (scores : pyval) : result pyval :=
  do old <- Py.get_default scores k (PInt 0);
  do old <- Py.int old;
  Py.setitem scores k (PInt (old + pts)).

(** The award of a correct answer (lines 938-940) *)
Definition award (cat : string) (pts : Z) (sv : pydict) : result pydict :=
  let '(scores, sv) := Py.setdefault sv "scores" (PDict []) in
  do scores <- bump "total" pts scores;
  do scores <- bump cat pts scores;
  Ok (Dict.set "scores" scores sv).

Definition handle_input (return_scene : scene) (c : ChallengeState) (app : App)
    (st : InputState) (events : list event)
    : result (ChallengeState * App * SceneResult) :=
  if cancel_pressed st then
    Ok (c, SaveSystem.save_game (save app) app, goto return_scene)
  else if negb (Py.truthy (questions c)) then
    Ok (c, app, goto (ResultsScene_init return_scene (ch_title c)
                        (points_earned c) (max_points c)))
  else
    do q <- Py.getindex (questions c) (qi c);
    do choices <- Py.get_default q "choices" (PList []);
    if showing_feedback c then
      if confirm_pressed st then
        let c := with_progress c (qi c + 1) 0 false (last_correct c) (last_expl c)
                   (points_earned c) in
        do n <- Py.len (questions c);
        if qi c >=? n then
          do sv <- record_completed (challenge_set_id c) (save app);
          let app := SaveSystem.save_game sv {| save := sv; slot := slot app |} in
          Ok (c, app, goto (ResultsScene_init return_scene (ch_title c)
                              (points_earned c) (max_points c)))
        else Ok (c, app, no_transition)
      else Ok (c, app, no_transition)
    else
      let sel := move_selection (selected c) events in
      let sel := if sel <? 0 then 0 else sel in
      do n <- Py.len choices;
      let sel := if sel >=? n then n - 1 else sel in
      let c := with_progress c (qi c) sel (showing_feedback c) (last_correct c)
                 (last_expl c) (points_earned c) in
      if confirm_pressed st then
        do ci <- Py.get_default q "correct_index" (PInt 0);
        do correct_i <- Py.int ci;
        let correct := sel =? correct_i in
        do ex <- Py.get_default q "explanation" (PStr "");
        let expl := Py.str ex in
        if correct then
          do p <- Py.get_default q "points" (PInt 100);
          do pts <- Py.int p;
          do sv <- award (category c) pts (save app);
          let c := with_progress c (qi c) sel true correct expl (points_earned c + pts) in
          Ok (c, SaveSystem.save_game sv {| save := sv; slot := slot app |}, no_transition)
        else
          let c := with_progress c (qi c) sel true correct expl (points_earned c) in
          Ok (c, SaveSystem.save_game (save app) app, no_transition)
      else Ok (c, app, no_transition)
    .

End Challenge.

(** ** ResultsScene *)

Module Results.

Definition ge (a b : float) : bool := SFleb b a.

(** [_grade]; [None] is the grade ["N/A"]. *)
Definition _grade (r : ResultsState) : option string :=
  if res_max_points r <=? 0 then None
  else
    let pct := PyFloat.div (PyFloat.mul (PyFloat.of_Z (points r)) (PyFloat.of_Z 100))
                           (PyFloat.of_Z (res_max_points r)) in
    if ge pct (PyFloat.of_Z 90) then Some "S"
    else if ge pct (PyFloat.of_Z 80) then Some "A"
    else if ge pct (PyFloat.of_Z 70) then Some "B"
    else if ge pct (PyFloat.of_Z 60) then Some "C"
    else Some "D".

Definition handle_input (return_scene : scene) (r : ResultsState) (st : InputState)
    (events : list event) : SceneResult :=
  if confirm_pressed st || cancel_pressed st then goto return_scene
  else no_transition.

End Results.

(** ** MenuScene *)

Module Menu.
Section WithConstants.

Variable K : Constants.
Variable files : Files.

(** The options are ["New Game"], ["Load Game"] and ["Quit"]. *)
Definition move (sel : Z) (events : list event) : Z :=
  fold_left (fun s ev =>
               match ev with
               | KEYDOWN K_UP => (s - 1) mod 3
               | KEYDOWN K_DOWN => (s + 1) mod 3
               | _ => s
               end) events sel.

Definition handle_input (sel : Z) (app : App) (st : InputState) (events : list event)
    : result (Z * App * SceneResult) :=
  let sel := move sel events in
  if confirm_pressed st then
    if sel =? 0 then
      let app := SaveSystem.save_game SaveSystem.default_save
                   {| save := SaveSystem.default_save; slot := slot app |} in
      do (w, app) <- WorldScene_init K files app None None None;
      Ok (sel, app, goto (WorldScene w))
    else if sel =? 1 then
      do sv <- SaveSystem.load_save (slot app);
      do (w, app) <- WorldScene_init K files {| save := sv; slot := slot app |} None None None;
      Ok (sel, app, goto (WorldScene w))
    else if sel =? 2 then
      Ok (sel, app, {| next_scene := None; quit_game := true |})
    else Ok (sel, app, no_transition)
  else Ok (sel, app, no_transition).

End WithConstants.
End Menu.

(** ** The frame loop of [App.run] *)

Section Frame.

Variable K : Constants.
Variable files : Files.

Definition scene_handle_input (s : scene) (app : App) (st : InputState)
    (events : list event) : result (scene * App * SceneResult) :=
  match s with
  | MenuScene sel =>
      do (sel, app, r) <- Menu.handle_input K files sel app st events;
      Ok (MenuScene sel, app, r)
  | WorldScene w =>
      do (w, app, r) <- World.handle_input K files w app st events;
      Ok (WorldScene w, app, r)
  | InfoScene ret i => Ok (s, app, Info.handle_input ret i st events)
  | DialogueScene ret d =>
      do (d, app, r) <- Dialogue.handle_input files ret d app st events;
      Ok (DialogueScene ret d, app, r)
  | ChallengeScene ret c =>
      do (c, app, r) <- Challenge.handle_input ret c app st events;
      Ok (ChallengeScene ret c, app, r)
  | ResultsScene ret r => Ok (s, app, Results.handle_input ret r st events)
  end.

Definition scene_update (s : scene) (app : App) (st : InputState) (dt : float)
    : result (scene * App * SceneResult) :=
  match s with
  | WorldScene w =>
      do (w, app, r) <- World.update K st dt w app;
      Ok (WorldScene w, app, r)
  | DialogueScene ret d =>
      let '(d, r) := Dialogue.update dt d in Ok (DialogueScene ret d, app, r)
  | _ => Ok (s, app, no_transition)
  end.

Definition switch (s : scene) (r : SceneResult) : scene :=
  match next_scene r with Some s' => s' | None => s end.

(** One iteration of the loop: the scene current at the end of the frame,
    the application state, and whether the loop continues. *)
Definition frame (s : scene) (app : App) (keys : key -> bool) (events : list event)
    (dt : float) : result (scene * App * bool) :=
  let running := negb (existsb (fun ev => match ev with QUIT => true | _ => false end) events) in
  let st := build_input_state keys events in
  do (s, app, r1) <- scene_handle_input s app st events;
  let s := switch s r1 in
  do (s, app, r2) <- scene_update s app st dt;
  let s := switch s r2 in
  Ok (s, app, running && negb (quit_game r1) && negb (quit_game r2)).

End Frame.

(** ** game/tiled.py: reading a map document

    [TiledMap.__init__] on the decoded JSON of the map file.  The tile
    layers and the tile surfaces serve drawing only; of [_load_tileset]
    the embedding keeps what can end the construction: the checks up to
    the loading of the tileset image, which is not modelled. *)

Module TiledFile.

(** [s.lower()], expanded for ASCII text *)
Definition lower_ascii (c : Ascii.ascii) : Ascii.ascii :=
  let n := Ascii.N_of_ascii c in
  if ((65 <=? n) && (n <=? 90))%N then Ascii.ascii_of_N (n + 32) else c.

Definition lower (t : text) : result string :=
  match t with
  | Text s =>
      if Py.is_ascii s
      then Ok (String.string_of_list_ascii (map lower_ascii (String.list_ascii_of_string s)))
      else Unmodelled
  | Repr _ => Unmodelled
  end.

(** The loop of [_props_list_to_dict]:
    [out[str(p.get("name"))] = p.get("value")] *)
Fixpoint props_loop (items : list pyval) (out : pydict) : result pydict :=
  match items with
  | [] => Ok out
  | p :: rest =>
      do value <- Py.get_default p "value" PNone;
      do name <- Py.get_default p "name" PNone;
      do key <- Py.chars (Py.str name);
      props_loop rest (Dict.set key value out)
  end.

(** [_props_list_to_dict(props)]; [PNone] is Python's [None]. *)
Definition _props_list_to_dict (props : pyval) : result pydict :=
  if negb (Py.truthy props) then Ok []
  else do items <- iterate props; props_loop items [].

(** [int(obj.get(k, dflt))] and [float(obj.get(k, dflt))] *)
Definition int_field (obj : pyval) (k : string) (dflt : pyval) : result Z :=
  do v <- Py.get_default obj k dflt; Py.int v.

Definition float_field (obj : pyval) (k : string) (dflt : pyval) : result float :=
  do v <- Py.get_default obj k dflt; Py.float_ v.

(** One object of a [colliders] layer *)
Definition collider_rect (obj : pyval) : result Rect.t :=
  do x <- int_field obj "x" (PInt 0);
  do y <- int_field obj "y" (PInt 0);
  do w <- int_field obj "width" (PInt 0);
  do h <- int_field obj "height" (PInt 0);
  Ok (Rect.mk x y w h).

(** One object of an [npcs], [portals] or [books] layer; [dflt] is the
    name of an object that has none. *)
Definition tiled_object (dflt : string) (obj : pyval) : result TiledObject :=
  do plist <- Py.get_default obj "properties" (PList []);
  do props <- _props_list_to_dict (Py.or_else plist (PList []));
  do name <- Py.get_default obj "name" (PStr dflt);
  do x <- float_field obj "x" (PFloat PyFloat.zero);
  do y <- float_field obj "y" (PFloat PyFloat.zero);
  do w <- float_field obj "width" (PFloat (PyFloat.of_Z 16));
  do h <- float_field obj "height" (PFloat (PyFloat.of_Z 16));
  do name <- Py.chars (Py.str name);
  Ok {| obj_name := name; obj_x := x; obj_y := y; obj_w := w; obj_h := h;
        obj_properties := props |}.

(** The lists that [_parse_layers] fills *)
Record Layers : Type := {
  colliders : list Rect.t;
  npcs : list TiledObject;
  portals : list TiledObject;
  books : list TiledObject
}.

Definition no_layers : Layers :=
  {| colliders := []; npcs := []; portals := []; books := [] |}.

(** [for obj in layer.get("objects", []): ...] *)
Definition objects_of {A} (f : pyval -> result A) (layer : pyval) : result (list A) :=
  do objs <- Py.get_default layer "objects" (PList []);
  do items <- iterate objs;
  World.collect f items.

(** The body of the loop of [_parse_layers] for one layer *)
Definition parse_layer (acc : Layers) (layer : pyval) : result Layers :=
  do ltype <- Py.get_default layer "type" PNone;
  match ltype with
  | PStr ty =>
      if String.eqb ty "tilelayer" then Ok acc
      else if String.eqb ty "objectgroup" then
        do lname <- Py.get_default layer "name" (PStr "");
        do lname <- lower (Py.str lname);
        if String.eqb lname "colliders" then
          do rects <- objects_of collider_rect layer;
          Ok {| colliders := colliders acc ++ rects; npcs := npcs acc;
                portals := portals acc; books := books acc |}
        else if String.eqb lname "npcs" then
          do objs <- objects_of (tiled_object "npc") layer;
          Ok {| colliders := colliders acc; npcs := npcs acc ++ objs;
                portals := portals acc; books := books acc |}
        else if String.eqb lname "portals" then
          do objs <- objects_of (tiled_object "portal") layer;
          Ok {| colliders := colliders acc; npcs := npcs acc;
                portals := portals acc ++ objs; books := books acc |}
        else if String.eqb lname "books" || String.eqb lname "interactables" then
          do objs <- objects_of (tiled_object "book") layer;
          Ok {| colliders := colliders acc; npcs := npcs acc;
                portals := portals acc; books := books acc ++ objs |}
        else Ok acc
      else Ok acc
  | _ => Ok acc
  end.

Fixpoint parse_layers (acc : Layers) (layers : list pyval) : result Layers :=
  match layers with
  | [] => Ok acc
  | layer :: rest => do acc' <- parse_layer acc layer; parse_layers acc' rest
  end.

Definition _parse_layers (raw : pyval) : result Layers :=
  do layers <- Py.get_default raw "layers" (PList []);
  do items <- iterate layers;
  parse_layers no_layers items.

(** ["source" in ts0] *)
Definition has_source (ts0 : pyval) : result bool :=
  match ts0 with
  | PDict d => Ok (Dict.has "source" d)
  | PList l =>
      Ok (existsb (fun e => match e with PStr s => String.eqb s "source" | _ => false end) l)
  | PStr s =>
      Ok (match String.index 0 "source" s with Some _ => true | None => false end)
  | PNone | PBool _ | PInt _ | PFloat _ => Raise TypeError
  end.

(** [_load_tileset], up to the image: the first gid of the tileset, 1
    when the map has none. *)
Definition _load_tileset (raw : pyval) : result Z :=
  do tilesets <- Py.get_default raw "tilesets" (PList []);
  if negb (Py.truthy tilesets) then Ok 1
  else
    do ts0 <- Py.getindex tilesets 0;
    do external <- has_source ts0;
    if external then Raise RuntimeError
    else
      do firstgid <- int_field ts0 "firstgid" (PInt 1);
      do image_rel <- Py.get ts0 "image";
      match image_rel with
      | None => Ok firstgid
      | Some v => if negb (Py.truthy v) then Ok firstgid else Unmodelled
      end.

(** [TiledMap(json_path)] for a file that holds the JSON value [raw] *)
Definition TiledMap_init (raw : pyval) : result TiledMap :=
  do width <- int_field raw "width" (PInt 0);
  do height <- int_field raw "height" (PInt 0);
  do tile_w <- int_field raw "tilewidth" (PInt 0);
  do tile_h <- int_field raw "tileheight" (PInt 0);
  do plist <- Py.get_default raw "properties" PNone;
  do props <- _props_list_to_dict plist;
  do layers <- _parse_layers raw;
  do _ <- _load_tileset raw;
  Ok {| tiled_pixel_w := width * tile_w;
        tiled_pixel_h := height * tile_h;
        tiled_properties := props;
        tiled_colliders := colliders layers;
        tiled_npcs := npcs layers;
        tiled_portals := portals layers;
        tiled_books := books layers |}.

(** [get_npc_rects] *)
Definition get_npc_rects (m : TiledMap) : result (list Rect.t) :=
  World.collect
    (fun npc =>
       do x <- PyFloat.to_int (obj_x npc);
       do y <- PyFloat.to_int (obj_y npc);
       do w <- PyFloat.to_int (obj_w npc);
       do h <- PyFloat.to_int (obj_h npc);
       Ok (Rect.mk x y w h))
    (tiled_npcs m).

End TiledFile.

(** ** game/ui.py: wrapping a text into lines

    [size] is the width in pixels that the font gives to a piece of text,
    [font.size(text)[0]].  Text is taken byte by byte; a space is a single
    byte in UTF-8 and no part of another character. *)

Module Ui.
Section WithFont.

Variable size : string -> Z.

Definition space : Ascii.ascii := Ascii.ascii_of_nat 32.

(** [text.split(" ")] *)
Fixpoint split_space (s : string) : list string :=
  match s with
  | EmptyString => [EmptyString]
  | String c s' =>
      if Ascii.eqb c space then EmptyString :: split_space s'
      else match split_space s' with
           | w :: ws => String c w :: ws
           | [] => [String c EmptyString]
           end
  end.

Definition nonempty (s : string) : bool := negb (String.eqb s EmptyString).

(** The body of the loop over the words: the lines so far and [cur] *)
Definition wrap_step (max_width : Z) (st : list string * string) (w : string)
    : list string * string :=
  let '(lines, cur) := st in
  let test := if String.eqb cur EmptyString then w else cur +:+ " " +:+ w in
  if size test <=? max_width then (lines, test)
  else ((if nonempty cur then lines ++ [cur] else lines), w).

Definition wrap_text (text : string) (max_width : Z) : list string :=
  let '(lines, cur) := fold_left (wrap_step max_width) (split_space text) ([], EmptyString) in
  if nonempty cur then lines ++ [cur] else lines.

(** The lines that [TextBox.draw] renders: [lines[:8]] *)
Definition shown_lines (text : string) (max_width : Z) : list string :=
  firstn 8 (wrap_text text max_width).

End WithFont.
End Ui.

(** ** Concrete scenarios

    Values for the absent [constants.py] and small maps, used where a
    property is evaluated on an explicit input. *)

Definition sample_constants : Constants :=
  {| PLAYER_SPEED := PyFloat.of_Z 100;
     PLAYER_W := 16;
     PLAYER_H := 16;
     SCREEN_W := 960;
     SCREEN_H := 540;
     TILE_SIZE := 16 |}.

Definition no_files : Files :=
  {| map_file := fun _ => None; json_file := fun _ => Raise FileNotFoundError |}.

Definition keys_held (l r u d : bool) : InputState :=
  {| up := u; down := d; left := l; right := r;
     interact_pressed := false; confirm_pressed := false; cancel_pressed := false |}.

Definition world_on (m : TiledMap) (p : Rect.t) : WorldState :=
  {| map_id := "test"; provider := Tiled m; player := p;
     zoom := PyFloat.one; camera_x := PyFloat.zero; camera_y := PyFloat.zero;
     near_npc_label := None; near_portal_label := None; near_book_label := None |}.

Definition bare_map (wpx hpx : Z) (colliders : list Rect.t) : TiledMap :=
  {| tiled_pixel_w := wpx; tiled_pixel_h := hpx; tiled_properties := [];
     tiled_colliders := colliders;
     tiled_npcs := []; tiled_portals := []; tiled_books := [] |}.

(** A corridor with a thin post in front of a wall, the post listed first. *)
Definition corridor : TiledMap :=
  bare_map 300 100 [Rect.mk 20 0 2 100; Rect.mk 30 0 50 100].

(** A wall whose rectangle was drawn from right to left: it covers the
    pixels 40 to 59. *)
Definition backward_wall : TiledMap :=
  bare_map 300 100 [Rect.mk 60 0 (-20) 100].

(** An open field without colliders. *)
Definition field : TiledMap := bare_map 1000 1000 [].

(** Squared length of the move from [w] to [w'], in pixels, and the exact
    squared length of a float displacement. *)
Definition moved_sq (w w' : WorldState) : Z :=
  dist_sq (Rect.x (player w')) (Rect.y (player w')) (Rect.x (player w)) (Rect.y (player w)).

Definition sq_length (d : float * float) : option Q :=
  match PyFloat.to_Q (fst d), PyFloat.to_Q (snd d) with
  | Some a, Some b => Some (a * a + b * b)%Q
  | _, _ => None
  end.

(** The exact value of the double [1.0 / math.sqrt(2.0)] *)
Definition inv_sqrt2_exact : Q := (6369051672525772 # 9007199254740992)%Q.

(** The rectangle of a resolved interactable. *)
Definition nearest_rect (n : Nearest) : Rect.t :=
  match n with
  | NearNpc d _ => npc_rect d
  | NearPortal o _ | NearBook o _ => rect o
  end.

Definition pressing (interact confirm cancel : bool) : InputState :=
  {| up := false; down := false; left := false; right := false;
     interact_pressed := interact; confirm_pressed := confirm; cancel_pressed := cancel |}.

Definition fresh_app : App := {| save := SaveSystem.default_save; slot := Absent |}.

(** The generated city with the player standing on the door of house 1. *)
Definition city_at_door : WorldState :=
  {| map_id := "city";
     provider := Generated (GeneratedMap_init sample_constants "city");
     player := Rect.mk 600 420 16 16;
     zoom := PyFloat.one; camera_x := PyFloat.zero; camera_y := PyFloat.zero;
     near_npc_label := None; near_portal_label := None; near_book_label := None |}.

(** A map whose door is guarded: an NPC and a portal on the same spot. *)
Definition tiled_object (name : string) (x y w h : Z) (properties : pydict) : TiledObject :=
  {| obj_name := name;
     obj_x := PyFloat.of_Z x; obj_y := PyFloat.of_Z y;
     obj_w := PyFloat.of_Z w; obj_h := PyFloat.of_Z h;
     obj_properties := properties |}.

Definition guarded_door : TiledMap :=
  {| tiled_pixel_w := 400; tiled_pixel_h := 300; tiled_properties := [];
     tiled_colliders := [];
     tiled_npcs := [ tiled_object "guard" 100 100 16 16
                       [ ("dialogue", PStr "data/dialogues/guard.json") ] ];
     tiled_portals := [ tiled_object "door" 100 100 16 16
                          [ ("target_map", PStr "house_1");
                            ("target_x", PInt 240); ("target_y", PInt 300) ] ];
     tiled_books := [] |}.

Definition guard_dialogue : pyval :=
  PDict [ ("start_node", PStr "intro");
          ("nodes", PDict [ ("intro", PDict [ ("speaker", PStr "Guard");
                                              ("text", PStr "Halt.") ]) ]) ].

Definition guard_files : Files :=
  {| map_file := fun _ => None;
     json_file := fun path =>
       if String.eqb path "data/dialogues/guard.json" then Ok guard_dialogue
       else Raise FileNotFoundError |}.

(** A door whose target lies between pixels. *)
Definition offgrid_door : TiledMap :=
  {| tiled_pixel_w := 400; tiled_pixel_h := 300; tiled_properties := [];
     tiled_colliders := [];
     tiled_npcs := [];
     tiled_portals := [ tiled_object "door" 100 100 16 16
                          [ ("target_map", PStr "house_1");
                            ("target_x", PFloat (PyFloat.lit 481 2));
                            ("target_y", PFloat (PyFloat.lit 1203 4)) ] ];
     tiled_books := [] |}.

(** The finite float [f] has the exact value [q]. *)
Definition exactly (f : float) (q : Q) : Prop :=
  match PyFloat.to_Q f with
  | Some v => (v == q)%Q
  | None => False
  end.

(** The trust score of an NPC as the dialogue reads it:
    [int(save.get("trust", {}).get(npc, 0))] *)
Definition trust_of (npc : string) (sv : pydict) : result Z :=
  do old <- Py.get_default (Dict.get_default "trust" (PDict []) sv) npc (PInt 0);
  Py.int old.

(** A dialogue over the nodes [ns], standing on node [id] *)
Definition dialogue_at (ns : pydict) (id : string) (sel : Z) : DialogueState :=
  {| dialogue_path := "data/dialogues/npc_aya.json"; dlg_npc_id := "aya";
     nodes := PDict ns; node_id := PStr id; selected_choice := sel;
     portrait_anim_time := PyFloat.zero |}.

Definition aya_nodes : pydict :=
  [ ("intro",
     PDict [ ("speaker", PStr "Aya"); ("text", PStr "Got a strange e-mail?");
             ("choices",
              PList [ PDict [ ("label", PStr "Report it"); ("trust_delta", PInt 2);
                              ("next", PStr "praise") ];
                      PDict [ ("label", PStr "Click the link"); ("trust_delta", PInt (-1)) ] ]) ]);
    ("praise",
     PDict [ ("speaker", PStr "Aya"); ("text", PStr "Good call."); ("next", PStr "quiz") ]);
    ("quiz",
     PDict [ ("speaker", PStr "Aya"); ("text", PStr "Let us practise.");
             ("next", PStr "after");
             ("action", PDict [ ("type", PStr "start_challenge");
                                ("challenge_set", PStr "phishing_1") ]) ]) ].

Definition phishing_questions : list pyval :=
  [ PDict [ ("prompt", PStr "A bank asks for your password by e-mail.");
            ("choices", PList [PStr "Reply"; PStr "Report"]);
            ("correct_index", PInt 1); ("points", PInt 100);
            ("explanation", PStr "Banks never ask for passwords.") ];
    PDict [ ("prompt", PStr "The link shows a different domain.");
            ("choices", PList [PStr "Ignore it"; PStr "Open it"; PStr "Forward it"]);
            ("correct_index", PInt 0); ("points", PInt 100);
            ("explanation", PStr "Check the domain first.") ] ].

Definition phishing_1 : pyval :=
  PDict [ ("title", PStr "Phishing 1"); ("category", PStr "phishing");
          ("questions", PList phishing_questions) ].

(** The scene [ChallengeScene(app, return_scene, "phishing_1")] starts in *)
Definition phishing_scene : ChallengeState :=
  {| challenge_set_id := "phishing_1"; ch_title := Text "Phishing 1";
     category := "phishing"; questions := PList phishing_questions;
     qi := 0; selected := 0; showing_feedback := false; last_correct := false;
     last_expl := Text ""; points_earned := 0; max_points := 200 |}.

Definition game_files : Files :=
  {| map_file := fun _ => None;
     json_file := fun path =>
       if String.eqb path "data/challenges/phishing_1.json" then Ok phishing_1
       else if String.eqb path "data/dialogues/npc_aya.json"
            then Ok (PDict [ ("start_node", PStr "intro"); ("nodes", PDict aya_nodes) ])
            else Raise FileNotFoundError |}.

(** *** Quiz runs *)

(** A score bucket as the quiz reads it: [int(save.get("scores", {}).get(k, 0))] *)
Definition score_of (k : string) (sv : pydict) : result Z :=
  do old <- Py.get_default (Dict.get_default "scores" (PDict []) sv) k (PInt 0);
  Py.int old.

(** The entries of [completed.challenges] *)
Definition completed_list (sv : pydict) : list pyval :=
  match Dict.get "completed" sv with
  | Some (PDict c) =>
      match Dict.get "challenges" c with
      | Some (PList l) => l
      | _ => []
      end
  | _ => []
  end.

(** [int(q.get("points", 100))] and [int(q.get("correct_index", 0))] of a
    question, 0 where the conversion does not succeed *)
Definition question_points (q : pyval) : Z :=
  match (do p <- Py.get_default q "points" (PInt 100); Py.int p) with
  | Ok n => n
  | _ => 0
  end.

Definition question_correct (q : pyval) : result Z :=
  do ci <- Py.get_default q "correct_index" (PInt 0); Py.int ci.

(** One frame of input *)
Definition frame_input : Type := InputState * list event.

(** A quiz played over a sequence of frames until a transition is
    requested.  [log] collects the answers given: for each frame that turns
    the feedback on, the index of the question and the selection the scene
    holds at that confirm. *)
Fixpoint play (return_scene : scene) (c : ChallengeState) (app : App)
    (frames : list frame_input) (log : list (Z * Z))
    : result (ChallengeState * App * SceneResult * list (Z * Z)) :=
  match frames with
  | [] => Ok (c, app, no_transition, log)
  | (st, events) :: frames' =>
      do (c', app', r) <- Challenge.handle_input return_scene c app st events;
      let log' :=
        if negb (showing_feedback c) && showing_feedback c'
        then log ++ [(qi c', selected c')]
        else log in
      match next_scene r with
      | Some _ => Ok (c', app', r, log')
      | None => play return_scene c' app' frames' log'
      end
  end.

(** The points of the answers in [log] that match the correct index *)
Definition graded (qs : list pyval) (answer : Z * Z) : Z :=
  match qs !! Z.to_nat (fst answer) with
  | Some q =>
      match question_correct q with
      | Ok ci => if snd answer =? ci then question_points q else 0
      | _ => 0
      end
  | None => 0
  end.

Definition earned (qs : list pyval) (log : list (Z * Z)) : Z :=
  fold_right (fun a acc => graded qs a + acc) 0 log.

Definition total_points (qs : list pyval) : Z :=
  fold_right (fun q acc => question_points q + acc) 0 qs.

(** The scene of a quiz whose last feedback is on screen, and the same set
    finished again and again by such scenes. *)
Fixpoint finish_all (return_scene : scene) (cs : list ChallengeState) (app : App)
    (st : InputState) : result App :=
  match cs with
  | [] => Ok app
  | c :: cs' =>
      do (_, app', _) <- Challenge.handle_input return_scene c app st [];
      finish_all return_scene cs' app' st
  end.

(** The same quiz with the feedback of its last question on screen *)
Definition phishing_finished : ChallengeState :=
  {| challenge_set_id := "phishing_1"; ch_title := Text "Phishing 1";
     category := "phishing"; questions := PList phishing_questions;
     qi := 1; selected := 0; showing_feedback := true; last_correct := true;
     last_expl := Text "Check the domain first."; points_earned := 200;
     max_points := 200 |}.

(** The generated house with the player at the first book on the shelf. *)
Definition house_at_shelf : WorldState :=
  {| map_id := "house_1";
     provider := Generated (GeneratedMap_init sample_constants "house_1");
     player := Rect.mk 410 185 16 16;
     zoom := PyFloat.lit 16 10; camera_x := PyFloat.zero; camera_y := PyFloat.zero;
     near_npc_label := None; near_portal_label := None; near_book_label := None |}.

(** ** Vocabulary of the properties *)

(** The player rectangle lies within the world bounds. *)
Definition in_bounds (w : WorldState) : Prop :=
  Rect.within (World._world_bounds w) (player w).

(** The player rectangle overlaps no collider of the map. *)
Definition clear_of_colliders (w : WorldState) : Prop :=
  Forall (fun c => Rect.colliderect (player w) c = false) (World._colliders w).

(** The rectangle [r] overlaps no collider of the map of [w]. *)
Definition free_at (w : WorldState) (r : Rect.t) : Prop :=
  Forall (fun c => Rect.colliderect r c = false) (World._colliders w).

(** The player is unobstructed at [r]: the rectangle lies within the
    world bounds and overlaps no collider. *)
Definition unobstructed (w : WorldState) (r : Rect.t) : Prop :=
  Rect.within (World._world_bounds w) r /\ free_at w r.

(** [z] fits a field of a [pygame.Rect], a 32-bit C int. *)
Definition c_int (z : Z) : Prop := - 2 ^ 31 <= z < 2 ^ 31.

(** [x] occurs exactly once, and at most once, in the list [l]. *)
Definition exactly_once {A : Type} (x : A) (l : list A) : Prop :=
  exists before after, l = before ++ x :: after /\ ~ In x before /\ ~ In x after.

Definition at_most_once {A : Type} (x : A) (l : list A) : Prop :=
  ~ In x l \/ exactly_once x l.

(** Colliders as a map document describes them: no negative size. *)
Definition proper_colliders (w : WorldState) : Prop :=
  Forall (fun c => 0 <= Rect.w c /\ 0 <= Rect.h c) (World._colliders w).

(** Geometry of one axis step: [p0] is the rectangle before the step and
    [p] a position reached during the collider loop. *)
Definition same_size (p0 p : Rect.t) : Prop :=
  Rect.w p = Rect.w p0 /\ Rect.h p = Rect.h p0.

(** The four directions of a single-axis step. *)
Inductive heading : Type := East | West | South | North.

Definition heads (hd : heading) (dx dy : float) : Prop :=
  match hd with
  | East => PyFloat.gtb dx PyFloat.zero = true /\ dy = PyFloat.zero
  | West => PyFloat.ltb dx PyFloat.zero = true
            /\ PyFloat.gtb dx PyFloat.zero = false /\ dy = PyFloat.zero
  | South => PyFloat.gtb dy PyFloat.zero = true /\ dx = PyFloat.zero
  | North => PyFloat.ltb dy PyFloat.zero = true
             /\ PyFloat.gtb dy PyFloat.zero = false /\ dx = PyFloat.zero
  end.

(** [p] is on the way from [p0] in direction [hd], no further than the
    size of the player. *)
Definition on_the_way (hd : heading) (p0 p : Rect.t) : Prop :=
  same_size p0 p /\
  match hd with
  | East => Rect.y p = Rect.y p0 /\ Rect.x p0 <= Rect.x p <= Rect.x p0 + Rect.w p0
  | West => Rect.y p = Rect.y p0 /\ Rect.x p0 - Rect.w p0 <= Rect.x p <= Rect.x p0
  | South => Rect.x p = Rect.x p0 /\ Rect.y p0 <= Rect.y p <= Rect.y p0 + Rect.h p0
  | North => Rect.x p = Rect.x p0 /\ Rect.y p0 - Rect.h p0 <= Rect.y p <= Rect.y p0
  end.

(** [q] lies between [p0] and [p]. *)
Definition not_beyond (hd : heading) (p0 p q : Rect.t) : Prop :=
  match hd with
  | East => Rect.x p0 <= Rect.x q <= Rect.x p
  | West => Rect.x p <= Rect.x q <= Rect.x p0
  | South => Rect.y p0 <= Rect.y q <= Rect.y p
  | North => Rect.y p <= Rect.y q <= Rect.y p0
  end.

Definition positive_size (r : Rect.t) : Prop := 0 < Rect.w r /\ 0 < Rect.h r.

(** What a result of the resolver is: an entry of the list of its kind,
    with its squared distance, within the radius of the kind (or, for a
    transition zone or readable, overlapping the player). *)
Definition candidate (p : Rect.t) (npcs : list Npc) (portals books : list Interactable)
    (x : Nearest) : Prop :=
  match x with
  | NearNpc n d =>
      In n npcs /\ d = World.center_dist_sq p (npc_rect n) /\ d <= 48 * 48
  | NearPortal o d =>
      In o portals /\ d = World.effective_dist p (rect o)
      /\ (Rect.colliderect p (rect o) = true \/ World.center_dist_sq p (rect o) <= 70 * 70)
  | NearBook o d =>
      In o books /\ d = World.effective_dist p (rect o)
      /\ (Rect.colliderect p (rect o) = true \/ World.center_dist_sq p (rect o) <= 60 * 60)
  end.

Definition best_dist (b : option Nearest) : Z :=
  match b with Some x => World.nearest_dist x | None => 999999999 end.

Definition is_dict (o : option pyval) : Prop := exists x, o = Some (PDict x).

(** The current node id is hashable and has no entry in the graph. *)
Definition missing_node (d : DialogueState) : Prop :=
  exists ns, nodes d = PDict ns /\
    match node_id d with
    | PStr id => Dict.get id ns = None
    | PList _ | PDict _ => False
    | _ => True
    end.

(** The node declares the action [start_challenge] for the set [id]. *)
Definition starts_challenge (node : pydict) (id : string) : Prop :=
  exists a, Dict.get "action" node = Some (PDict a)
            /\ Dict.get "type" a = Some (PStr "start_challenge")
            /\ Dict.get "challenge_set" a = Some (PStr id) /\ id <> "".

(** The frame does not advance along a next-node id: confirm is not
    pressed, or the node without choices has no next id, or the committed
    choice has none (its trust update going through). *)
Definition stays_on_node (d : DialogueState) (app : App) (st : InputState)
    (events : list event) (node : pydict) : Prop :=
  confirm_pressed st = false
  \/ (confirm_pressed st = true
      /\ match Dict.get_default "choices" PNone node with
         | PList (_ :: _) => False
         | _ => True
         end
      /\ Py.truthy (Dict.get_default "next" PNone node) = false)
  \/ (confirm_pressed st = true
      /\ exists opts c delta prior,
           Dict.get "choices" node = Some (PList opts) /\ opts <> []
           /\ opts !! Z.to_nat (clamp_selection (move_selection (selected_choice d) events)
                                  (Z.of_nat (length opts))) = Some (PDict c)
           /\ Py.int (Dict.get_default "trust_delta" (PInt 0) c) = Ok delta
           /\ trust_of (dlg_npc_id d) (save app) = Ok prior
           /\ Py.truthy (Dict.get_default "next" PNone c) = false).

(** The [completed] entry of the save is absent or a dict whose
    [challenges] entry is absent or a list, as [load_save] leaves it. *)
Definition completed_ok (sv : pydict) : Prop :=
  Dict.get "completed" sv = None
  \/ exists c, Dict.get "completed" sv = Some (PDict c)
               /\ (Dict.get "challenges" c = None
                   \/ exists l, Dict.get "challenges" c = Some (PList l)).

(** The scene shows the feedback of the last question of the set [id]. *)
Definition finishing (id : string) (c : ChallengeState) : Prop :=
  challenge_set_id c = id /\ showing_feedback c = true
  /\ exists qs q,
       questions c = PList qs
       /\ 0 <= qi c /\ qs !! Z.to_nat (qi c) = Some (PDict q)
       /\ Z.of_nat (length qs) <= qi c + 1.

Definition indices (n : nat) : list Z := map Z.of_nat (seq 0 n).

(** *** The award of a correct answer *)

Definition bucket_factor (cat : string) : Z := if String.eqb cat "total" then 2 else 1.

(** ** Vocabulary of the further properties *)

#[global] Instance key_eq_dec : EqDecision key.
Proof. solve_decision. Defined.

#[global] Instance event_eq_dec : EqDecision event.
Proof. solve_decision. Defined.

(** The number of [KEYDOWN] events of key [k] in a frame *)
Definition presses (k : key) (events : list event) : Z :=
  Z.of_nat (length (filter (fun ev => ev = KEYDOWN k) events)).

(** What [load_save] leaves under the key [k] of its result, given what
    the object in the file holds under [k]: the five sections are looked
    at one by one, every other key is taken over. *)
Definition loaded_section (k : string) (in_file : option pyval) : option pyval :=
  if String.eqb k "world" then
    Some (match in_file with
          | Some (PDict w) =>
              if Dict.has "map" w then PDict w
              else PDict (Dict.set "map" (PStr "city") w)
          | _ => PDict [ ("map", PStr "city") ]
          end)
  else if String.eqb k "player" then
    Some (match in_file with
          | Some (PDict p) => PDict p
          | _ => SaveSystem.default_player
          end)
  else if String.eqb k "trust" then
    Some (match in_file with
          | Some (PDict t) => PDict t
          | _ => PDict []
          end)
  else if String.eqb k "scores" then
    Some (match in_file with
          | Some (PDict s) => PDict s
          | _ => SaveSystem.default_scores
          end)
  else if String.eqb k "completed" then
    Some (match in_file with
          | Some (PDict c) =>
              match Dict.get "challenges" c with
              | Some (PList _) => PDict c
              | _ => PDict (Dict.set "challenges" (PList []) c)
              end
          | _ => PDict [ ("challenges", PList []) ]
          end)
  else in_file.

(** The keys of a dict, in order *)
Definition keys (d : pydict) : list string := map fst d.

(** A document as [load_save] returns it: the five sections first, in
    the order of the defaults, no key twice, each section a dict, the map
    named and the list of finished challenges present. *)
Definition normal_save (doc : pydict) : Prop :=
  (exists rest, keys doc = keys SaveSystem.default_save ++ rest)
  /\ List.NoDup (keys doc)
  /\ (exists w, Dict.get "world" doc = Some (PDict w) /\ Dict.has "map" w = true)
  /\ is_dict (Dict.get "player" doc)
  /\ is_dict (Dict.get "trust" doc)
  /\ is_dict (Dict.get "scores" doc)
  /\ (exists c l, Dict.get "completed" doc = Some (PDict c)
                  /\ Dict.get "challenges" c = Some (PList l)).

(** The map of a world scene: the Tiled file of the map id when there is
    one, the generated map otherwise (lines 301-308 of scenes.py). *)
Definition provider_of (K : Constants) (files : Files) (mid : string)
    : result MapProvider :=
  match map_file files ("data/maps/" +:+ mid +:+ ".json") with
  | Some loaded => do t <- loaded; Ok (Tiled t)
  | None => Ok (Generated (GeneratedMap_init K mid))
  end.

(** The scene that [WorldScene.__init__] builds on the map [prov] with
    the player at [(x, y)] and the zoom [z] asked for *)
Definition world_at (K : Constants) (mid : string) (prov : MapProvider)
    (x y : Z) (z : float) : WorldState :=
  {| map_id := mid; provider := prov;
     player := Rect.mk x y (PLAYER_W K) (PLAYER_H K);
     zoom := clamp PyFloat.ltb z PyFloat.one (PyFloat.lit 5 2);
     camera_x := PyFloat.zero; camera_y := PyFloat.zero;
     near_npc_label := None; near_portal_label := None;
     near_book_label := None |}.

(** A float that is neither an infinity nor a NaN *)
Definition finite (f : float) : Prop :=
  match f with
  | S754_zero _ | S754_finite _ _ _ => True
  | S754_infinity _ | S754_nan => False
  end.

(** The width and the height of the view of [update] (lines 475-478):
    the screen divided by the zoom, at least 160 by 120 *)
Definition view_size (K : Constants) (w : WorldState) : result (Z * Z) :=
  do fw <- PyFloat.truediv (PyFloat.of_Z (SCREEN_W K)) (zoom w);
  do kw <- PyFloat.to_int fw;
  do fh <- PyFloat.truediv (PyFloat.of_Z (SCREEN_H K)) (zoom w);
  do kh <- PyFloat.to_int fh;
  Ok (Z.max 160 kw, Z.max 120 kh).

(** The generated city, and the world scene of a new game on it: the
    player at (200, 200), or at [(x, y)] *)
Definition city_map : MapProvider := Generated (GeneratedMap_init sample_constants "city").

Definition city_scene (x y : Z) : WorldState :=
  world_at sample_constants "city" city_map x y PyFloat.one.

(** The default save with the player at [(x, y)] *)
Definition save_at (x y : Z) : pydict :=
  [ ("world", PDict [ ("map", PStr "city") ]);
    ("player", PDict [ ("x", PFloat (PyFloat.of_Z x)); ("y", PFloat (PyFloat.of_Z y)) ]);
    ("trust", PDict []);
    ("scores", SaveSystem.default_scores);
    ("completed", PDict [ ("challenges", PList []) ]) ].

(** [n] is the choice of a nearest-entry loop over [l] with squared radius
    [bd], distances taken by [dist]: the entry is within the radius, none
    before it in the list is closer, and every one after it is strictly
    farther (among equally near entries the last one is taken). *)
Definition last_nearest {A : Type} (dist : A -> Z) (bd : Z) (l : list A) (n : A) : Prop :=
  exists before after,
    l = before ++ n :: after
    /\ dist n <= bd
    /\ (forall m, In m before -> dist n <= dist m)
    /\ (forall m, In m after -> dist n < dist m).

(** The scene under an overlay scene: the scene it was opened over and
    goes back to *)
Definition return_of (s : scene) : option scene :=
  match s with
  | InfoScene r _ | DialogueScene r _ | ChallengeScene r _ | ResultsScene r _ => Some r
  | MenuScene _ | WorldScene _ => None
  end.

(** A question as the quiz scene needs it: an object whose [choices] have
    a length and whose [correct_index] and [points], where given, convert
    to integers *)
Definition usable_question (q : pyval) : Prop :=
  exists d, q = PDict d
            /\ (exists n, Py.len (Dict.get_default "choices" (PList []) d) = Ok n)
            /\ (exists ci, Py.int (Dict.get_default "correct_index" (PInt 0) d) = Ok ci)
            /\ (exists p, Py.int (Dict.get_default "points" (PInt 100) d) = Ok p).

(** The quiz scene stands on a question of its list. *)
Definition on_a_question (c : ChallengeState) : Prop :=
  exists qs, questions c = PList qs /\ Forall usable_question qs
             /\ 0 <= qi c < Z.of_nat (length qs).

(** The score buckets [total] and [cat] of the document can be read, and
    its list of finished challenges can be extended. *)
Definition scores_usable (cat : string) (sv : pydict) : Prop :=
  (exists t, score_of "total" sv = Ok t) /\ (exists b, score_of cat sv = Ok b)
  /\ completed_ok sv.

(** The key under which [_props_list_to_dict] files a property, and the
    value it files *)
Definition prop_key (p : pyval) : result string :=
  do name <- Py.get_default p "name" PNone; Py.chars (Py.str name).

Definition prop_value (p : pyval) : pyval :=
  match p with
  | PDict d => Dict.get_default "value" PNone d
  | _ => PNone
  end.

(** The value of the last property of the list that is filed under [k] *)
Fixpoint last_value (k : string) (items : list pyval) : option pyval :=
  match items with
  | [] => None
  | p :: rest =>
      match last_value k rest with
      | Some v => Some v
      | None =>
          match prop_key p with
          | Ok k' => if String.eqb k' k then Some (prop_value p) else None
          | _ => None
          end
      end
  end.

(** Two results of [_parse_layers], one after the other *)
Definition layers_app (a b : TiledFile.Layers) : TiledFile.Layers :=
  {| TiledFile.colliders := TiledFile.colliders a ++ TiledFile.colliders b;
     TiledFile.npcs := TiledFile.npcs a ++ TiledFile.npcs b;
     TiledFile.portals := TiledFile.portals a ++ TiledFile.portals b;
     TiledFile.books := TiledFile.books a ++ TiledFile.books b |}.

(** A text without its spaces, and the lines of a text one after the
    other *)
Fixpoint squash (s : string) : string :=
  match s with
  | EmptyString => EmptyString
  | String c s' => if Ascii.eqb c Ui.space then squash s' else String c (squash s')
  end.

Definition join_lines (lines : list string) : string :=
  fold_right String.append EmptyString lines.

(** A door that leads nowhere, and a door whose target column is [None] *)
Definition blind_door : TiledMap :=
  {| tiled_pixel_w := 400; tiled_pixel_h := 300; tiled_properties := [];
     tiled_colliders := [];
     tiled_npcs := [];
     tiled_portals := [ tiled_object "door" 100 100 16 16 [ ("prompt", PStr "Locked") ] ];
     tiled_books := [] |}.

Definition garbled_door : TiledMap :=
  {| tiled_pixel_w := 400; tiled_pixel_h := 300; tiled_properties := [];
     tiled_colliders := [];
     tiled_npcs := [];
     tiled_portals := [ tiled_object "door" 100 100 16 16
                          [ ("target_map", PStr "house_1");
                            ("target_x", PNone);
                            ("target_y", PInt 300) ] ];
     tiled_books := [] |}.

(** A map document whose tileset is kept in a file of its own *)
Definition external_document : pydict :=
  [ ("width", PInt 10); ("height", PInt 8);
    ("tilewidth", PInt 16); ("tileheight", PInt 16);
    ("layers", PList []);
    ("tilesets", PList [ PDict [ ("firstgid", PInt 1); ("source", PStr "city.tsx") ] ]) ].

(** A list of properties that names [target_map] twice *)
Definition door_properties : list pyval :=
  [ PDict [ ("name", PStr "target_map"); ("value", PStr "city") ];
    PDict [ ("name", PStr "prompt"); ("value", PStr "Enter") ];
    PDict [ ("name", PStr "target_map"); ("value", PStr "house_1") ] ].

(** The files of a game whose map [cellar] has the document above *)
Definition external_files : Files :=
  {| map_file := fun path =>
       if String.eqb path "data/maps/cellar.json"
       then Some (TiledFile.TiledMap_init (PDict external_document))
       else None;
     json_file := fun _ => Raise FileNotFoundError |}.

(** * Properties *)

Example float_literals :
  PyFloat.to_int (PyFloat.lit 16 10) = Ok 1
  /\ PyFloat.to_int (PyFloat.mul (PyFloat.of_Z (-7)) PyFloat.half) = Ok (-3)
  /\ Py.str (PInt (-1204)) = Text "-1204" /\ Py.str (PInt 0) = Text "0".
Proof. vm_compute. repeat split. Qed.

(** ** Dictionaries *)

Section DictFacts.

Lemma get_set_eq (k : string) (v : pyval) (d : pydict) :
  Dict.get k (Dict.set k v d) = Some v.
Proof.
  induction d as [|[k' v'] d IH]; simpl.
  - rewrite String.eqb_refl. reflexivity.
  - destruct (String.eqb k' k) eqn:E; simpl; rewrite E; auto.
Qed.

Lemma get_set_ne (k k' : string) (v : pyval) (d : pydict) :
  k <> k' -> Dict.get k' (Dict.set k v d) = Dict.get k' d.
Proof.
  intros Hne. induction d as [|[k0 v0] d IH]; simpl.
  - destruct (String.eqb_spec k k'); [contradiction | reflexivity].
  - destruct (String.eqb_spec k0 k) as [->|Hk0]; simpl.
    + destruct (String.eqb_spec k k'); [contradiction | reflexivity].
    + destruct (String.eqb_spec k0 k'); auto.
Qed.

Lemma get_set (k k' : string) (v : pyval) (d : pydict) :
  Dict.get k' (Dict.set k v d) = if String.eqb k k' then Some v else Dict.get k' d.
Proof.
  destruct (String.eqb_spec k k') as [->|Hne];
    [apply get_set_eq | apply get_set_ne; assumption].
Qed.

(** [d[k1][k2] = x] on a document whose [k1] entry is a dict *)
Lemma setitem2_dict (d inner : pydict) (k1 k2 : string) (x : pyval) :
  Dict.get k1 d = Some (PDict inner) ->
  Py.setitem2 d k1 k2 x = Ok (Dict.set k1 (PDict (Dict.set k2 x inner)) d).
Proof. intros H. unfold Py.setitem2, Py.getitem. rewrite H. reflexivity. Qed.

(** [d.setdefault(k1, {})[k2] = x] where [k1] is absent or a dict *)
Lemma setdefault_setitem_ok (d : pydict) (k1 k2 : string) (x : pyval) :
  (Dict.get k1 d = None \/ exists inner, Dict.get k1 d = Some (PDict inner)) ->
  exists inner', Py.setdefault_setitem d k1 k2 x = Ok (Dict.set k1 (PDict inner') d)
                 /\ Dict.get k2 inner' = Some x.
Proof.
  unfold Py.setdefault_setitem, Py.setdefault.
  intros [H | [inner H]]; rewrite H; simpl.
  - exists [(k2, x)]. split.
    + f_equal. clear H. induction d as [|[k0 v0] d IH]; simpl.
      * rewrite String.eqb_refl. reflexivity.
      * destruct (String.eqb k0 k1) eqn:E; simpl; rewrite E; [reflexivity|].
        f_equal. exact IH.
    + simpl. rewrite String.eqb_refl. reflexivity.
  - exists (Dict.set k2 x inner). split; [reflexivity | apply get_set_eq].
Qed.

End DictFacts.

(** ** Movement and collision (C1) *)

Section Movement.

Variable K : Constants.

Lemma colliderect_false_iff (a b : Rect.t) :
  0 < Rect.w a -> 0 < Rect.h a -> 0 <= Rect.w b -> 0 <= Rect.h b ->
  Rect.colliderect a b = false <->
  (Rect.w b = 0 \/ Rect.h b = 0
   \/ Rect.x a + Rect.w a <= Rect.x b \/ Rect.x b + Rect.w b <= Rect.x a
   \/ Rect.y a + Rect.h a <= Rect.y b \/ Rect.y b + Rect.h b <= Rect.y a).
Proof.
  intros Hw Hh Hbw Hbh. unfold Rect.colliderect.
  destruct (Rect.w a =? 0) eqn:E1; [lia|].
  destruct (Rect.h a =? 0) eqn:E2; [lia|].
  destruct (Rect.w b =? 0) eqn:E3; [simpl; split; [lia|reflexivity]|].
  destruct (Rect.h b =? 0) eqn:E4; [simpl; split; [lia|reflexivity]|].
  simpl. rewrite !andb_false_iff.
  rewrite !Z.ltb_ge, !Z.gtb_ltb, !Z.ltb_ge. lia.
Qed.

(** A float that converts to an integer and is not zero is positive or
    negative, and the integer has its sign. *)
Lemma to_int_sign (d : float) (k : Z) :
  PyFloat.to_int d = Ok k ->
  PyFloat.eqb d PyFloat.zero = false ->
  (PyFloat.gtb d PyFloat.zero = true /\ PyFloat.ltb d PyFloat.zero = false /\ 0 <= k)
  \/ (PyFloat.ltb d PyFloat.zero = true /\ PyFloat.gtb d PyFloat.zero = false /\ k <= 0).
Proof.
  destruct d as [s|s| |s m e]; simpl; try discriminate.
  intros [= <-] _.
  pose proof (Z.shiftl_nonneg (Z.pos m) e) as Hn.
  destruct s; [right|left]; cbn; repeat split; lia.
Qed.

Ltac rect_facts :=
  repeat match goal with
  | H : Rect.colliderect _ _ = false |- _ =>
      apply colliderect_false_iff in H; [| simpl in *; lia ..]
  | H : Rect.colliderect ?a ?b = true |- _ =>
      let N := fresh "N" in
      assert (N : ~ Rect.colliderect a b = false) by (rewrite H; discriminate);
      clear H; rewrite colliderect_false_iff in N by (simpl in *; lia)
  | |- Rect.colliderect _ _ = false =>
      apply colliderect_false_iff; [simpl in *; lia ..|]
  end.

(** A collider that misses the rectangle at both ends of a short move
    along x misses it everywhere in between. *)
Lemma between_x (p0 p p1 c : Rect.t) :
  0 < Rect.w p0 -> 0 < Rect.h p0 -> 0 <= Rect.w c -> 0 <= Rect.h c ->
  same_size p0 p -> same_size p0 p1 ->
  Rect.y p = Rect.y p0 -> Rect.y p1 = Rect.y p0 ->
  Z.abs (Rect.x p - Rect.x p0) <= Rect.w p0 ->
  Z.min (Rect.x p0) (Rect.x p) <= Rect.x p1 <= Z.max (Rect.x p0) (Rect.x p) ->
  Rect.colliderect p0 c = false ->
  Rect.colliderect p c = false ->
  Rect.colliderect p1 c = false.
Proof.
  unfold same_size. intros Hw Hh Hcw Hch [Ha Hb] [Hc Hd] Hy Hy1 Habs Hbt Hn0 Hn1.
  rect_facts. lia.
Qed.

Lemma between_y (p0 p p1 c : Rect.t) :
  0 < Rect.w p0 -> 0 < Rect.h p0 -> 0 <= Rect.w c -> 0 <= Rect.h c ->
  same_size p0 p -> same_size p0 p1 ->
  Rect.x p = Rect.x p0 -> Rect.x p1 = Rect.x p0 ->
  Z.abs (Rect.y p - Rect.y p0) <= Rect.h p0 ->
  Z.min (Rect.y p0) (Rect.y p) <= Rect.y p1 <= Z.max (Rect.y p0) (Rect.y p) ->
  Rect.colliderect p0 c = false ->
  Rect.colliderect p c = false ->
  Rect.colliderect p1 c = false.
Proof.
  unfold same_size. intros Hw Hh Hcw Hch [Ha Hb] [Hc Hd] Hy Hy1 Habs Hbt Hn0 Hn1.
  rect_facts. lia.
Qed.

Lemma between (hd : heading) (p0 p q c : Rect.t) :
  0 < Rect.w p0 -> 0 < Rect.h p0 -> 0 <= Rect.w c -> 0 <= Rect.h c ->
  on_the_way hd p0 p -> on_the_way hd p0 q -> not_beyond hd p0 p q ->
  Rect.colliderect p0 c = false ->
  Rect.colliderect p c = false ->
  Rect.colliderect q c = false.
Proof.
  intros Hw Hh Hcw Hch [Hs Hp] [Hs' Hq] Hb H0 H1.
  destruct hd; simpl in *.
  1,2: apply (between_x p0 p q c); auto; lia.
  1,2: apply (between_y p0 p q c); auto; lia.
Qed.

(** One collider of the loop: the rectangle is pushed back, never past
    [p0], and ends clear of the collider. *)
Lemma push_back_step (hd : heading) (dx dy : float) (p0 p c : Rect.t) :
  heads hd dx dy ->
  0 < Rect.w p0 -> 0 < Rect.h p0 -> 0 <= Rect.w c -> 0 <= Rect.h c ->
  on_the_way hd p0 p ->
  Rect.colliderect p0 c = false ->
  let q := World.push_back dx dy p c in
  on_the_way hd p0 q /\ not_beyond hd p0 p q /\ Rect.colliderect q c = false.
Proof.
  intros Hhd Hw Hh Hcw Hch [[Hsw Hsh] Hp] H0 q. subst q.
  unfold World.push_back.
  destruct (Rect.colliderect p c) eqn:Hc.
  - destruct hd; simpl in Hhd, Hp |- *.
    + destruct Hhd as [-> ->]. cbn [PyFloat.gtb PyFloat.ltb SFltb SFcompare PyFloat.zero].
      unfold on_the_way, same_size, not_beyond, Rect.set_right, Rect.set_x, Rect.left.
      rect_facts. simpl. repeat apply conj; try lia; rect_facts; simpl; lia.
    + destruct Hhd as (-> & -> & ->). cbn [PyFloat.gtb PyFloat.ltb SFltb SFcompare PyFloat.zero].
      unfold on_the_way, same_size, not_beyond, Rect.set_left, Rect.set_x, Rect.right.
      rect_facts. simpl. repeat apply conj; try lia; rect_facts; simpl; lia.
    + destruct Hhd as [-> ->]. cbn [PyFloat.gtb PyFloat.ltb SFltb SFcompare PyFloat.zero].
      unfold on_the_way, same_size, not_beyond, Rect.set_bottom, Rect.set_y, Rect.top.
      rect_facts. simpl. repeat apply conj; try lia; rect_facts; simpl; lia.
    + destruct Hhd as (-> & -> & ->). cbn [PyFloat.gtb PyFloat.ltb SFltb SFcompare PyFloat.zero].
      unfold on_the_way, same_size, not_beyond, Rect.set_top, Rect.set_y, Rect.bottom.
      rect_facts. simpl. repeat apply conj; try lia; rect_facts; simpl; lia.
  - repeat split; auto; destruct hd; simpl in *; lia.
Qed.

Lemma not_beyond_refl (hd : heading) (p0 p : Rect.t) :
  on_the_way hd p0 p -> not_beyond hd p0 p p.
Proof. intros [_ H]. destruct hd; simpl in *; lia. Qed.

Lemma not_beyond_trans (hd : heading) (p0 p p1 q : Rect.t) :
  not_beyond hd p0 p p1 -> not_beyond hd p0 p1 q -> not_beyond hd p0 p q.
Proof. destruct hd; simpl; lia. Qed.

(** The whole collider loop of [_move_and_collide]. *)
Lemma collider_loop (hd : heading) (dx dy : float) (p0 : Rect.t) (cs : list Rect.t) :
  heads hd dx dy ->
  0 < Rect.w p0 -> 0 < Rect.h p0 ->
  Forall (fun c => 0 <= Rect.w c /\ 0 <= Rect.h c) cs ->
  Forall (fun c => Rect.colliderect p0 c = false) cs ->
  forall p, on_the_way hd p0 p ->
    let q := fold_left (World.push_back dx dy) cs p in
    on_the_way hd p0 q /\ not_beyond hd p0 p q
    /\ Forall (fun c => Rect.colliderect q c = false) cs
    /\ (forall c, 0 <= Rect.w c -> 0 <= Rect.h c ->
          Rect.colliderect p0 c = false -> Rect.colliderect p c = false ->
          Rect.colliderect q c = false).
Proof.
  intros Hhd Hw Hh Hsz Hclr.
  induction cs as [|c cs IH]; intros p Hp; simpl.
  - split; [exact Hp|]. split; [apply not_beyond_refl; exact Hp|].
    split; [constructor | auto].
  - inversion Hsz as [|? ? [Hcw Hch] Hsz']; subst.
    inversion Hclr as [|? ? Hc0 Hclr']; subst.
    destruct (push_back_step hd dx dy p0 p c Hhd Hw Hh Hcw Hch Hp Hc0)
      as (Hp1 & Hnb1 & Hc1).
    destruct (IH Hsz' Hclr' _ Hp1) as (Hq & Hnb & Hall & Hkeep).
    split; [exact Hq|]. split; [eapply not_beyond_trans; eauto|].
    split.
    + constructor; auto.
    + intros c' Hcw' Hch' Hn0 Hn.
      apply Hkeep; auto.
      apply (between hd p0 p _ c'); auto.
Qed.

Lemma clamp_inside (v hi : Z) : 0 <= v <= hi -> clamp Z.ltb v 0 hi = v.
Proof.
  intros H. unfold clamp.
  destruct (Z.ltb_spec v 0); [lia|]. destruct (Z.ltb_spec hi v); lia.
Qed.

Lemma clamp_bounds (v hi : Z) : 0 <= hi -> 0 <= clamp Z.ltb v 0 hi <= hi.
Proof.
  intros H. unfold clamp.
  destruct (Z.ltb_spec v 0); [lia|]. destruct (Z.ltb_spec hi v); lia.
Qed.

Lemma clamp_mono (v k hi : Z) :
  0 <= v <= hi ->
  Z.min v (v + k) <= clamp Z.ltb (v + k) 0 hi <= Z.max v (v + k).
Proof.
  intros H. unfold clamp.
  destruct (Z.ltb_spec (v + k) 0); [lia|]. destruct (Z.ltb_spec hi (v + k)); lia.
Qed.

(** One call of [_move_and_collide] along a single axis, by no more than
    the size of the player, from a position within the bounds and clear
    of the colliders. *)
Lemma single_axis_step (dx dy : float) (kx ky : Z) (w : WorldState) :
  dx = PyFloat.zero \/ dy = PyFloat.zero ->
  PyFloat.to_int dx = Ok kx -> PyFloat.to_int dy = Ok ky ->
  Z.abs kx <= Rect.w (player w) -> Z.abs ky <= Rect.h (player w) ->
  0 < Rect.w (player w) -> 0 < Rect.h (player w) ->
  proper_colliders w -> in_bounds w -> clear_of_colliders w ->
  exists w',
    World._move_and_collide dx dy w = Ok w'
    /\ provider w' = provider w
    /\ same_size (player w) (player w')
    /\ in_bounds w' /\ clear_of_colliders w'.
Proof.
  intros Haxis Hkx Hky Hax Hay Hw Hh Hprop Hin Hclr.
  unfold World._move_and_collide.
  destruct (PyFloat.eqb dx PyFloat.zero && PyFloat.eqb dy PyFloat.zero) eqn:Hzero.
  { exists w. split; [reflexivity|]. split; [reflexivity|].
    split; [split; reflexivity|]. split; assumption. }
  rewrite Hkx, Hky. cbn [bind].
  set (p0 := player w) in *.
  set (b := World._world_bounds w).
  assert (Hb : Rect.x b = 0 /\ Rect.y b = 0) by (unfold b, World._world_bounds; destruct (provider w); auto).
  destruct Hb as [Hbx Hby].
  unfold in_bounds, Rect.within in Hin. fold b p0 in Hin. rewrite Hbx, Hby in Hin.
  set (p1 := Rect.set_y _ _).
  assert (Hhd : exists hd, heads hd dx dy /\ on_the_way hd p0 p1 /\ Rect.within b p1).
  { destruct Haxis as [-> | ->].
    - (* a step along y *)
      injection Hkx as <-.
      assert (Hnz : PyFloat.eqb dy PyFloat.zero = false) by (destruct (PyFloat.eqb dy PyFloat.zero); auto).
      pose proof (clamp_mono (Rect.y p0) ky (Rect.h b - Rect.h p0) ltac:(lia)) as Hm.
      pose proof (clamp_bounds (Rect.y p0 + ky) (Rect.h b - Rect.h p0) ltac:(lia)) as Hcb.
      pose proof (clamp_inside (Rect.x p0 + 0) (Rect.w b - Rect.w p0) ltac:(lia)) as Hci.
      destruct (to_int_sign dy ky Hky Hnz) as [(Hg & Hl & Hs) | (Hl & Hg & Hs)];
        [exists South | exists North];
        (split; [simpl; auto|]);
        unfold on_the_way, same_size, Rect.within, p1; simpl;
        rewrite Hbx, Hby, ?Hci; simpl; lia.
    - (* a step along x *)
      injection Hky as <-.
      assert (Hnz : PyFloat.eqb dx PyFloat.zero = false)
        by (rewrite andb_false_iff in Hzero; destruct Hzero as [H|H]; [auto | discriminate H]).
      pose proof (clamp_mono (Rect.x p0) kx (Rect.w b - Rect.w p0) ltac:(lia)) as Hm.
      pose proof (clamp_bounds (Rect.x p0 + kx) (Rect.w b - Rect.w p0) ltac:(lia)) as Hcb.
      pose proof (clamp_inside (Rect.y p0 + 0) (Rect.h b - Rect.h p0) ltac:(lia)) as Hci.
      destruct (to_int_sign dx kx Hkx Hnz) as [(Hg & Hl & Hs) | (Hl & Hg & Hs)];
        [exists East | exists West];
        (split; [simpl; auto|]);
        unfold on_the_way, same_size, Rect.within, p1; simpl;
        rewrite Hbx, Hby, ?Hci; simpl; lia. }
  destruct Hhd as (hd & Hhd & Hway & Hin1).
  destruct (collider_loop hd dx dy p0 (World._colliders w) Hhd Hw Hh Hprop Hclr p1 Hway)
    as (Hq & Hnb & Hall & _).
  eexists. split; [reflexivity|].
  split; [reflexivity|]. split; [apply Hq|]. split.
  - unfold in_bounds, Rect.within. simpl.
    change (World._world_bounds (World.with_player w _)) with b.
    destruct Hq as [[Hqw Hqh] Hq]. destruct Hway as [[Hpw Hph] Hway].
    unfold Rect.within in Hin1. rewrite Hbx, Hby in *.
    destruct hd; simpl in *; lia.
  - exact Hall.
Qed.

End Movement.

Section MovementTheorems.

Variable K : Constants.

Lemma colliders_same (w w' : WorldState) :
  provider w' = provider w ->
  World._colliders w' = World._colliders w /\ World._world_bounds w' = World._world_bounds w.
Proof. unfold World._colliders, World._world_bounds. intros ->. auto. Qed.

(** C1 (amended): a frame update that starts with the player within the
    world bounds and clear of every collider, on a map whose colliders
    have no negative size, and that moves the player by no more than its
    own width along x and its own height along y, leaves the player within
    the world bounds and clear of every collider after the two per-axis
    steps. *)
Theorem integrate_keeps_player_clear (st : InputState) (dt : float)
    (w : WorldState) (kx ky : Z) :
  PyFloat.to_int (fst (World.displacement K st dt)) = Ok kx ->
  PyFloat.to_int (snd (World.displacement K st dt)) = Ok ky ->
  Z.abs kx <= Rect.w (player w) -> Z.abs ky <= Rect.h (player w) ->
  0 < Rect.w (player w) -> 0 < Rect.h (player w) ->
  proper_colliders w -> in_bounds w -> clear_of_colliders w ->
  exists w', World.integrate K st dt w = Ok w'
             /\ in_bounds w' /\ clear_of_colliders w'.
Proof.
  intros Hkx Hky Hax Hay Hw Hh Hprop Hin Hclr.
  unfold World.integrate.
  destruct (World.displacement K st dt) as [dx dy]. simpl in Hkx, Hky.
  destruct (single_axis_step dx PyFloat.zero kx 0 w) as (w1 & E1 & Hp1 & [Hsw Hsh] & Hin1 & Hclr1);
    auto; try lia.
  rewrite E1. cbn [bind].
  destruct (colliders_same w w1 Hp1) as [Hc1 _].
  destruct (single_axis_step PyFloat.zero dy 0 ky w1) as (w2 & E2 & _ & _ & Hin2 & Hclr2);
    auto; try lia.
  { unfold proper_colliders. rewrite Hc1. exact Hprop. }
  exists w2. auto.
Qed.

End MovementTheorems.

Lemma integrate_keeps_player_clear_witness :
  exists w', World.integrate sample_constants (keys_held false true false true)
               (PyFloat.lit 17 1000) (world_on corridor (Rect.mk 2 40 16 16)) = Ok w'
             /\ in_bounds w' /\ clear_of_colliders w'.
Proof.
  apply (integrate_keeps_player_clear sample_constants _ _ _ 1 1).
  - vm_compute. reflexivity.
  - vm_compute. reflexivity.
  - simpl. lia.
  - simpl. lia.
  - simpl. lia.
  - simpl. lia.
  - repeat constructor; simpl; lia.
  - unfold in_bounds, Rect.within. simpl. lia.
  - repeat constructor.
Defined.

(** C1 as stated fails on the code: a long frame carries the player over the
    thin post into the wall, whose push-back leaves it overlapping the post
    checked before; a frame without movement input leaves a player that was
    spawned inside a collider, or outside the bounds, where it is; and a
    collider of negative width pushes the player to its far side, into it. *)
Lemma integrate_can_end_inside_collider :
  let w := world_on corridor (Rect.mk 0 40 16 16) in
  let w_post := world_on corridor (Rect.mk 12 40 16 16) in
  let w_out := world_on corridor (Rect.mk (-50) 40 16 16) in
  (in_bounds w /\ clear_of_colliders w
   /\ World.integrate sample_constants (keys_held false true false false)
        (PyFloat.lit 25 100) w = Ok (world_on corridor (Rect.mk 14 40 16 16))
   /\ ~ clear_of_colliders (world_on corridor (Rect.mk 14 40 16 16)))
  /\ (World.integrate sample_constants (keys_held false false false false)
        (PyFloat.lit 17 1000) w_post = Ok w_post
      /\ ~ clear_of_colliders w_post)
  /\ (World.integrate sample_constants (keys_held false false false false)
        (PyFloat.lit 17 1000) w_out = Ok w_out
      /\ ~ in_bounds w_out)
  /\ (let w_back := world_on backward_wall (Rect.mk 20 40 16 16) in
      in_bounds w_back /\ clear_of_colliders w_back
      /\ World.integrate sample_constants (keys_held false true false false)
           (PyFloat.lit 1 10) w_back = Ok (world_on backward_wall (Rect.mk 44 40 16 16))
      /\ ~ clear_of_colliders (world_on backward_wall (Rect.mk 44 40 16 16))).
Proof.
  cbv zeta. split; [|split; [|split]].
  - split; [|split; [|split]].
    + unfold in_bounds, Rect.within. simpl. lia.
    + repeat constructor.
    + vm_compute. reflexivity.
    + intros H. inversion H as [|? ? Hc _]. vm_compute in Hc. discriminate.
  - split.
    + vm_compute. reflexivity.
    + intros H. inversion H as [|? ? Hc _]. vm_compute in Hc. discriminate.
  - split.
    + vm_compute. reflexivity.
    + unfold in_bounds, Rect.within. simpl. lia.
  - split; [|split; [|split]].
    + unfold in_bounds, Rect.within. simpl. lia.
    + repeat constructor.
    + vm_compute. reflexivity.
    + intros H. inversion H as [|? ? Hc _]. vm_compute in Hc. discriminate.
Qed.

(** ** Diagonal movement (C7) *)

(** No integer square is twice a non-zero integer square. *)
Lemma twice_square_descent (n : nat) :
  forall a b : Z, (Z.abs b < Z.of_nat n) -> 2 * (a * a) = b * b -> b = 0.
Proof.
  induction n as [|n IH]; intros a b Hlt Heq; [lia|].
  destruct (Z.eq_dec b 0) as [|Hb]; [assumption|exfalso].
  destruct (Z.Even_or_Odd b) as [[c Hc]|[c Hc]]; [|lia].
  subst b.
  assert (Ha : 2 * (c * c) = a * a) by lia.
  assert (Hsmall : Z.abs a < Z.of_nat n) by nia.
  pose proof (IH c a Hsmall Ha). subst a. nia.
Qed.

Lemma twice_square (a b : Z) : 2 * (a * a) = b * b -> a = 0 /\ b = 0.
Proof.
  intros H.
  assert (Hb : b = 0) by (apply (twice_square_descent (S (Z.to_nat (Z.abs b))) a b); [lia | exact H]).
  subst b. split; [nia | reflexivity].
Qed.

Section Diagonal.

Variable K : Constants.

Lemma inv_sqrt2_value : PyFloat.to_Q World.inv_sqrt2 = Some inv_sqrt2_exact.
Proof. vm_compute. reflexivity. Qed.

(** Twice its square is 1 up to the rounding of one double operation. *)
Lemma inv_sqrt2_unit_length :
  (- (1 # 2 ^ 52) < inv_sqrt2_exact * inv_sqrt2_exact + inv_sqrt2_exact * inv_sqrt2_exact - 1
   /\ inv_sqrt2_exact * inv_sqrt2_exact + inv_sqrt2_exact * inv_sqrt2_exact - 1 < 1 # 2 ^ 52)%Q.
Proof. split; vm_compute; reflexivity. Qed.

Lemma zero_to_int (d : float) : PyFloat.eqb d PyFloat.zero = true -> PyFloat.to_int d = Ok 0.
Proof.
  destruct d as [s|s| |s m e]; try destruct s; cbn; intros H;
    try discriminate H; reflexivity.
Qed.

(** A rectangle that overlaps no collider passes the loop as it is. *)
Lemma push_back_loop_free (dx dy : float) (cs : list Rect.t) (p : Rect.t) :
  Forall (fun c => Rect.colliderect p c = false) cs ->
  fold_left (World.push_back dx dy) cs p = p.
Proof.
  induction 1 as [|c cs Hc _ IH]; cbn [fold_left]; [reflexivity|].
  unfold World.push_back at 2. rewrite Hc. exact IH.
Qed.

(** A step that stays within the bounds and ends on a place that overlaps
    no collider moves the player by the truncated displacement. *)
Lemma unobstructed_step (dx dy : float) (kx ky : Z) (w : WorldState) :
  PyFloat.to_int dx = Ok kx -> PyFloat.to_int dy = Ok ky ->
  0 <= Rect.x (player w) + kx <= Rect.w (World._world_bounds w) - Rect.w (player w) ->
  0 <= Rect.y (player w) + ky <= Rect.h (World._world_bounds w) - Rect.h (player w) ->
  free_at w (Rect.mk (Rect.x (player w) + kx) (Rect.y (player w) + ky)
                     (Rect.w (player w)) (Rect.h (player w))) ->
  World._move_and_collide dx dy w
  = Ok (World.with_player w
          (Rect.mk (Rect.x (player w) + kx) (Rect.y (player w) + ky)
                   (Rect.w (player w)) (Rect.h (player w)))).
Proof.
  intros Hkx Hky Hx Hy Hfree. unfold World._move_and_collide.
  destruct (PyFloat.eqb dx PyFloat.zero && PyFloat.eqb dy PyFloat.zero) eqn:Hz.
  - apply andb_true_iff in Hz as [Hzx Hzy].
    rewrite (zero_to_int _ Hzx) in Hkx. rewrite (zero_to_int _ Hzy) in Hky.
    injection Hkx as <-. injection Hky as <-.
    rewrite !Z.add_0_r. destruct w as [? ? [] ? ? ? ? ? ?]. reflexivity.
  - rewrite Hkx, Hky. cbn [bind].
    unfold Rect.set_x, Rect.set_y. cbn [Rect.x Rect.y Rect.w Rect.h].
    rewrite !clamp_inside by lia.
    rewrite push_back_loop_free by exact Hfree. reflexivity.
Qed.

Lemma with_player_twice (w : WorldState) (p q : Rect.t) :
  World.with_player (World.with_player w p) q = World.with_player w q.
Proof. reflexivity. Qed.

(** C7 (amended): in a frame with exactly one horizontal and exactly one
    vertical flag active, the direction is [(+-inv, +-inv)] for the double
    [inv = 1.0 / sqrt(2.0)], of squared length 1 up to [2^-52]; it is then
    scaled by the speed constant and [dt], and an unobstructed player moves
    by each scaled component truncated toward zero to whole pixels.  The
    player is unobstructed when the place reached by the horizontal step
    and the place reached by the vertical step after it lie within the
    world bounds and overlap no collider of the map. *)
Theorem diagonal_direction_normalised_then_truncated (st : InputState)
    (dt : float) (w : WorldState) (kx ky : Z) :
  left st <> right st -> up st <> down st ->
  PyFloat.to_int (fst (World.displacement K st dt)) = Ok kx ->
  PyFloat.to_int (snd (World.displacement K st dt)) = Ok ky ->
  unobstructed w (Rect.mk (Rect.x (player w) + kx) (Rect.y (player w))
                          (Rect.w (player w)) (Rect.h (player w))) ->
  unobstructed w (Rect.mk (Rect.x (player w) + kx) (Rect.y (player w) + ky)
                          (Rect.w (player w)) (Rect.h (player w))) ->
  (exists qx qy : Q,
      PyFloat.to_Q (fst (World.velocity st)) = Some qx
      /\ PyFloat.to_Q (snd (World.velocity st)) = Some qy
      /\ qx = (if left st then - inv_sqrt2_exact else inv_sqrt2_exact)%Q
      /\ qy = (if up st then - inv_sqrt2_exact else inv_sqrt2_exact)%Q
      /\ (- (1 # 2 ^ 52) < qx * qx + qy * qy - 1 < 1 # 2 ^ 52)%Q)
  /\ World.displacement K st dt
     = (PyFloat.mul (PyFloat.mul (fst (World.velocity st)) (PLAYER_SPEED K)) dt,
        PyFloat.mul (PyFloat.mul (snd (World.velocity st)) (PLAYER_SPEED K)) dt)
  /\ World.integrate K st dt w
     = Ok (World.with_player w
             (Rect.mk (Rect.x (player w) + kx) (Rect.y (player w) + ky)
                      (Rect.w (player w)) (Rect.h (player w)))).
Proof.
  intros Hlr Hud Hkx Hky [Hin1 Hfree1] [Hin2 Hfree2].
  split; [|split].
  - destruct st as [u d l r ? ? ?]; simpl in Hlr, Hud |- *.
    destruct l, r, u, d; try congruence;
      (eexists; eexists; split; [vm_compute; reflexivity|];
       split; [vm_compute; reflexivity|];
       split; [vm_compute; reflexivity|];
       split; [vm_compute; reflexivity|];
       split; vm_compute; reflexivity).
  - unfold World.displacement. destruct (World.velocity st). reflexivity.
  - unfold World.integrate.
    destruct (World.displacement K st dt) as [dx dy]. simpl in Hkx, Hky.
    unfold Rect.within in Hin1, Hin2. cbn [Rect.x Rect.y Rect.w Rect.h] in Hin1, Hin2.
    assert (Hb : Rect.x (World._world_bounds w) = 0 /\ Rect.y (World._world_bounds w) = 0)
      by (unfold World._world_bounds; destruct (provider w); auto).
    destruct Hb as [Hbx Hby]. rewrite Hbx, Hby in Hin1, Hin2.
    rewrite (unobstructed_step dx PyFloat.zero kx 0 w Hkx eq_refl);
      [|lia|lia|rewrite Z.add_0_r; exact Hfree1].
    cbn [bind].
    set (w1 := World.with_player w _).
    rewrite (unobstructed_step PyFloat.zero dy 0 ky w1 eq_refl Hky).
    + unfold w1. rewrite with_player_twice.
      cbn [player World.with_player Rect.x Rect.y Rect.w Rect.h].
      rewrite !Z.add_0_r. reflexivity.
    + unfold w1. cbn [player World.with_player Rect.x Rect.y Rect.w Rect.h].
      change (World._world_bounds (World.with_player w _)) with (World._world_bounds w). lia.
    + unfold w1. cbn [player World.with_player Rect.x Rect.y Rect.w Rect.h].
      change (World._world_bounds (World.with_player w _)) with (World._world_bounds w). lia.
    + unfold w1. cbn [player World.with_player Rect.x Rect.y Rect.w Rect.h].
      rewrite !Z.add_0_r. exact Hfree2.
Qed.

End Diagonal.

(** The start of a new game in the generated city, right and down held. *)
Lemma diagonal_direction_normalised_then_truncated_witness :
  length (World._colliders (World.with_player city_at_door (Rect.mk 200 200 16 16))) = 6%nat
  /\ World.integrate sample_constants (keys_held false true false true)
       (PyFloat.lit 17 1000) (World.with_player city_at_door (Rect.mk 200 200 16 16))
     = Ok (World.with_player city_at_door (Rect.mk 201 201 16 16)).
Proof.
  split; [reflexivity|].
  apply (diagonal_direction_normalised_then_truncated sample_constants
           (keys_held false true false true) (PyFloat.lit 17 1000)
           (World.with_player city_at_door (Rect.mk 200 200 16 16)) 1 1).
  - simpl. discriminate.
  - simpl. discriminate.
  - vm_compute. reflexivity.
  - vm_compute. reflexivity.
  - split; [unfold Rect.within; simpl; lia|].
    unfold free_at. vm_compute. repeat constructor.
  - split; [unfold Rect.within; simpl; lia|].
    unfold free_at. vm_compute. repeat constructor.
Defined.

(** C7 as stated fails on the code: at 100 px/s and a 17 ms frame a
    single-axis input moves the player one pixel and a diagonal input one
    pixel on each axis, a displacement whose squared length is twice as
    large; the float displacements before truncation differ in length too. *)
Lemma diagonal_frame_is_longer :
  let w := world_on field (Rect.mk 100 100 16 16) in
  let dt := PyFloat.lit 17 1000 in
  let diagonal := keys_held false true false true in
  let straight := keys_held false true false false in
  World.integrate sample_constants diagonal dt w = Ok (world_on field (Rect.mk 101 101 16 16))
  /\ World.integrate sample_constants straight dt w = Ok (world_on field (Rect.mk 101 100 16 16))
  /\ moved_sq w (world_on field (Rect.mk 101 101 16 16))
     = 2 * moved_sq w (world_on field (Rect.mk 101 100 16 16))
  /\ moved_sq w (world_on field (Rect.mk 101 100 16 16)) = 1
  /\ match sq_length (World.displacement sample_constants diagonal dt),
           sq_length (World.displacement sample_constants straight dt) with
     | Some a, Some b => ~ (a == b)%Q
     | _, _ => False
     end.
Proof.
  cbv zeta. split; [|split; [|split; [|split]]]; try (vm_compute; reflexivity).
  destruct (sq_length _) as [a|] eqn:Ea; [|vm_compute in Ea; discriminate].
  destruct (sq_length (World.displacement _ (keys_held false true false false) _)) as [b|] eqn:Eb;
    [|vm_compute in Eb; discriminate].
  vm_compute in Ea, Eb. injection Ea as <-. injection Eb as <-.
  intros H. apply Qeq_bool_iff in H. vm_compute in H. discriminate.
Qed.

(** Whatever the constants, the two displacements of whole pixels never
    have the same length unless the player does not move at all. *)
Lemma diagonal_pixels_never_match (k s : Z) :
  dist_sq k k 0 0 = dist_sq s 0 0 0 -> k = 0 /\ s = 0.
Proof. unfold dist_sq. intros H. apply twice_square. lia. Qed.

(** ** The interaction resolver (C3) *)

Section Resolver.

Lemma dist_sq_nonneg (ax ay bx by_ : Z) : 0 <= dist_sq ax ay bx by_.
Proof.
  unfold dist_sq. cbv zeta.
  pose proof (Z.square_nonneg (ax - bx)). pose proof (Z.square_nonneg (ay - by_)). lia.
Qed.

Lemma dist_sq_zero (ax ay bx by_ : Z) :
  dist_sq ax ay bx by_ = 0 -> ax = bx /\ ay = by_.
Proof.
  unfold dist_sq. cbv zeta. intros H.
  pose proof (Z.square_nonneg (ax - bx)) as Hx.
  pose proof (Z.square_nonneg (ay - by_)) as Hy.
  assert (Hx0 : (ax - bx) * (ax - bx) = 0) by lia.
  assert (Hy0 : (ay - by_) * (ay - by_) = 0) by lia.
  apply Z.mul_eq_0 in Hx0, Hy0. lia.
Qed.

(** Rectangles of positive size whose centres coincide overlap. *)
Lemma same_center_overlap (p r : Rect.t) :
  positive_size p -> positive_size r ->
  World.center_dist_sq p r = 0 -> Rect.colliderect p r = true.
Proof.
  intros [Hpw Hph] [Hrw Hrh] H.
  apply dist_sq_zero in H as [Hx Hy].
  unfold Rect.centerx, Rect.centery in *.
  pose proof (Z.quot_pos (Rect.w p) 2 ltac:(lia) ltac:(lia)).
  pose proof (Z.quot_lt (Rect.w p) 2 ltac:(lia) ltac:(lia)).
  pose proof (Z.quot_pos (Rect.h p) 2 ltac:(lia) ltac:(lia)).
  pose proof (Z.quot_lt (Rect.h p) 2 ltac:(lia) ltac:(lia)).
  pose proof (Z.quot_pos (Rect.w r) 2 ltac:(lia) ltac:(lia)).
  pose proof (Z.quot_lt (Rect.w r) 2 ltac:(lia) ltac:(lia)).
  pose proof (Z.quot_pos (Rect.h r) 2 ltac:(lia) ltac:(lia)).
  pose proof (Z.quot_lt (Rect.h r) 2 ltac:(lia) ltac:(lia)).
  destruct (Rect.colliderect p r) eqn:E; [reflexivity|].
  apply colliderect_false_iff in E; lia.
Qed.

Lemma effective_dist_nonneg (p r : Rect.t) : 0 <= World.effective_dist p r.
Proof.
  unfold World.effective_dist, World.center_dist_sq.
  destruct (Rect.colliderect p r); [lia | apply dist_sq_nonneg].
Qed.

Lemma effective_dist_zero (p r : Rect.t) :
  positive_size p -> positive_size r ->
  World.effective_dist p r = 0 -> Rect.colliderect p r = true.
Proof.
  intros Hp Hr. unfold World.effective_dist.
  destruct (Rect.colliderect p r) eqn:E; [reflexivity|].
  intros H. rewrite (same_center_overlap p r Hp Hr H) in E. discriminate.
Qed.

(** [_closest_npc]: the result is the incoming [best], every entry being
    out of range, or an entry within range that is nearest of all. *)
Lemma closest_npc_loop_spec (p : Rect.t) (l : list Npc) :
  forall (best : option Npc) (bd : Z),
    let r := World.closest_npc_loop p l best bd in
    (r = best /\ forall m, In m l -> bd < World.center_dist_sq p (npc_rect m))
    \/ (exists n, r = Some n /\ In n l
                  /\ World.center_dist_sq p (npc_rect n) <= bd
                  /\ forall m, In m l ->
                       World.center_dist_sq p (npc_rect n)
                       <= World.center_dist_sq p (npc_rect m)).
Proof.
  induction l as [|m0 l IH]; intros best bd; simpl.
  - left. split; [reflexivity | intros m []].
  - destruct (Z.leb_spec (World.center_dist_sq p (npc_rect m0)) bd) as [Hle|Hgt].
    + destruct (IH (Some m0) (World.center_dist_sq p (npc_rect m0)))
        as [[-> Hall] | (n & -> & Hin & Hd & Hmin)].
      * right. exists m0. repeat split; auto.
        intros m [<-|Hm]; [lia | specialize (Hall m Hm); lia].
      * right. exists n. repeat split; auto; [lia|].
        intros m [<-|Hm]; [lia | auto].
    + destruct (IH best bd) as [[-> Hall] | (n & -> & Hin & Hd & Hmin)].
      * left. split; [reflexivity|]. intros m [<-|Hm]; auto.
      * right. exists n. repeat split; auto.
        intros m [<-|Hm]; [lia | auto].
Qed.

(** [_closest_portal] and [_closest_book]: an overlapping entry, when
    there is one, is the result; otherwise as for [_closest_npc]. *)
Lemma closest_rect_loop_spec (p : Rect.t) (l : list Interactable) :
  forall (best : option Interactable) (bd : Z),
    let r := World.closest_rect_loop p l best bd in
    (exists o, r = Some o /\ In o l /\ Rect.colliderect p (rect o) = true)
    \/ ((forall o, In o l -> Rect.colliderect p (rect o) = false)
        /\ ((r = best /\ forall m, In m l -> bd < World.center_dist_sq p (rect m))
            \/ (exists n, r = Some n /\ In n l
                          /\ World.center_dist_sq p (rect n) <= bd
                          /\ forall m, In m l ->
                               World.center_dist_sq p (rect n)
                               <= World.center_dist_sq p (rect m)))).
Proof.
  induction l as [|m0 l IH]; intros best bd; simpl.
  - right. split; [intros o []|]. left. split; [reflexivity | intros m []].
  - destruct (Rect.colliderect p (rect m0)) eqn:Hov.
    { left. exists m0. auto. }
    destruct (Z.leb_spec (World.center_dist_sq p (rect m0)) bd) as [Hle|Hgt].
    + destruct (IH (Some m0) (World.center_dist_sq p (rect m0)))
        as [(o & -> & Hin & Ho) | [Hnone [[-> Hall] | (n & -> & Hin & Hd & Hmin)]]].
      * left. exists o. auto.
      * right. split; [intros o [<-|Ho]; auto|].
        right. exists m0. repeat split; auto.
        intros m [<-|Hm]; [lia | specialize (Hall m Hm); lia].
      * right. split; [intros o [<-|Ho]; auto|].
        right. exists n. repeat split; auto; [lia|].
        intros m [<-|Hm]; [lia | auto].
    + destruct (IH best bd)
        as [(o & -> & Hin & Ho) | [Hnone [[-> Hall] | (n & -> & Hin & Hd & Hmin)]]].
      * left. exists o. auto.
      * right. split; [intros o [<-|Ho]; auto|].
        left. split; [reflexivity|]. intros m [<-|Hm]; auto.
      * right. split; [intros o [<-|Ho]; auto|].
        right. exists n. repeat split; auto.
        intros m [<-|Hm]; [lia | auto].
Qed.

Lemma closer_cases (best : option Nearest) (cand : Nearest) :
  (World.closer best cand = Some cand /\ World.nearest_dist cand < best_dist best)
  \/ (World.closer best cand = best /\ best_dist best <= World.nearest_dist cand).
Proof.
  unfold World.closer. fold (best_dist best).
  destruct (Z.ltb_spec (World.nearest_dist cand) (best_dist best)); auto.
Qed.

Section Stages.

Variables (p : Rect.t) (npcs : list Npc) (portals books : list Interactable).
Hypothesis Hp : positive_size p.
Hypothesis Hnpcs : Forall (fun n => positive_size (npc_rect n)) npcs.
Hypothesis Hportals : Forall (fun o => positive_size (rect o)) portals.
Hypothesis Hbooks : Forall (fun o => positive_size (rect o)) books.

Let rn := World.closest_npc_loop p npcs None (48 * 48).
Let rp := World.closest_rect_loop p portals None (70 * 70).
Let rb := World.closest_rect_loop p books None (60 * 60).
Let b0 := match rn with
          | Some n => Some (NearNpc n (World.center_dist_sq p (npc_rect n)))
          | None => None
          end.
Let b1 := match rp with
          | Some o => World.closer b0 (NearPortal o (World.effective_dist p (rect o)))
          | None => b0
          end.
Let b2 := match rb with
          | Some o => World.closer b1 (NearBook o (World.effective_dist p (rect o)))
          | None => b1
          end.

Definition resolved : option Nearest := b2.

Let good (b : option Nearest) : Prop :=
  forall x, b = Some x -> candidate p npcs portals books x.

Lemma rect_result_candidate (l : list Interactable) (bd : Z) (o : Interactable) :
  World.closest_rect_loop p l None bd = Some o ->
  In o l /\ (Rect.colliderect p (rect o) = true \/ World.center_dist_sq p (rect o) <= bd).
Proof.
  intros H.
  destruct (closest_rect_loop_spec p l None bd)
    as [(o' & E & Hin & Ho) | [_ [[E _] | (n & E & Hin & Hd & _)]]];
    rewrite H in E; try discriminate; injection E as <-; auto.
Qed.

Lemma good_b0 : good b0.
Proof.
  unfold good, b0. intros x.
  destruct rn as [n|] eqn:E; [|discriminate]. intros [= <-].
  destruct (closest_npc_loop_spec p npcs None (48 * 48))
    as [[E' _] | (n' & E' & Hin & Hd & _)];
    fold rn in E'; rewrite E in E'; [discriminate|]. injection E' as <-.
  simpl. auto.
Qed.

Lemma good_b1 : good b1.
Proof.
  unfold good, b1. intros x.
  destruct rp as [o|] eqn:E; [|apply good_b0].
  destruct (closer_cases b0 (NearPortal o (World.effective_dist p (rect o))))
    as [[-> _] | [-> _]]; [|apply good_b0].
  intros [= <-]. destruct (rect_result_candidate _ _ _ E). simpl. auto.
Qed.

Lemma good_b2 : good b2.
Proof.
  unfold good, b2. intros x.
  destruct rb as [o|] eqn:E; [|apply good_b1].
  destruct (closer_cases b1 (NearBook o (World.effective_dist p (rect o))))
    as [[-> _] | [-> _]]; [|apply good_b1].
  intros [= <-]. destruct (rect_result_candidate _ _ _ E). simpl. auto.
Qed.

Lemma candidate_dist_nonneg (x : Nearest) :
  candidate p npcs portals books x -> 0 <= World.nearest_dist x.
Proof.
  destruct x; simpl; intros (_ & -> & _);
    [apply dist_sq_nonneg | apply effective_dist_nonneg ..].
Qed.

(** A candidate at distance 0 overlaps the player. *)
Lemma candidate_at_zero (x : Nearest) :
  candidate p npcs portals books x -> World.nearest_dist x = 0 ->
  Rect.colliderect p (nearest_rect x) = true.
Proof.
  destruct x as [n d|o d|o d]; simpl; intros (Hin & -> & _) H0.
  - apply same_center_overlap; [exact Hp | | exact H0].
    apply (proj1 (List.Forall_forall _ _) Hnpcs). exact Hin.
  - apply effective_dist_zero; [exact Hp | | exact H0].
    apply (proj1 (List.Forall_forall _ _) Hportals). exact Hin.
  - apply effective_dist_zero; [exact Hp | | exact H0].
    apply (proj1 (List.Forall_forall _ _) Hbooks). exact Hin.
Qed.

Definition at_zero (b : option Nearest) : Prop :=
  exists x, b = Some x /\ World.nearest_dist x = 0
            /\ Rect.colliderect p (nearest_rect x) = true.

Lemma overlapping_wins (b : option Nearest) (cand : Nearest) :
  good b -> World.nearest_dist cand = 0 ->
  Rect.colliderect p (nearest_rect cand) = true ->
  at_zero (World.closer b cand).
Proof.
  intros Hg H0 Hov.
  destruct (closer_cases b cand) as [[-> _] | [-> Hle]].
  - exists cand. auto.
  - destruct b as [y|]; simpl in Hle; [|lia].
    pose proof (candidate_dist_nonneg y (Hg y eq_refl)).
    exists y. split; [reflexivity|]. split; [lia|].
    apply candidate_at_zero; [auto | lia].
Qed.

Lemma at_zero_stays (b : option Nearest) (cand : Nearest) :
  0 <= World.nearest_dist cand -> at_zero b -> at_zero (World.closer b cand).
Proof.
  intros Hc (x & -> & H0 & Hov).
  destruct (closer_cases (Some x) cand) as [[_ Hlt] | [-> _]].
  - simpl in Hlt. lia.
  - exists x. auto.
Qed.

Lemma overlap_found (l : list Interactable) (bd : Z) (o : Interactable) :
  In o l -> Rect.colliderect p (rect o) = true ->
  exists o', World.closest_rect_loop p l None bd = Some o'
             /\ Rect.colliderect p (rect o') = true.
Proof.
  intros Hin Hov.
  destruct (closest_rect_loop_spec p l None bd) as [(o' & E & _ & Ho) | [Hnone _]].
  - exists o'. auto.
  - rewrite (Hnone o Hin) in Hov. discriminate.
Qed.

Lemma effective_dist_overlap (r : Rect.t) :
  Rect.colliderect p r = true -> World.effective_dist p r = 0.
Proof. unfold World.effective_dist. intros ->. reflexivity. Qed.

Lemma resolved_overlap (o : Interactable) :
  In o portals \/ In o books -> Rect.colliderect p (rect o) = true ->
  at_zero resolved.
Proof.
  intros [Hin|Hin] Hov; unfold resolved, b2.
  - assert (H1 : at_zero b1).
    { unfold b1. destruct (overlap_found portals (70 * 70) o Hin Hov) as (o' & E & Ho').
      fold rp in E. rewrite E.
      apply overlapping_wins; [apply good_b0 | simpl; apply effective_dist_overlap; auto | auto]. }
    destruct rb as [ob|]; [|exact H1].
    apply at_zero_stays; [simpl; apply effective_dist_nonneg | exact H1].
  - destruct (overlap_found books (60 * 60) o Hin Hov) as (o' & E & Ho').
    fold rb in E. rewrite E.
    apply overlapping_wins; [apply good_b1 | simpl; apply effective_dist_overlap; auto | auto].
Qed.

(** The result is no farther than the NPC [n]: an NPC at most as far,
    or another kind strictly closer. *)
Definition beats (n : Npc) (b : option Nearest) : Prop :=
  exists x, b = Some x /\
    match x with
    | NearNpc _ d => d <= World.center_dist_sq p (npc_rect n)
    | _ => World.nearest_dist x < World.center_dist_sq p (npc_rect n)
    end.

Lemma beats_closer (n : Npc) (b : option Nearest) (cand : Nearest) :
  (match cand with NearNpc _ _ => False | _ => True end) ->
  beats n b -> beats n (World.closer b cand).
Proof.
  intros Hk (x & -> & Hx).
  destruct (closer_cases (Some x) cand) as [[-> Hlt] | [-> _]].
  - exists cand. split; [reflexivity|]. simpl in Hlt.
    destruct cand; [contradiction | destruct x; simpl in *; lia ..].
  - exists x. auto.
Qed.

Lemma resolved_npc (n : Npc) :
  In n npcs -> World.center_dist_sq p (npc_rect n) <= 48 * 48 ->
  beats n resolved.
Proof.
  intros Hin Hd.
  assert (H0 : beats n b0).
  { unfold b0.
    destruct (closest_npc_loop_spec p npcs None (48 * 48))
      as [[_ Hall] | (n0 & E & _ & _ & Hmin)].
    - specialize (Hall n Hin). lia.
    - fold rn in E. rewrite E. eexists. split; [reflexivity|]. simpl. auto. }
  assert (H1 : beats n b1).
  { unfold b1. destruct rp; [apply beats_closer; simpl; auto | exact H0]. }
  unfold resolved, b2. destruct rb; [apply beats_closer; simpl; auto | exact H1].
Qed.

End Stages.

Lemma nearest_interactable_resolved (w : WorldState) (npcs : list Npc)
    (portals books : list Interactable) :
  World._npcs w = Ok npcs -> World._portals w = Ok portals -> World._books w = Ok books ->
  World._nearest_interactable w = Ok (resolved (player w) npcs portals books).
Proof.
  intros Hn Hp Hb.
  unfold World._nearest_interactable, World._closest_npc, World._closest_portal,
    World._closest_book.
  rewrite Hn, Hp, Hb. cbn [bind]. reflexivity.
Qed.

(** C3: the resolver returns at most one result, an entry of the map
    within the radius of its kind; a transition zone or readable that
    overlaps the player makes the result one at distance 0 that overlaps
    the player; and an NPC within 48 px is the result unless a transition
    zone or readable is strictly closer, all on squared distances. *)
Theorem nearest_interactable_priority (w : WorldState) (npcs : list Npc)
    (portals books : list Interactable) :
  World._npcs w = Ok npcs -> World._portals w = Ok portals -> World._books w = Ok books ->
  positive_size (player w) ->
  Forall (fun n => positive_size (npc_rect n)) npcs ->
  Forall (fun o => positive_size (rect o)) portals ->
  Forall (fun o => positive_size (rect o)) books ->
  exists r : option Nearest,
    World._nearest_interactable w = Ok r
    /\ (forall x, r = Some x -> candidate (player w) npcs portals books x)
    /\ (forall o, In o portals \/ In o books ->
          Rect.colliderect (player w) (rect o) = true ->
          exists x, r = Some x /\ World.nearest_dist x = 0
                    /\ Rect.colliderect (player w) (nearest_rect x) = true)
    /\ (forall n, In n npcs ->
          World.center_dist_sq (player w) (npc_rect n) <= 48 * 48 ->
          exists x, r = Some x /\
            match x with
            | NearNpc _ d => d <= World.center_dist_sq (player w) (npc_rect n)
            | _ => World.nearest_dist x < World.center_dist_sq (player w) (npc_rect n)
            end).
Proof.
  intros Hn Hpo Hb Hp Hnpcs Hportals Hbooks.
  exists (resolved (player w) npcs portals books).
  split; [apply nearest_interactable_resolved; auto|].
  split; [apply good_b2|].
  split.
  - intros o Hin Hov. eapply resolved_overlap; eauto.
  - intros n Hin Hd. apply resolved_npc; auto.
Qed.

End Resolver.

(** Every map the code builds gives rectangles of positive size to its
    NPCs, portals and books: a Tiled object is at least 10 pixels wide and
    high, and the generated maps list fixed rectangles. *)
Section BuiltMaps.

Variable K : Constants.

Lemma object_rect_positive (o : TiledObject) (r : Rect.t) :
  World.object_rect o = Ok r -> positive_size r.
Proof.
  unfold World.object_rect. intros H.
  repeat match type of H with
         | bind ?x _ = Ok _ => destruct x; cbn [bind] in H; try discriminate H
         end.
  injection H as <-. unfold positive_size. simpl. lia.
Qed.

Lemma collect_Forall {A B : Type} (f : A -> result B) (P : B -> Prop) :
  (forall a b, f a = Ok b -> P b) ->
  forall l l', World.collect f l = Ok l' -> Forall P l'.
Proof.
  intros Hf. induction l as [|a l IH]; intros l' H; simpl in H.
  - injection H as <-. constructor.
  - destruct (f a) as [b| |] eqn:E; cbn [bind] in H; try discriminate H.
    destruct (World.collect f l) as [bs| |]; cbn [bind] in H; try discriminate H.
    injection H as <-. constructor; eauto.
Qed.

Lemma built_maps_positive (w : WorldState) (npcs : list Npc)
    (portals books : list Interactable) :
  (exists t, provider w = Tiled t)
  \/ (exists id, provider w = Generated (GeneratedMap_init K id)) ->
  World._npcs w = Ok npcs -> World._portals w = Ok portals -> World._books w = Ok books ->
  Forall (fun n => positive_size (npc_rect n)) npcs
  /\ Forall (fun o => positive_size (rect o)) portals
  /\ Forall (fun o => positive_size (rect o)) books.
Proof.
  unfold World._npcs, World._portals, World._books.
  intros [[t ->] | [id ->]] Hn Hp Hb.
  - split; [|split].
    + apply (collect_Forall World.tiled_npc _) with (l := tiled_npcs t); [|exact Hn].
      intros o n H. unfold World.tiled_npc in H.
      destruct (Py.chars _); cbn [bind] in H; try discriminate H.
      destruct (World.object_rect o) eqn:E; cbn [bind] in H; try discriminate H.
      injection H as <-. simpl. eapply object_rect_positive; eauto.
    + apply (collect_Forall World.tiled_portal _) with (l := tiled_portals t); [|exact Hp].
      intros o n H. unfold World.tiled_portal in H.
      destruct (World.object_rect o) eqn:E; cbn [bind] in H; try discriminate H.
      destruct (Dict.has _ _); try discriminate H.
      injection H as <-. simpl. eapply object_rect_positive; eauto.
    + apply (collect_Forall World.tiled_book _) with (l := tiled_books t); [|exact Hb].
      intros o n H. unfold World.tiled_book in H.
      destruct (World.object_rect o) eqn:E; cbn [bind] in H; try discriminate H.
      injection H as <-. simpl. eapply object_rect_positive; eauto.
  - unfold GeneratedMap_init in *. cbn [gen_npcs gen_portals gen_books] in *.
    destruct (String.eqb id "city"); [|destruct (String.eqb id "house_1")];
      try discriminate Hn;
      injection Hn as <-; injection Hp as <-; injection Hb as <-;
      repeat split; repeat constructor.
Qed.

End BuiltMaps.

Lemma nearest_interactable_priority_witness :
  exists x,
    World._nearest_interactable house_at_shelf = Ok (Some x)
    /\ World.nearest_dist x = 0
    /\ Rect.colliderect (player house_at_shelf) (nearest_rect x) = true.
Proof.
  destruct (nearest_interactable_priority house_at_shelf house_1_npcs
              (house_1_portals 720) house_1_books)
    as (r & Hrun & _ & Hoverlap & _).
  - reflexivity.
  - reflexivity.
  - reflexivity.
  - split; simpl; lia.
  - repeat constructor.
  - repeat constructor.
  - repeat constructor.
  - destruct (Hoverlap (List.hd {| rect := Rect.mk 0 0 0 0; props := [] |} house_1_books))
      as (x & -> & Hzero & Hov).
    + right. left. reflexivity.
    + vm_compute. reflexivity.
    + exists x. auto.
Defined.

(** ** Portals (C8) *)

Section Portal.

Variable K : Constants.
Variable files : Files.

Lemma first_overlap_found (p : Rect.t) (before after : list Interactable)
    (o : Interactable) :
  (forall o', In o' before -> Rect.colliderect p (rect o') = false) ->
  Rect.colliderect p (rect o) = true ->
  forall best bd,
    World.closest_rect_loop p (before ++ o :: after) best bd = Some o.
Proof.
  intros Hb Ho. induction before as [|o0 l IH]; intros best bd; simpl.
  - rewrite Ho. reflexivity.
  - rewrite (Hb o0 (or_introl eq_refl)).
    destruct (_ <=? _); apply IH; intros o' Hin; apply Hb; right; exact Hin.
Qed.

(** The resolver picks the first portal that overlaps the player, unless
    an NPC within range has its centre on the centre of the player. *)
Lemma overlapped_portal_resolved (p : Rect.t) (npcs : list Npc)
    (before after books : list Interactable) (o : Interactable) :
  (forall n, In n npcs -> World.center_dist_sq p (npc_rect n) <> 0) ->
  (forall o', In o' before -> Rect.colliderect p (rect o') = false) ->
  Rect.colliderect p (rect o) = true ->
  resolved p npcs (before ++ o :: after) books = Some (NearPortal o 0).
Proof.
  intros Hn Hb Ho. unfold resolved.
  rewrite (first_overlap_found p before after o Hb Ho).
  rewrite (effective_dist_overlap p _ Ho).
  set (b0 := match World.closest_npc_loop p npcs None (48 * 48) with
             | Some n => Some (NearNpc n (World.center_dist_sq p (npc_rect n)))
             | None => None
             end).
  assert (H0 : 0 < best_dist b0).
  { unfold b0.
    destruct (closest_npc_loop_spec p npcs None (48 * 48))
      as [[-> _] | (n & -> & Hin & _)]; simpl; [lia|].
    pose proof (dist_sq_nonneg (Rect.centerx p) (Rect.centery p)
                  (Rect.centerx (npc_rect n)) (Rect.centery (npc_rect n))).
    specialize (Hn n Hin). unfold World.center_dist_sq in *. lia. }
  destruct (closer_cases b0 (NearPortal o 0)) as [[-> _] | [_ Hle]];
    [|simpl in Hle; lia].
  destruct (World.closest_rect_loop p books None (60 * 60)) as [b|]; [|reflexivity].
  destruct (closer_cases (Some (NearPortal o 0))
              (NearBook b (World.effective_dist p (rect b)))) as [[_ Hlt] | [-> _]];
    [|reflexivity].
  simpl in Hlt. pose proof (effective_dist_nonneg p (rect b)). lia.
Qed.

Lemma store_position_ok (w : WorldState) (app : App) (pl : pydict) :
  Dict.get "player" (save app) = Some (PDict pl) ->
  exists sv,
    World.store_position w app = Ok {| save := sv; slot := Parsed (PDict sv) |}
    /\ forall k, k <> "player" -> Dict.get k sv = Dict.get k (save app).
Proof.
  intros Hpl. unfold World.store_position.
  rewrite (setitem2_dict _ _ _ _ _ Hpl). cbn [bind].
  rewrite (setitem2_dict _ (Dict.set "x" _ pl) _ _ _) by apply get_set_eq.
  cbn [bind]. eexists. split; [reflexivity|].
  intros k Hk. rewrite !get_set_ne by congruence. reflexivity.
Qed.

(** [WorldScene(app, map_id=target, spawn_xy=(fx, fy), zoom=z)] *)
Lemma WorldScene_init_at (app : App) (target : string) (fx fy : float)
    (kx ky : Z) (z : option float) :
  PyFloat.to_int fx = Ok kx -> PyFloat.to_int fy = Ok ky ->
  (Dict.get "world" (save app) = None
   \/ exists wd, Dict.get "world" (save app) = Some (PDict wd)) ->
  (map_file files ("data/maps/" +:+ target +:+ ".json") = None
   \/ exists t dz, map_file files ("data/maps/" +:+ target +:+ ".json") = Some (Ok t)
                   /\ _map_default_zoom (Tiled t) = Ok dz) ->
  exists w' app',
    WorldScene_init K files app (Some target) (Some (fx, fy)) z = Ok (w', app')
    /\ map_id w' = target
    /\ Rect.x (player w') = kx /\ Rect.y (player w') = ky.
Proof.
  intros Hkx Hky Hworld Hfile. unfold WorldScene_init. cbn [bind].
  destruct (setdefault_setitem_ok (save app) "world" "map" (PStr target) Hworld)
    as (inner & -> & _).
  cbn [bind].
  destruct Hfile as [-> | (t & dz & -> & Hdz)]; cbn [bind fst snd];
    rewrite Hkx, Hky; cbn [bind].
  - destruct z; cbn [bind _map_default_zoom]; do 2 eexists; (split; [reflexivity|]); auto.
  - destruct z; [|rewrite Hdz]; cbn [bind]; do 2 eexists; (split; [reflexivity|]); auto.
Qed.

(** C8 (amended): the player overlaps a portal that declares a non-empty
    [target_map] and numeric target coordinates which, truncated toward
    zero, fit a field of a [pygame.Rect] (a 32-bit C int); the portal is
    the first overlapping one of the map and no NPC has its centre on the
    centre of the player.  Pressing interact (cancel not pressed) then
    produces a transition to a World scene whose map id is the declared
    [target_map] and whose player rectangle is at the declared coordinates
    truncated toward zero to integers, provided the save holds its
    [player] dict and the target map file is absent or loads. *)
Theorem portal_transition (w : WorldState) (app : App) (st : InputState)
    (events : list event) (npcs : list Npc) (before after books : list Interactable)
    (o : Interactable) (target : string) (vx vy : pyval) (fx fy : float)
    (kx ky : Z) (z : option float) (pl : pydict) :
  cancel_pressed st = false -> interact_pressed st = true ->
  World._npcs w = Ok npcs ->
  World._portals w = Ok (before ++ o :: after) ->
  World._books w = Ok books ->
  (forall n, In n npcs -> World.center_dist_sq (player w) (npc_rect n) <> 0) ->
  (forall o', In o' before -> Rect.colliderect (player w) (rect o') = false) ->
  Rect.colliderect (player w) (rect o) = true ->
  Dict.get "target_map" (props o) = Some (PStr target) -> target <> "" ->
  Dict.get "target_x" (props o) = Some vx -> Py.float_ vx = Ok fx ->
  PyFloat.to_int fx = Ok kx -> c_int kx ->
  Dict.get "target_y" (props o) = Some vy -> Py.float_ vy = Ok fy ->
  PyFloat.to_int fy = Ok ky -> c_int ky ->
  World.portal_zoom (props o) = Ok z ->
  Dict.get "player" (save app) = Some (PDict pl) ->
  (Dict.get "world" (save app) = None
   \/ exists wd, Dict.get "world" (save app) = Some (PDict wd)) ->
  (map_file files ("data/maps/" +:+ target +:+ ".json") = None
   \/ exists t dz, map_file files ("data/maps/" +:+ target +:+ ".json") = Some (Ok t)
                   /\ _map_default_zoom (Tiled t) = Ok dz) ->
  exists w1 app' w',
    World.handle_input K files w app st events = Ok (w1, app', goto (WorldScene w'))
    /\ map_id w' = target
    /\ Rect.x (player w') = kx /\ Rect.y (player w') = ky.
Proof.
  intros Hcancel Hint Hn Hp Hb Hnpc Hbefore Hov Hmap Hne Hvx Hfx Hkx Hrx Hvy Hfy Hky Hry
    Hz Hpl Hworld Hfile.
  unfold World.handle_input. rewrite Hcancel.
  set (w0 := World.with_labels w None None None).
  rewrite (nearest_interactable_resolved w0 npcs (before ++ o :: after) books Hn Hp Hb).
  cbn [bind].
  change (player w0) with (player w).
  rewrite (overlapped_portal_resolved (player w) npcs before after books o Hnpc Hbefore Hov).
  cbv beta iota zeta. rewrite Hint.
  set (w1 := World.with_labels w0 _ _ _).
  unfold World.portal_target, Dict.get_default. rewrite Hmap, Hvx, Hvy, Hfx, Hfy.
  cbn [bind try_except].
  fold (Dict.get_default "target_zoom" PNone (props o)). fold (World.portal_zoom (props o)).
  rewrite Hz. cbn [bind Py.str Py.text_truthy Py.chars].
  destruct (String.eqb_spec target "") as [->|_]; [contradiction|].
  cbn [negb].
  destruct (store_position_ok w1 app pl Hpl) as (sv & -> & Hsame).
  cbn [bind].
  destruct (WorldScene_init_at {| save := sv; slot := Parsed (PDict sv) |}
              target fx fy kx ky z Hkx Hky) as (w' & app' & -> & Hid & Hx & Hy).
  { cbn [save]. rewrite Hsame by discriminate. exact Hworld. }
  { exact Hfile. }
  cbn [bind]. exists w1, app', w'. auto.
Qed.

End Portal.

Lemma portal_transition_witness :
  exists w1 app' w',
    World.handle_input sample_constants no_files city_at_door fresh_app
      (pressing true false false) [KEYDOWN K_e]
    = Ok (w1, app', goto (WorldScene w'))
    /\ map_id w' = "house_1"
    /\ Rect.x (player w') = 240 /\ Rect.y (player w') = 300.
Proof.
  apply (portal_transition sample_constants no_files city_at_door fresh_app
           (pressing true false false) [KEYDOWN K_e] city_npcs [] [] []
           (List.hd {| rect := Rect.mk 0 0 0 0; props := [] |} city_portals)
           "house_1" (PFloat (PyFloat.of_Z 240)) (PFloat (PyFloat.of_Z 300))
           (PyFloat.of_Z 240) (PyFloat.of_Z 300) 240 300
           (Some (PyFloat.lit 16 10))
           [ ("x", PFloat (PyFloat.of_Z 200)); ("y", PFloat (PyFloat.of_Z 200)) ]).
  - reflexivity.
  - reflexivity.
  - reflexivity.
  - reflexivity.
  - reflexivity.
  - intros n [<-|[<-|[]]]; vm_compute; discriminate.
  - intros o' [].
  - vm_compute. reflexivity.
  - reflexivity.
  - discriminate.
  - reflexivity.
  - reflexivity.
  - vm_compute. reflexivity.
  - unfold c_int. lia.
  - reflexivity.
  - reflexivity.
  - vm_compute. reflexivity.
  - unfold c_int. lia.
  - vm_compute. reflexivity.
  - reflexivity.
  - right. eexists. reflexivity.
  - left. reflexivity.
Defined.

(** C8 as stated fails on the code: with an NPC centred on the player the
    overlapped portal is not taken and interact opens the dialogue; and a
    target between pixels is truncated, so the player is not at the declared
    coordinates. *)
Lemma overlapped_portal_not_taken :
  let w := world_on guarded_door (Rect.mk 100 100 16 16) in
  let w' := world_on offgrid_door (Rect.mk 100 100 16 16) in
  (Rect.colliderect (player w) (Rect.mk 100 100 16 16) = true
   /\ World._portals w
      = Ok [ {| rect := Rect.mk 100 100 16 16;
                props := [ ("target_map", PStr "house_1");
                           ("target_x", PInt 240); ("target_y", PInt 300) ] |} ]
   /\ exists w1 d,
        World.handle_input sample_constants guard_files w fresh_app
          (pressing true false false) [KEYDOWN K_e]
        = Ok (w1, fresh_app, goto (DialogueScene (WorldScene w1) d)))
  /\ (exists w1 app1 w2,
        World.handle_input sample_constants no_files w' fresh_app
          (pressing true false false) [KEYDOWN K_e]
        = Ok (w1, app1, goto (WorldScene w2))
        /\ player w2 = Rect.mk 240 300 16 16
        /\ exactly (PyFloat.lit 481 2) (481 # 2)
        /\ exactly (PyFloat.lit 1203 4) (1203 # 4)).
Proof.
  cbv zeta. split; [split; [|split]|].
  - vm_compute. reflexivity.
  - vm_compute. reflexivity.
  - vm_compute. do 2 eexists. reflexivity.
  - do 3 eexists. split; [vm_compute; reflexivity|].
    split; [reflexivity|]. split; vm_compute; reflexivity.
Qed.

(** ** Loading the save (C5) *)

Section LoadSave.

Lemma get_app_last (k k0 : string) (v0 : pyval) (l : pydict) :
  Dict.get k (l ++ [(k0, v0)])
  = match Dict.get k l with
    | Some v => Some v
    | None => if String.eqb k0 k then Some v0 else None
    end.
Proof.
  induction l as [|[k1 v1] l IH]; simpl; [reflexivity|].
  destruct (String.eqb k1 k); auto.
Qed.

(** After [base.update(d)] a key holds its last value in [d], or else
    its value in [base]. *)
Lemma get_update (k : string) (d : pydict) :
  forall base,
    Dict.get k (Dict.update base d)
    = match Dict.get k (rev d) with
      | Some v => Some v
      | None => Dict.get k base
      end.
Proof.
  unfold Dict.update.
  induction d as [|[k0 v0] d IH]; intros base; simpl; [reflexivity|].
  rewrite IH, get_app_last, get_set.
  destruct (Dict.get k (rev d)); [reflexivity|].
  destruct (String.eqb k0 k); reflexivity.
Qed.

Lemma get_ensure_dict (k k' : string) (dflt : pyval) (base : pydict) :
  Dict.get k' (SaveSystem.ensure_dict k dflt base)
  = if String.eqb k k'
    then match Dict.get k base with
         | Some (PDict x) => Some (PDict x)
         | _ => Some dflt
         end
    else Dict.get k' base.
Proof.
  unfold SaveSystem.ensure_dict.
  destruct (String.eqb_spec k k') as [<-|Hne].
  - destruct (Dict.get k base) as [[]|] eqn:E; rewrite ?get_set_eq; auto.
  - destruct (Dict.get k base) as [[]|] eqn:E; rewrite ?get_set_ne; auto.
Qed.

Lemma ensure_dict_is_dict (k : string) (x : pydict) (base : pydict) :
  is_dict (Dict.get k (SaveSystem.ensure_dict k (PDict x) base)).
Proof.
  rewrite get_ensure_dict, String.eqb_refl.
  destruct (Dict.get k base) as [[]|]; eexists; reflexivity.
Qed.

Lemma ensure_world_map_ok (base w : pydict) :
  Dict.get "world" base = Some (PDict w) ->
  exists base' w',
    SaveSystem.ensure_world_map base = Ok base'
    /\ Dict.get "world" base' = Some (PDict w') /\ Dict.has "map" w' = true
    /\ forall k, k <> "world" -> Dict.get k base' = Dict.get k base.
Proof.
  intros H. unfold SaveSystem.ensure_world_map, Py.getitem. rewrite H. cbn [bind].
  destruct (Dict.has "map" w) eqn:E.
  - exists base, w. auto.
  - rewrite (setitem2_dict _ _ _ _ _ H).
    eexists. eexists. split; [reflexivity|]. split; [apply get_set_eq|].
    split; [unfold Dict.has; rewrite get_set_eq; reflexivity|].
    intros k Hk. apply get_set_ne. congruence.
Qed.

Lemma ensure_challenges_ok (base c : pydict) :
  Dict.get "completed" base = Some (PDict c) ->
  exists base' c' l,
    SaveSystem.ensure_challenges base = Ok base'
    /\ Dict.get "completed" base' = Some (PDict c')
    /\ Dict.get "challenges" c' = Some (PList l)
    /\ forall k, k <> "completed" -> Dict.get k base' = Dict.get k base.
Proof.
  intros H. unfold SaveSystem.ensure_challenges, Py.getitem. rewrite H. cbn [bind].
  destruct (Dict.get "challenges" c) as [[]|] eqn:E;
    try (rewrite (setitem2_dict _ _ _ _ _ H);
         eexists; eexists; exists []; split; [reflexivity|];
         split; [apply get_set_eq|]; split; [apply get_set_eq|];
         intros k Hk; apply get_set_ne; congruence).
  exists base, c, l. auto.
Qed.

(** On every JSON object [load_save] returns: the five sub-objects are
    dicts, [world] has its [map] and [completed] its list of
    [challenges], and every other key of the file is kept. *)
Lemma load_save_object (d : pydict) :
  exists doc,
    SaveSystem.load_save (Parsed (PDict d)) = Ok doc
    /\ (exists w, Dict.get "world" doc = Some (PDict w) /\ Dict.has "map" w = true)
    /\ is_dict (Dict.get "player" doc)
    /\ is_dict (Dict.get "trust" doc)
    /\ is_dict (Dict.get "scores" doc)
    /\ (exists c l, Dict.get "completed" doc = Some (PDict c)
                    /\ Dict.get "challenges" c = Some (PList l))
    /\ (forall k, ~ In k ["world"; "player"; "trust"; "scores"; "completed"] ->
          Dict.get k doc = Dict.get k (rev d)).
Proof.
  unfold SaveSystem.load_save, SaveSystem.dict_update. cbn [bind].
  set (b0 := Dict.update SaveSystem.default_save d).
  set (b1 := SaveSystem.ensure_dict "world" _ b0).
  destruct (ensure_dict_is_dict "world" [("map", PStr "city")] b0) as [w Hw].
  fold b1 in Hw.
  destruct (ensure_world_map_ok b1 w Hw) as (b2 & w' & -> & Hw' & Hmap & Hsame2).
  cbn [bind].
  set (b3 := SaveSystem.ensure_dict "player" _ b2).
  set (b4 := SaveSystem.ensure_dict "trust" _ b3).
  set (b5 := SaveSystem.ensure_dict "scores" _ b4).
  set (b6 := SaveSystem.ensure_dict "completed" _ b5).
  destruct (ensure_dict_is_dict "completed" [("challenges", PList [])] b5) as [c Hc].
  fold b6 in Hc.
  destruct (ensure_challenges_ok b6 c Hc) as (b7 & c' & l & -> & Hc' & Hl & Hsame7).
  exists b7. split; [reflexivity|].
  assert (Hget : forall k, k <> "completed" -> k <> "scores" -> k <> "trust" ->
                   k <> "player" -> Dict.get k b7 = Dict.get k b2).
  { intros k H1 H2 H3 H4. rewrite Hsame7 by assumption.
    unfold b6, b5, b4, b3. rewrite !get_ensure_dict.
    repeat match goal with
           | |- context [String.eqb ?a k] =>
               destruct (String.eqb_spec a k); [congruence|]
           end.
    reflexivity. }
  split; [exists w'; rewrite Hget by discriminate; auto|].
  split.
  { rewrite Hsame7 by discriminate. unfold b6, b5, b4.
    rewrite !get_ensure_dict. cbn [String.eqb Ascii.eqb Bool.eqb].
    apply (ensure_dict_is_dict "player" _ b2). }
  split.
  { rewrite Hsame7 by discriminate. unfold b6, b5.
    rewrite !get_ensure_dict. cbn [String.eqb Ascii.eqb Bool.eqb].
    apply (ensure_dict_is_dict "trust" [] b3). }
  split.
  { rewrite Hsame7 by discriminate. unfold b6.
    rewrite !get_ensure_dict. cbn [String.eqb Ascii.eqb Bool.eqb].
    apply (ensure_dict_is_dict "scores" _ b4). }
  split; [exists c', l; auto|].
  intros k Hk.
  assert (Hne : k <> "world" /\ k <> "player" /\ k <> "trust" /\ k <> "scores"
                /\ k <> "completed")
    by (repeat split; intros ->; apply Hk; simpl; tauto).
  destruct Hne as (N1 & N2 & N3 & N4 & N5). simpl in Hk.
  rewrite Hget by assumption. rewrite Hsame2 by assumption.
  unfold b1. rewrite get_ensure_dict.
  destruct (String.eqb_spec "world" k); [congruence|].
  unfold b0. rewrite get_update.
  destruct (Dict.get k (rev d)) eqn:E; [reflexivity|].
  unfold SaveSystem.default_save. cbn [Dict.get].
  repeat match goal with
         | |- context [String.eqb ?a k] =>
             destruct (String.eqb_spec a k); [congruence|]
         end.
  reflexivity.
Qed.

(** C5: a save file that holds a JSON value other than an object makes
    [load_save] raise; and a [player] object without coordinates is
    returned as it is, not replaced by the default. *)
Theorem load_save_raises_on_scalar :
  SaveSystem.load_save (Parsed (PInt 5)) = Raise TypeError
  /\ SaveSystem.load_save (Parsed PNone) = Raise TypeError
  /\ SaveSystem.load_save (Parsed (PList [PInt 1; PInt 2])) = Raise TypeError
  /\ (exists doc, SaveSystem.load_save (Parsed (PDict [("player", PDict [])])) = Ok doc
                  /\ Dict.get "player" doc = Some (PDict [])).
Proof.
  repeat split; try reflexivity.
  eexists. split; reflexivity.
Qed.

End LoadSave.

(** ** Dialogue (C4, C9, C10) *)

Section DialogueTheorems.

Variable files : Files.

Lemma missing_node_empty (d : DialogueState) :
  missing_node d -> Dialogue.current_node d = Ok (PDict []).
Proof.
  intros (ns & Hns & Hid). unfold Dialogue.current_node. rewrite Hns.
  destruct (node_id d); try contradiction; try reflexivity.
  unfold Dict.get_default. rewrite Hid. reflexivity.
Qed.

(** C9: on a node id without entry in the graph, [handle_input] does not
    raise: it writes the save document and returns to the prior scene,
    whatever the input. *)
Theorem dialogue_missing_node_ends (return_scene : scene) (d : DialogueState)
    (app : App) (st : InputState) (events : list event) :
  missing_node d ->
  Dialogue.handle_input files return_scene d app st events
  = Ok (d, {| save := save app; slot := Parsed (PDict (save app)) |}, goto return_scene).
Proof.
  intros H. unfold Dialogue.handle_input.
  destruct (cancel_pressed st); [reflexivity|].
  rewrite (missing_node_empty d H). cbn [bind Py.get_default Dict.get_default Dict.get].
  destruct (confirm_pressed st); reflexivity.
Qed.

Lemma clamp_selection_range (s n : Z) : 0 < n -> 0 <= clamp_selection s n < n.
Proof.
  intros Hn. unfold clamp_selection.
  destruct (Z.ltb_spec s 0).
  - destruct (Z.geb_spec 0 n); lia.
  - destruct (Z.geb_spec s n); lia.
Qed.

Lemma list_index_in_range (l : list pyval) (i : Z) (v : pyval) :
  0 <= i < Z.of_nat (length l) -> l !! Z.to_nat i = Some v ->
  Py.list_index l i = Ok v.
Proof.
  intros Hi Hv. unfold Py.list_index.
  destruct (Z.ltb_spec i 0); [lia|].
  destruct (Z.leb_spec 0 i); [|lia].
  destruct (Z.ltb_spec i (Z.of_nat (length l))); [|lia].
  simpl. rewrite Hv. reflexivity.
Qed.

(** The trust update of a committed choice: the delta is added once to
    the score of the NPC, a missing score counting as 0, and nothing else
    in the document changes. *)
Lemma add_trust_ok (npc : string) (delta prior : Z) (sv : pydict) :
  trust_of npc sv = Ok prior ->
  exists sv',
    Dialogue.add_trust npc delta sv = Ok sv'
    /\ trust_of npc sv' = Ok (prior + delta)
    /\ (forall other, other <> npc -> trust_of other sv' = trust_of other sv)
    /\ (forall k, k <> "trust" -> Dict.get k sv' = Dict.get k sv).
Proof.
  unfold trust_of, Dialogue.add_trust, Py.setdefault, Dict.get_default.
  intros H.
  destruct (Dict.get "trust" sv) as [tv|] eqn:Et.
  - destruct tv as [| | | | |?|t]; try discriminate H.
    cbn [Py.get_default bind] in H |- *. unfold Dict.get_default in H |- *.
    rewrite H. cbn [bind Py.setitem].
    eexists. split; [reflexivity|].
    rewrite get_set_eq. cbn [Py.get_default bind]. unfold Dict.get_default.
    rewrite get_set_eq. cbn [Py.int].
    split; [reflexivity|]. split.
    + intros other Hne. rewrite get_set_ne by congruence. reflexivity.
    + intros k Hk. apply get_set_ne. congruence.
  - cbn [Py.get_default bind Dict.get] in H |- *. injection H as <-.
    cbn [Py.int bind Py.setitem Dict.set].
    eexists. split; [reflexivity|].
    rewrite get_set_eq. cbn [Py.get_default bind]. unfold Dict.get_default.
    cbn [Dict.get]. rewrite String.eqb_refl. cbn [Py.int].
    split; [reflexivity|]. split.
    + intros other Hne. cbn [Dict.get].
      destruct (String.eqb_spec npc other); [congruence | reflexivity].
    + intros k Hk. rewrite !get_set_ne by congruence. reflexivity.
Qed.

(** The tail of [handle_input] never moves the dialogue to another node
    and never touches the save document. *)
Lemma node_action_keeps (return_scene : scene) (d d' : DialogueState) (app app' : App)
    (node : pyval) (r : SceneResult) :
  Dialogue.node_action files return_scene d app node = Ok (d', app', r) ->
  d' = d /\ save app' = save app.
Proof.
  unfold Dialogue.node_action. intros H.
  destruct (Py.get_default node "action" PNone) as [action| |]; cbn [bind] in H;
    try discriminate H.
  match type of H with
  | bind ?l _ = _ => destruct l as [[[[d0 app0] r0]|]| |] eqn:E
  end; cbn [bind] in H; try discriminate H.
  - injection H as <- <- <-.
    destruct action; try discriminate E.
    destruct (Dict.get "type" d1) as [[]|]; try discriminate E.
    destruct (String.eqb s "start_challenge"); try discriminate E.
    destruct (Py.text_truthy _); try discriminate E.
    destruct (Py.chars _); cbn [bind] in E; try discriminate E.
    destruct (ChallengeScene_init _ _ _); cbn [bind] in E; try discriminate E.
    injection E as <- <- <-. auto.
  - destruct (negb (Py.truthy node)); injection H as <- <- <-; auto.
Qed.

Lemma dialogue_choice_steps (return_scene : scene) (d : DialogueState)
    (app : App) (st : InputState) (events : list event)
    (node : pydict) (opts : list pyval) (c : pydict) (i delta prior : Z) :
  cancel_pressed st = false -> confirm_pressed st = true ->
  Dialogue.current_node d = Ok (PDict node) ->
  Dict.get "choices" node = Some (PList opts) -> opts <> [] ->
  i = clamp_selection (move_selection (selected_choice d) events)
        (Z.of_nat (length opts)) ->
  opts !! Z.to_nat i = Some (PDict c) ->
  Py.int (Dict.get_default "trust_delta" (PInt 0) c) = Ok delta ->
  trust_of (dlg_npc_id d) (save app) = Ok prior ->
  exists sv',
    trust_of (dlg_npc_id d) sv' = Ok (prior + delta)
    /\ (forall other, other <> dlg_npc_id d ->
          trust_of other sv' = trust_of other (save app))
    /\ (forall k, k <> "trust" -> Dict.get k sv' = Dict.get k (save app))
    /\ (forall id,
          Py.truthy (Dict.get_default "next" PNone c) = true ->
          Py.str (Dict.get_default "next" PNone c) = Text id ->
          Dialogue.handle_input files return_scene d app st events
          = Ok (Dialogue.with_node d (PStr id) 0,
                {| save := sv'; slot := slot app |}, no_transition))
    /\ (Py.truthy (Dict.get_default "next" PNone c) = false ->
        Dialogue.handle_input files return_scene d app st events
        = Dialogue.node_action files return_scene
            (Dialogue.with_node d (node_id d) i)
            {| save := sv'; slot := slot app |} (PDict node)).
Proof.
  intros Hcancel Hconfirm Hnode Hch Hne Hi Hc Hdelta Hprior.
  destruct (add_trust_ok (dlg_npc_id d) delta prior (save app) Hprior)
    as (sv' & Hadd & Hnew & Hothers & Hkeys).
  exists sv'. split; [exact Hnew|]. split; [exact Hothers|]. split; [exact Hkeys|].
  assert (Hrange : 0 <= i < Z.of_nat (length opts)).
  { subst i. apply clamp_selection_range. destruct opts; [contradiction | simpl; lia]. }
  assert (Hrun :
             Dialogue.handle_input files return_scene d app st events
             = (do nxt <- Ok (Dict.get_default "next" PNone c);
                if Py.truthy nxt
                then do id <- Py.chars (Py.str nxt);
                     Ok (Dialogue.with_node (Dialogue.with_node d (node_id d) i) (PStr id) 0,
                         {| save := sv'; slot := slot app |}, no_transition)
                else Dialogue.node_action files return_scene
                       (Dialogue.with_node d (node_id d) i)
                       {| save := sv'; slot := slot app |} (PDict node))).
  { unfold Dialogue.handle_input. rewrite Hcancel, Hnode.
    cbn [bind Py.get_default]. unfold Dict.get_default at 1. rewrite Hch.
    destruct opts as [|o opts']; [contradiction|].
    rewrite Hconfirm, <- Hi.
    rewrite (list_index_in_range _ _ _ Hrange Hc).
    cbn [bind Py.get_default]. rewrite Hdelta. cbn [bind].
    change (dlg_npc_id (Dialogue.with_node d (node_id d) i)) with (dlg_npc_id d).
    rewrite Hadd. cbn [bind]. reflexivity. }
  split.
  - intros id Htruthy Hstr. rewrite Hrun.
    cbn [bind]. rewrite Htruthy, Hstr. reflexivity.
  - intros Hfalsy. rewrite Hrun.
    cbn [bind]. rewrite Hfalsy. reflexivity.
Qed.

(** C4: confirming on a node with choices adds the delta of the selected
    choice once to the trust of the NPC (a missing entry counting as 0);
    a choice with a next-node id then moves the dialogue there with the
    selection reset, and one without leaves the node id as it is, only
    the action of the node itself being looked at. *)
Theorem dialogue_choice_commits (return_scene : scene) (d : DialogueState)
    (app : App) (st : InputState) (events : list event)
    (node : pydict) (opts : list pyval) (c : pydict) (i delta prior : Z) :
  cancel_pressed st = false -> confirm_pressed st = true ->
  Dialogue.current_node d = Ok (PDict node) ->
  Dict.get "choices" node = Some (PList opts) -> opts <> [] ->
  i = clamp_selection (move_selection (selected_choice d) events)
        (Z.of_nat (length opts)) ->
  opts !! Z.to_nat i = Some (PDict c) ->
  Py.int (Dict.get_default "trust_delta" (PInt 0) c) = Ok delta ->
  trust_of (dlg_npc_id d) (save app) = Ok prior ->
  exists sv',
    trust_of (dlg_npc_id d) sv' = Ok (prior + delta)
    /\ (forall other, other <> dlg_npc_id d ->
          trust_of other sv' = trust_of other (save app))
    /\ (forall k, k <> "trust" -> Dict.get k sv' = Dict.get k (save app))
    /\ (forall id,
          Py.truthy (Dict.get_default "next" PNone c) = true ->
          Py.str (Dict.get_default "next" PNone c) = Text id ->
          Dialogue.handle_input files return_scene d app st events
          = Ok (Dialogue.with_node d (PStr id) 0,
                {| save := sv'; slot := slot app |}, no_transition))
    /\ (Py.truthy (Dict.get_default "next" PNone c) = false ->
        Dialogue.handle_input files return_scene d app st events
        = Dialogue.node_action files return_scene
            (Dialogue.with_node d (node_id d) i)
            {| save := sv'; slot := slot app |} (PDict node)
        /\ forall d' app' r,
             Dialogue.handle_input files return_scene d app st events = Ok (d', app', r) ->
             node_id d' = node_id d /\ selected_choice d' = i /\ save app' = sv').
Proof.
  intros Hcancel Hconfirm Hnode Hch Hne Hi Hc Hdelta Hprior.
  destruct (dialogue_choice_steps return_scene d app st events node opts c i delta prior
              Hcancel Hconfirm Hnode Hch Hne Hi Hc Hdelta Hprior)
    as (sv' & H1 & H2 & H3 & H4 & H5).
  exists sv'. repeat (split; [assumption|]).
  intros Hfalsy. split; [exact (H5 Hfalsy)|].
  intros d' app' r Hrun. rewrite (H5 Hfalsy) in Hrun.
  apply node_action_keeps in Hrun as [-> ->]. auto.
Qed.

Lemma ChallengeScene_init_shape (return_scene sc : scene) (id : string) :
  ChallengeScene_init files return_scene id = Ok sc ->
  exists c, sc = ChallengeScene return_scene c /\ challenge_set_id c = id.
Proof.
  unfold ChallengeScene_init. intros H.
  repeat match type of H with
         | bind ?r _ = Ok _ => destruct r; cbn [bind] in H; try discriminate H
         end.
  injection H as <-. eexists. split; reflexivity.
Qed.

Lemma node_action_launches (return_scene sc : scene) (d : DialogueState) (app : App)
    (node : pydict) (id : string) :
  starts_challenge node id ->
  ChallengeScene_init files return_scene id = Ok sc ->
  Dialogue.node_action files return_scene d app (PDict node)
  = Ok (d, {| save := save app; slot := Parsed (PDict (save app)) |}, goto sc).
Proof.
  intros (a & Ha & Hty & Hset & Hne) Hinit.
  unfold Dialogue.node_action. cbn [Py.get_default bind].
  unfold Dict.get_default. rewrite Ha, Hty, Hset.
  cbn [String.eqb Ascii.eqb Bool.eqb Py.str Py.text_truthy Py.chars bind].
  destruct (String.eqb_spec id "") as [->|_]; [contradiction|].
  cbn [negb bind]. rewrite Hinit. reflexivity.
Qed.

(** C10 (amended): on a node that declares [start_challenge] with a
    non-empty set id whose document loads, [handle_input] writes the save
    and hands over to the quiz scene in the same frame, for every input
    with cancel not pressed, unless the confirm of that frame advances
    along a next-node id, of the committed choice or of the node itself;
    the quiz returns to the return scene of the dialogue. *)
Theorem dialogue_action_launches_quiz (return_scene sc : scene) (d : DialogueState)
    (app : App) (st : InputState) (events : list event) (node : pydict) (id : string) :
  cancel_pressed st = false ->
  Dialogue.current_node d = Ok (PDict node) ->
  starts_challenge node id ->
  ChallengeScene_init files return_scene id = Ok sc ->
  stays_on_node d app st events node ->
  exists d' app' c,
    Dialogue.handle_input files return_scene d app st events = Ok (d', app', goto sc)
    /\ slot app' = Parsed (PDict (save app'))
    /\ sc = ChallengeScene return_scene c /\ challenge_set_id c = id.
Proof.
  intros Hcancel Hnode Hact Hinit Hstay.
  destruct (ChallengeScene_init_shape _ _ _ Hinit) as (c & Hsc & Hid).
  destruct Hstay as [Hconf | [(Hconf & Hno & Hnext) | (Hconf & opts & ch & delta & prior
                                & Hch & Hne & Hsel & Hdelta & Hprior & Hnext)]].
  - unfold Dialogue.handle_input. rewrite Hcancel, Hnode, Hconf.
    cbn [bind Py.get_default].
    destruct (Dict.get_default "choices" PNone node) as [| | | | |[|o l]|];
      rewrite (node_action_launches _ _ _ _ _ _ Hact Hinit);
      do 2 eexists; exists c; (split; [reflexivity|]); auto.
  - unfold Dialogue.handle_input. rewrite Hcancel, Hnode, Hconf.
    cbn [bind Py.get_default].
    destruct (Dict.get_default "choices" PNone node) as [| | | | |[|o l]|];
      try contradiction; rewrite Hnext;
      rewrite (node_action_launches _ _ _ _ _ _ Hact Hinit);
      do 2 eexists; exists c; (split; [reflexivity|]); auto.
  - destruct (dialogue_choice_steps return_scene d app st events node opts ch _ delta prior
                Hcancel Hconf Hnode Hch Hne eq_refl Hsel Hdelta Hprior)
      as (sv' & _ & _ & _ & _ & Hrun).
    rewrite (Hrun Hnext), (node_action_launches _ _ _ _ _ _ Hact Hinit).
    do 2 eexists; exists c; (split; [reflexivity|]); auto.
Qed.

End DialogueTheorems.

Lemma dialogue_missing_node_ends_witness :
  Dialogue.handle_input game_files (MenuScene 0) (dialogue_at aya_nodes "after" 0)
    fresh_app (pressing false true false) [KEYDOWN K_RETURN]
  = Ok (dialogue_at aya_nodes "after" 0,
        {| save := SaveSystem.default_save;
           slot := Parsed (PDict SaveSystem.default_save) |},
        goto (MenuScene 0)).
Proof.
  apply (dialogue_missing_node_ends game_files).
  exists aya_nodes. split; reflexivity.
Defined.

Lemma dialogue_choice_commits_witness :
  exists sv',
    trust_of "aya" sv' = Ok (0 + 2)
    /\ Dialogue.handle_input game_files (MenuScene 0) (dialogue_at aya_nodes "intro" 0)
         fresh_app (pressing false true false) [KEYDOWN K_RETURN]
       = Ok (dialogue_at aya_nodes "praise" 0,
             {| save := sv'; slot := Absent |}, no_transition).
Proof.
  destruct (dialogue_choice_commits game_files (MenuScene 0)
              (dialogue_at aya_nodes "intro" 0) fresh_app
              (pressing false true false) [KEYDOWN K_RETURN]
              [ ("speaker", PStr "Aya"); ("text", PStr "Got a strange e-mail?");
                ("choices",
                 PList [ PDict [ ("label", PStr "Report it"); ("trust_delta", PInt 2);
                                 ("next", PStr "praise") ];
                         PDict [ ("label", PStr "Click the link");
                                 ("trust_delta", PInt (-1)) ] ]) ]
              [ PDict [ ("label", PStr "Report it"); ("trust_delta", PInt 2);
                        ("next", PStr "praise") ];
                PDict [ ("label", PStr "Click the link"); ("trust_delta", PInt (-1)) ] ]
              [ ("label", PStr "Report it"); ("trust_delta", PInt 2);
                ("next", PStr "praise") ]
              0 2 0)
    as (sv' & Htrust & _ & _ & Hnext & _);
    try reflexivity; try discriminate.
  exists sv'. split; [exact Htrust|].
  apply (Hnext "praise"); reflexivity.
Defined.

Lemma dialogue_action_launches_quiz_witness :
  exists d' app' c,
    Dialogue.handle_input game_files (MenuScene 0) (dialogue_at aya_nodes "quiz" 0)
      fresh_app (pressing false false false) []
    = Ok (d', app', goto (ChallengeScene (MenuScene 0) c))
    /\ slot app' = Parsed (PDict (save app'))
    /\ challenge_set_id c = "phishing_1".
Proof.
  destruct (ChallengeScene_init game_files (MenuScene 0) "phishing_1") as [sc| |] eqn:E;
    try (vm_compute in E; discriminate E).
  destruct (dialogue_action_launches_quiz game_files (MenuScene 0) sc
              (dialogue_at aya_nodes "quiz" 0) fresh_app (pressing false false false) []
              [ ("speaker", PStr "Aya"); ("text", PStr "Let us practise.");
                ("next", PStr "after");
                ("action", PDict [ ("type", PStr "start_challenge");
                                   ("challenge_set", PStr "phishing_1") ]) ]
              "phishing_1")
    as (d' & app' & c & Hrun & Hslot & -> & Hid).
  - reflexivity.
  - reflexivity.
  - eexists. repeat split; try reflexivity. discriminate.
  - exact E.
  - left. reflexivity.
  - exists d', app', c. auto.
Defined.

(** C10 as stated fails on the code: on a node without choices that carries
    both a next id and the action, a confirm moves on to the next node and
    the quiz is not launched. *)
Lemma confirm_skips_quiz_action :
  Dialogue.handle_input game_files (MenuScene 0) (dialogue_at aya_nodes "quiz" 0)
    fresh_app (pressing false true false) [KEYDOWN K_RETURN]
  = Ok (dialogue_at aya_nodes "after" 0, fresh_app, no_transition).
Proof. vm_compute. reflexivity. Qed.

(** ** Completed quiz sets (C6) *)

Section Completed.

Lemma completed_list_set (sv c : pydict) (l : list pyval) :
  completed_list (Dict.set "completed" (PDict (Dict.set "challenges" (PList l) c)) sv) = l.
Proof. unfold completed_list. rewrite !get_set_eq. reflexivity. Qed.

Lemma completed_ok_set (sv c : pydict) (l : list pyval) :
  completed_ok (Dict.set "completed" (PDict (Dict.set "challenges" (PList l) c)) sv).
Proof.
  right. eexists. split; [apply get_set_eq|]. right. eexists. apply get_set_eq.
Qed.

(** Recording a set: its id is appended unless the list holds it. *)
Lemma record_completed_ok (id : string) (sv : pydict) :
  completed_ok sv ->
  exists sv',
    Challenge.record_completed id sv = Ok sv'
    /\ completed_ok sv'
    /\ completed_list sv'
       = (if existsb (Challenge.is_text id) (completed_list sv)
          then completed_list sv
          else completed_list sv ++ [PStr id]).
Proof.
  unfold Challenge.record_completed, Py.setdefault, completed_list.
  intros [Hnone | (c & Hc & [Hl | (l & Hl)])].
  - rewrite Hnone. cbn [Dict.get bind Challenge.append_once existsb app].
    eexists. split; [reflexivity|]. split; [apply completed_ok_set|].
    rewrite !get_set_eq. reflexivity.
  - rewrite Hc, Hl. cbn [bind Challenge.append_once existsb app].
    eexists. split; [reflexivity|]. split; [apply completed_ok_set|].
    rewrite !get_set_eq. reflexivity.
  - rewrite Hc, Hl. cbn [bind Challenge.append_once].
    destruct (existsb (Challenge.is_text id) l) eqn:E; cbn [bind];
      (eexists; split; [reflexivity|]; split; [apply completed_ok_set|]);
      rewrite !get_set_eq; reflexivity.
Qed.

(** [challenge_set_id not in comp] on a list: the id is not an element. *)
Lemma is_text_spec (id : string) (v : pyval) :
  Challenge.is_text id v = true <-> v = PStr id.
Proof.
  destruct v; cbn [Challenge.is_text]; split; try discriminate.
  - intros H. apply String.eqb_eq in H. subst. reflexivity.
  - intros [= ->]. apply String.eqb_refl.
Qed.

Lemma listed_spec (id : string) (l : list pyval) :
  existsb (Challenge.is_text id) l = true <-> In (PStr id) l.
Proof.
  rewrite List.existsb_exists. split.
  - intros (v & Hin & Hv). apply is_text_spec in Hv. subst. exact Hin.
  - intros Hin. exists (PStr id). split; [exact Hin|]. apply is_text_spec. reflexivity.
Qed.

(** Confirming the last feedback records the set and opens the results. *)
Lemma finish_step (return_scene : scene) (c : ChallengeState) (app : App)
    (st : InputState) (events : list event) (id : string) :
  cancel_pressed st = false -> confirm_pressed st = true ->
  finishing id c -> completed_ok (save app) ->
  exists c' sv',
    Challenge.handle_input return_scene c app st events
    = Ok (c', {| save := sv'; slot := Parsed (PDict sv') |},
          goto (ResultsScene_init return_scene (ch_title c) (points_earned c)
                  (max_points c)))
    /\ Challenge.record_completed id (save app) = Ok sv'.
Proof.
  intros Hcancel Hconfirm (Hid & Hfb & qs & q & Hqs & Hqi & Hq & Hlast) Hok.
  destruct (record_completed_ok id (save app) Hok) as (sv' & Hrec & _).
  unfold Challenge.handle_input. rewrite Hcancel, Hqs.
  assert (Hlen : (Z.to_nat (qi c) < length qs)%nat)
    by (apply lookup_lt_Some in Hq; exact Hq).
  destruct qs as [|q0 qs']; [simpl in Hlen; lia|].
  assert (Hr : 0 <= qi c < Z.of_nat (length (q0 :: qs'))) by lia.
  cbn [Py.truthy negb Py.getindex].
  rewrite (list_index_in_range _ _ _ Hr Hq).
  cbn [bind Py.get_default]. rewrite Hfb, Hconfirm.
  cbn [questions Challenge.with_progress qi challenge_set_id save
       ch_title points_earned max_points].
  rewrite Hqs. cbn [Py.len bind].
  destruct (Z.geb_spec (qi c + 1) (Z.of_nat (length (q0 :: qs')))); [|lia].
  rewrite Hid, Hrec. cbn [bind SaveSystem.save_game save].
  eexists. exists sv'. split; reflexivity.
Qed.

Lemma finish_all_present (return_scene : scene) (st : InputState) (id : string)
    (cs : list ChallengeState) :
  cancel_pressed st = false -> confirm_pressed st = true ->
  Forall (finishing id) cs ->
  forall app,
    completed_ok (save app) ->
    existsb (Challenge.is_text id) (completed_list (save app)) = true ->
    exists app', finish_all return_scene cs app st = Ok app'
                 /\ completed_list (save app') = completed_list (save app).
Proof.
  intros Hcancel Hconfirm Hall.
  induction Hall as [|c cs Hc Hcs IH]; intros app Hok Hin; simpl.
  - exists app. auto.
  - destruct (finish_step return_scene c app st [] id Hcancel Hconfirm Hc Hok)
      as (c' & sv' & -> & Hrec).
    destruct (record_completed_ok id (save app) Hok) as (sv'' & Hrec' & Hok' & Hlist).
    rewrite Hrec in Hrec'. injection Hrec' as <-.
    rewrite Hin in Hlist. cbn [bind].
    destruct (IH {| save := sv'; slot := Parsed (PDict sv') |}) as (app' & -> & Hsame).
    + exact Hok'.
    + cbn [save]. rewrite Hlist. exact Hin.
    + exists app'. split; [reflexivity|]. rewrite Hsame. exact Hlist.
Qed.

(** C6 (amended): for a save whose [completed] entry is absent or a dict
    with [challenges] absent or a list, finishing the same quiz set any
    positive number of times appends its id at most once: when the list
    does not hold the id, the list afterwards is the old list followed by
    the id; when it holds the id, the list does not change at all.  So a
    list that held the id at most once holds it exactly once afterwards. *)
Theorem completing_is_idempotent (return_scene : scene) (st : InputState)
    (id : string) (cs : list ChallengeState) (app : App) :
  cancel_pressed st = false -> confirm_pressed st = true ->
  cs <> [] -> Forall (finishing id) cs ->
  completed_ok (save app) ->
  exists app',
    finish_all return_scene cs app st = Ok app'
    /\ (In (PStr id) (completed_list (save app)) ->
        completed_list (save app') = completed_list (save app))
    /\ (~ In (PStr id) (completed_list (save app)) ->
        completed_list (save app') = completed_list (save app) ++ [PStr id])
    /\ (at_most_once (PStr id) (completed_list (save app)) ->
        exactly_once (PStr id) (completed_list (save app'))).
Proof.
  intros Hcancel Hconfirm Hne Hall Hok.
  destruct (existsb (Challenge.is_text id) (completed_list (save app))) eqn:Hin.
  - destruct (finish_all_present return_scene st id cs Hcancel Hconfirm Hall app Hok Hin)
      as (app' & Hrun & Hsame).
    apply listed_spec in Hin.
    exists app'. split; [exact Hrun|]. split; [intros _; exact Hsame|].
    split; [intros Habs; contradiction|].
    intros [Habs | Honce]; [contradiction|]. rewrite Hsame. exact Honce.
  - destruct cs as [|c cs]; [contradiction|].
    inversion Hall as [|? ? Hc Hcs]; subst.
    cbn [finish_all].
    destruct (finish_step return_scene c app st [] id Hcancel Hconfirm Hc Hok)
      as (c' & sv' & -> & Hrec).
    destruct (record_completed_ok id (save app) Hok) as (sv'' & Hrec' & Hok' & Hlist).
    rewrite Hrec in Hrec'. injection Hrec' as <-.
    rewrite Hin in Hlist. cbn [bind].
    assert (Habsent : ~ In (PStr id) (completed_list (save app))).
    { intros Hp. apply listed_spec in Hp. rewrite Hp in Hin. discriminate. }
    destruct (finish_all_present return_scene st id cs Hcancel Hconfirm Hcs
                {| save := sv'; slot := Parsed (PDict sv') |}) as (app' & Hrun & Hsame).
    + exact Hok'.
    + cbn [save]. rewrite Hlist. apply listed_spec.
      apply List.in_or_app. right. left. reflexivity.
    + cbn [save] in Hsame. rewrite Hlist in Hsame.
      exists app'. split; [exact Hrun|]. split; [intros Hp; contradiction|].
      split; [intros _; exact Hsame|].
      intros _. rewrite Hsame.
      exists (completed_list (save app)), []. split; [reflexivity|].
      split; [exact Habsent|]. intros [].
Qed.

End Completed.

(** A new game, and the first quiz finished twice. *)
Lemma completing_is_idempotent_witness :
  exists app',
    finish_all (MenuScene 0) [phishing_finished; phishing_finished] fresh_app
      (pressing false true false) = Ok app'
    /\ completed_list (save app') = [PStr "phishing_1"]
    /\ exactly_once (PStr "phishing_1") (completed_list (save app')).
Proof.
  destruct (completing_is_idempotent (MenuScene 0) (pressing false true false)
              "phishing_1" [phishing_finished; phishing_finished] fresh_app)
    as (app' & Hrun & _ & Hnew & Honce).
  - reflexivity.
  - reflexivity.
  - discriminate.
  - repeat (constructor;
            [split; [reflexivity|]; split; [reflexivity|];
             exists phishing_questions; eexists;
             split; [reflexivity|]; split; [simpl; lia|];
             split; [reflexivity | simpl; lia] |]).
    constructor.
  - right. eexists. split; [reflexivity|]. right. eexists. reflexivity.
  - exists app'. split; [exact Hrun|]. split.
    + apply Hnew. intros [].
    + apply Honce. left. intros [].
Defined.

(** C6 as stated fails on the code: a save file whose list holds the id
    twice is loaded as it is, and finishing the set again keeps both
    entries, since the id is appended or not and nothing is ever removed. *)
Lemma completing_keeps_duplicates :
  let doc := Dict.set "completed"
               (PDict [ ("challenges", PList [PStr "phishing_1"; PStr "phishing_1"]) ])
               SaveSystem.default_save in
  SaveSystem.load_save (Parsed (PDict doc)) = Ok doc
  /\ exists app',
       finish_all (MenuScene 0) [phishing_finished]
         {| save := doc; slot := Parsed (PDict doc) |} (pressing false true false)
       = Ok app'
       /\ completed_list (save app') = [PStr "phishing_1"; PStr "phishing_1"]
       /\ ~ exactly_once (PStr "phishing_1") (completed_list (save app')).
Proof.
  cbv zeta. split; [vm_compute; reflexivity|].
  eexists. split; [vm_compute; reflexivity|].
  split; [vm_compute; reflexivity|].
  intros (before & after & Heq & Hb & Ha). vm_compute in Heq.
  destruct before as [|x [|y before]]; cbn [app] in Heq.
  - inversion Heq; subst. apply Ha. left. reflexivity.
  - inversion Heq; subst. apply Hb. left. reflexivity.
  - inversion Heq as [[Hx Hy Hrest]]. destruct before; discriminate Hrest.
Qed.

(** ** Quiz scoring (C2) *)

Section Scoring.

Lemma indices_succ (n : nat) : indices (S n) = indices n ++ [Z.of_nat n].
Proof. unfold indices. rewrite seq_S, map_app. reflexivity. Qed.

Lemma earned_app (qs : list pyval) (log : list (Z * Z)) (a : Z * Z) :
  earned qs (log ++ [a]) = earned qs log + graded qs a.
Proof.
  unfold earned. induction log as [|b log IH]; simpl; [lia|].
  rewrite IH. lia.
Qed.

(** [sum_points] adds up [question_points]. *)
Lemma sum_points_total (qs : list pyval) :
  forall acc total, sum_points qs acc = Ok total -> total = acc + total_points qs.
Proof.
  induction qs as [|q qs IH]; intros acc total H; simpl in *.
  - injection H as <-. lia.
  - unfold question_points.
    destruct (Py.get_default q "points" (PInt 100)) as [p| |]; cbn [bind] in H |- *;
      try discriminate H.
    destruct (Py.int p) as [n| |]; cbn [bind] in H; try discriminate H.
    rewrite (IH _ _ H). lia.
Qed.

(** The scene as [ChallengeScene.__init__] leaves it. *)
Lemma ChallengeScene_init_state (files : Files) (return_scene ret' : scene)
    (id : string) (c : ChallengeState) (qs : list pyval) :
  ChallengeScene_init files return_scene id = Ok (ChallengeScene ret' c) ->
  questions c = PList qs ->
  ret' = return_scene /\ qi c = 0 /\ showing_feedback c = false
  /\ points_earned c = 0 /\ max_points c = total_points qs.
Proof.
  unfold ChallengeScene_init. intros H Hqs.
  repeat match type of H with
         | bind ?r _ = Ok _ =>
             let E := fresh "E" in
             destruct r eqn:E; cbn [bind] in H; try discriminate H
         end.
  injection H as <- <-. cbn [questions] in Hqs. subst.
  match goal with E : iterate _ = Ok _ |- _ => simpl in E; injection E as <- end.
  repeat split; try reflexivity. cbn [max_points].
  match goal with E : sum_points _ 0 = Ok _ |- _ => apply sum_points_total in E; lia end.
Qed.

Lemma award_ok (cat : string) (pts t b : Z) (sv : pydict) :
  score_of "total" sv = Ok t -> score_of cat sv = Ok b ->
  exists sv',
    Challenge.award cat pts sv = Ok sv'
    /\ score_of "total" sv' = Ok (t + bucket_factor cat * pts)
    /\ score_of cat sv' = Ok ((if String.eqb cat "total" then t + pts else b) + pts)
    /\ (forall k, k <> "scores" -> Dict.get k sv' = Dict.get k sv).
Proof.
  unfold score_of, Challenge.award, Challenge.bump, Py.setdefault, Dict.get_default,
    bucket_factor.
  intros Ht Hb.
  assert (Hshape : exists s sv0,
             (match Dict.get "scores" sv with
              | Some v => (v, sv)
              | None => (PDict [], Dict.set "scores" (PDict []) sv)
              end) = (PDict s, sv0)
             /\ match Dict.get "scores" sv with Some v => v | None => PDict [] end = PDict s
             /\ (forall k, k <> "scores" -> Dict.get k sv0 = Dict.get k sv)).
  { destruct (Dict.get "scores" sv) as [v|] eqn:E.
    - destruct v as [| | | | | |s]; try discriminate Ht.
      exists s, sv. auto.
    - exists [], (Dict.set "scores" (PDict []) sv). repeat split.
      intros k Hk. apply get_set_ne. congruence. }
  destruct Hshape as (s & sv0 & -> & Hs & Hkeep). rewrite Hs in Ht, Hb.
  cbn [Py.get_default bind] in Ht, Hb |- *. unfold Dict.get_default in *.
  destruct (Py.int match Dict.get "total" s with Some v => v | None => PInt 0 end)
    as [t'| |] eqn:Et; try discriminate Ht. injection Ht as ->.
  cbn [bind Py.setitem Py.get_default]. unfold Dict.get_default.
  rewrite get_set.
  destruct (String.eqb_spec "total" cat) as [<-|Hne].
  - cbn [Py.int bind Py.setitem String.eqb Ascii.eqb Bool.eqb].
    eexists. split; [reflexivity|].
    rewrite !get_set_eq. cbn [Py.get_default bind]. unfold Dict.get_default.
    rewrite !get_set_eq. cbn [Py.int].
    split; [f_equal; lia|]. split; [f_equal; lia|].
    intros k Hk. rewrite get_set_ne by congruence. auto.
  - destruct (Py.int match Dict.get cat s with Some v => v | None => PInt 0 end)
      as [b'| |] eqn:Eb; try discriminate Hb. injection Hb as ->.
    cbn [bind Py.setitem].
    destruct (String.eqb_spec cat "total") as [->|_]; [congruence|].
    eexists. split; [reflexivity|].
    rewrite !get_set_eq. cbn [Py.get_default bind]. unfold Dict.get_default.
    rewrite get_set_eq, get_set_ne, get_set_eq by congruence. cbn [Py.int].
    split; [f_equal; lia|]. split; [reflexivity|].
    intros k Hk. rewrite get_set_ne by congruence. auto.
Qed.

Lemma record_completed_keeps_scores (id : string) (sv sv' : pydict) (k : string) :
  Challenge.record_completed id sv = Ok sv' -> score_of k sv' = score_of k sv.
Proof.
  unfold Challenge.record_completed, Py.setdefault. intros H.
  assert (Hget : Dict.get "scores" sv' = Dict.get "scores" sv).
  { destruct (Dict.get "completed" sv) as [v|] eqn:E.
    - destruct v; try discriminate H.
      destruct (Dict.get "challenges" d);
        (destruct (Challenge.append_once _ _); cbn [bind] in H; try discriminate H);
        injection H as <-; rewrite ?get_set_ne by discriminate; reflexivity.
    - cbn [Dict.get] in H.
      destruct (Challenge.append_once _ _); cbn [bind] in H; try discriminate H.
      injection H as <-. rewrite !get_set_ne by discriminate. reflexivity. }
  unfold score_of, Dict.get_default. rewrite Hget. reflexivity.
Qed.

Lemma list_index_ok (l : list pyval) (i : Z) (v : pyval) :
  0 <= i -> Py.list_index l i = Ok v ->
  i < Z.of_nat (length l) /\ l !! Z.to_nat i = Some v.
Proof.
  intros Hi. unfold Py.list_index.
  destruct (Z.ltb_spec i 0); [lia|].
  destruct (Z.leb_spec 0 i); [|lia].
  destruct (Z.ltb_spec i (Z.of_nat (length l))); simpl; [|discriminate].
  destruct (l !! Z.to_nat i); [|discriminate].
  intros [= ->]. auto.
Qed.

Section Run.

Variables (qs : list pyval) (cat : string) (title : text) (M t0 b0 : Z).
Hypothesis Hqs : qs <> [].

(** What holds between frames: [log] has one answer for each question
    before the current one (and for the current one while its feedback
    is on screen), the points earned are the graded sum of [log], and
    the score buckets have grown by it. *)
Definition Inv (c : ChallengeState) (app : App) (log : list (Z * Z)) : Prop :=
  questions c = PList qs /\ category c = cat /\ ch_title c = title
  /\ max_points c = M /\ 0 <= qi c
  /\ (if showing_feedback c
      then qi c < Z.of_nat (length qs)
           /\ map fst log = indices (S (Z.to_nat (qi c)))
      else map fst log = indices (Z.to_nat (qi c)))
  /\ points_earned c = earned qs log
  /\ score_of "total" (save app) = Ok (t0 + bucket_factor cat * earned qs log)
  /\ exists b, score_of cat (save app) = Ok b
               /\ (cat <> "total" -> b = b0 + earned qs log).

(** What holds when the results scene is requested. *)
Definition Done (return_scene : scene) (app : App)
    (log : list (Z * Z)) (s : scene) : Prop :=
  s = ResultsScene_init return_scene title (earned qs log) M
  /\ map fst log = indices (length qs)
  /\ score_of "total" (save app) = Ok (t0 + bucket_factor cat * earned qs log)
  /\ (cat <> "total" -> score_of cat (save app) = Ok (b0 + earned qs log)).

Ltac step_bind H :=
  match type of H with
  | bind ?r _ = Ok _ =>
      let E := fresh "E" in
      destruct r eqn:E; cbn [bind] in H; [|discriminate H ..]
  end.

Lemma handle_input_step (return_scene : scene) (c c' : ChallengeState)
    (app app' : App) (st : InputState) (events : list event) (r : SceneResult)
    (log : list (Z * Z)) :
  cancel_pressed st = false ->
  Inv c app log ->
  Challenge.handle_input return_scene c app st events = Ok (c', app', r) ->
  let log' := if negb (showing_feedback c) && showing_feedback c'
              then log ++ [(qi c', selected c')] else log in
  match next_scene r with
  | None => Inv c' app' log'
  | Some s => Done return_scene app' log' s
  end.
Proof.
  intros Hcancel (Hq & Hcat & Htitle & Hmax & Hqi & Hlog & Hpts & Htot & b & Hb & Hbv) H.
  unfold Challenge.handle_input in H. rewrite Hcancel, Hq in H.
  destruct qs as [|q0 qs'] eqn:Eqs; [contradiction|]. rewrite <- Eqs in *.
  assert (Htruthy : Py.truthy (PList qs) = true) by (rewrite Eqs; reflexivity).
  rewrite Htruthy in H. cbn [negb Py.getindex] in H.
  step_bind H. step_bind H.
  destruct (list_index_ok _ _ _ Hqi E) as [Hlt Hlook].
  destruct (showing_feedback c) eqn:Hfb.
  - (* the feedback is on screen *)
    destruct Hlog as [_ Hlog]. cbn [negb andb].
    destruct (confirm_pressed st).
    + cbn [questions Challenge.with_progress qi] in H. rewrite Hq in H.
      cbn [Py.len bind] in H.
      destruct (Z.geb_spec (qi c + 1) (Z.of_nat (length qs))).
      * step_bind H. injection H as <- <- <-. cbn [next_scene goto].
        unfold Done.
        cbn [save SaveSystem.save_game ch_title points_earned max_points
             Challenge.with_progress].
        rewrite !(record_completed_keeps_scores _ _ _ _ E1), Hpts, Hmax, Htitle.
        split; [reflexivity|]. split.
        { rewrite Hlog. f_equal. lia. }
        split; [exact Htot|]. intros Hne. rewrite Hb, (Hbv Hne). reflexivity.
      * injection H as <- <- <-. cbn [next_scene no_transition].
        unfold Inv. cbn [questions category ch_title max_points qi showing_feedback
                         points_earned Challenge.with_progress].
        repeat apply conj; auto; try lia.
        { rewrite Hlog. f_equal. lia. }
        exists b. auto.
    + injection H as <- <- <-. cbn [next_scene no_transition].
      unfold Inv. rewrite Hfb. repeat apply conj; auto. exists b. auto.
  - (* the question is being answered *)
    step_bind H.
    set (sel := if _ >=? _ then _ else _) in H.
    destruct (confirm_pressed st).
    + step_bind H. step_bind H. step_bind H.
      assert (Hci : question_correct a = Ok a3)
        by (unfold question_correct; rewrite E2; cbn [bind]; exact E3).
      destruct (sel =? a3) eqn:Hsel.
      * step_bind H. step_bind H.
        assert (Hqp : question_points a = a6)
          by (unfold question_points; rewrite E5; cbn [bind]; rewrite E6; reflexivity).
        cbn [category Challenge.with_progress] in H. rewrite Hcat in H.
        destruct (award_ok cat a6 _ _ (save app) Htot Hb)
          as (sv' & Haw & Htot' & Hb' & _).
        rewrite Haw in H. cbn [bind] in H.
        injection H as <- <- <-. cbn [next_scene no_transition].
        cbn [showing_feedback Challenge.with_progress qi selected negb andb].
        assert (Hg : graded qs (qi c, sel) = a6)
          by (unfold graded; cbn [fst snd]; rewrite Hlook, Hci, Hsel; exact Hqp).
        unfold Inv. cbn [questions category ch_title max_points qi showing_feedback
                         points_earned Challenge.with_progress save
                         SaveSystem.save_game].
        rewrite earned_app, Hg.
        repeat apply conj; auto.
        { rewrite map_app, Hlog, indices_succ. cbn [map fst]. f_equal. f_equal. lia. }
        { lia. }
        { rewrite Htot'. f_equal. lia. }
        eexists. split; [exact Hb'|]. intros Hne.
        destruct (String.eqb_spec cat "total"); [contradiction|].
        rewrite (Hbv Hne). lia.
      * injection H as <- <- <-. cbn [next_scene no_transition].
        cbn [showing_feedback Challenge.with_progress qi selected negb andb].
        assert (Hg : graded qs (qi c, sel) = 0)
          by (unfold graded; cbn [fst snd]; rewrite Hlook, Hci, Hsel; reflexivity).
        unfold Inv. cbn [questions category ch_title max_points qi showing_feedback
                         points_earned Challenge.with_progress save
                         SaveSystem.save_game].
        rewrite earned_app, Hg, Z.add_0_r.
        repeat apply conj; auto.
        { rewrite map_app, Hlog, indices_succ. cbn [map fst]. f_equal. f_equal. lia. }
        exists b. auto.
    + injection H as <- <- <-. cbn [next_scene no_transition].
      cbn [showing_feedback Challenge.with_progress]. rewrite ?Hfb. cbn [negb andb].
      unfold Inv. cbn [questions category ch_title max_points qi showing_feedback
                       points_earned Challenge.with_progress].
      rewrite ?Hfb. repeat apply conj; auto. exists b. auto.
Qed.

Lemma play_done (return_scene : scene) (frames : list frame_input) :
  Forall (fun f => cancel_pressed (fst f) = false) frames ->
  forall c app log c' app' r log' s,
    Inv c app log ->
    play return_scene c app frames log = Ok (c', app', r, log') ->
    next_scene r = Some s ->
    Done return_scene app' log' s.
Proof.
  induction 1 as [|[st events] frames Hc _ IH]; intros c app log c' app' r log' s HI H Hs.
  - simpl in H. injection H as <- <- <- <-. discriminate Hs.
  - simpl in H.
    destruct (Challenge.handle_input return_scene c app st events)
      as [[[c1 app1] r1]| |] eqn:E; cbn [bind] in H; try discriminate H.
    pose proof (handle_input_step return_scene c c1 app app1 st events r1 log Hc HI E)
      as Hstep.
    cbv zeta in Hstep.
    destruct (next_scene r1) as [s1|] eqn:Er1.
    + injection H as <- <- <- <-. rewrite Er1 in Hs. injection Hs as <-. exact Hstep.
    + eapply IH; eauto.
Qed.

End Run.

(** C2: a quiz over a non-empty question list, played from its
    construction through any frames without cancel until it asks for the
    results scene.  The answers logged at the confirms cover the questions
    in order, one each; the points passed to the results are the points of
    exactly the questions whose selection at the confirm equalled the
    correct index, the maximum passed is the sum of the points of all
    questions as computed at construction, and each such question added
    its points to the bucket [total] and to the bucket of the category. *)
Theorem quiz_points_are_sum (files : Files) (return_scene : scene) (id : string)
    (c0 c' : ChallengeState) (qs : list pyval) (app app' : App)
    (frames : list frame_input) (r : SceneResult) (log : list (Z * Z))
    (s : scene) (t0 b0 : Z) :
  ChallengeScene_init files return_scene id = Ok (ChallengeScene return_scene c0) ->
  questions c0 = PList qs -> qs <> [] ->
  Forall (fun f => cancel_pressed (fst f) = false) frames ->
  score_of "total" (save app) = Ok t0 ->
  score_of (category c0) (save app) = Ok b0 ->
  play return_scene c0 app frames [] = Ok (c', app', r, log) ->
  next_scene r = Some s ->
  s = ResultsScene return_scene
        {| res_title := ch_title c0; points := earned qs log;
           res_max_points := total_points qs |}
  /\ map fst log = indices (length qs)
  /\ score_of "total" (save app')
     = Ok (t0 + bucket_factor (category c0) * earned qs log)
  /\ (category c0 <> "total" ->
      score_of (category c0) (save app') = Ok (b0 + earned qs log)).
Proof.
  intros Hinit Hq Hne Hframes Ht Hb Hplay Hs.
  destruct (ChallengeScene_init_state files return_scene return_scene id c0 qs Hinit Hq)
    as (_ & Hqi & Hfb & Hpts & Hmax).
  apply (play_done qs (category c0) (ch_title c0) (total_points qs) t0 b0 Hne
           return_scene frames Hframes c0 app [] c' app' r log s); auto.
  unfold Inv. rewrite Hfb, Hqi, Hpts. cbn [earned fold_right].
  rewrite Z.mul_0_r, Z.add_0_r.
  repeat apply conj; auto; try lia; try reflexivity.
  exists b0. split; [exact Hb | intros _; lia].
Qed.

End Scoring.

Lemma quiz_points_are_sum_witness :
  exists c' app' log,
    play (MenuScene 0) phishing_scene fresh_app
      [ (pressing false true false, [KEYDOWN K_DOWN; KEYDOWN K_RETURN]);
        (pressing false true false, [KEYDOWN K_RETURN]);
        (pressing false true false, [KEYDOWN K_RETURN]);
        (pressing false true false, [KEYDOWN K_RETURN]) ] []
    = Ok (c', app',
          goto (ResultsScene (MenuScene 0)
                  {| res_title := Text "Phishing 1"; points := 200;
                     res_max_points := 200 |}), log)
    /\ log = [(0, 1); (1, 0)]
    /\ score_of "total" (save app') = Ok 200
    /\ score_of "phishing" (save app') = Ok 200.
Proof.
  destruct (play (MenuScene 0) phishing_scene fresh_app _ [])
    as [[[[c' app'] r] log]| |] eqn:E;
    try (vm_compute in E; discriminate E).
  assert (Hlog : log = [(0, 1); (1, 0)]) by (vm_compute in E; congruence).
  assert (Hr : r = goto (ResultsScene (MenuScene 0)
                           {| res_title := Text "Phishing 1"; points := 200;
                              res_max_points := 200 |}))
    by (vm_compute in E; injection E as _ _ <- _; reflexivity).
  assert (Hinit : ChallengeScene_init game_files (MenuScene 0) "phishing_1"
                  = Ok (ChallengeScene (MenuScene 0) phishing_scene))
    by (vm_compute; reflexivity).
  assert (Hf : Forall (fun f : frame_input => cancel_pressed (fst f) = false)
                 [ (pressing false true false, [KEYDOWN K_DOWN; KEYDOWN K_RETURN]);
                   (pressing false true false, [KEYDOWN K_RETURN]);
                   (pressing false true false, [KEYDOWN K_RETURN]);
                   (pressing false true false, [KEYDOWN K_RETURN]) ])
    by (repeat constructor).
  destruct (quiz_points_are_sum game_files (MenuScene 0) "phishing_1" phishing_scene c'
              phishing_questions fresh_app app' _ r log
              (ResultsScene (MenuScene 0)
                 {| res_title := Text "Phishing 1"; points := 200;
                    res_max_points := 200 |}) 0 0
              Hinit eq_refl ltac:(discriminate) Hf eq_refl eq_refl E
              ltac:(rewrite Hr; reflexivity))
    as (_ & _ & Htotal & Hcat).
  exists c', app', log.
  split; [rewrite <- Hr; reflexivity|]. split; [exact Hlog|]. split.
  - rewrite Htotal, Hlog. reflexivity.
  - change "phishing" with (category phishing_scene).
    rewrite Hcat by discriminate. rewrite Hlog. reflexivity.
Defined.

(** * Further properties of the code *)

(** ** The input state of a frame *)

Section InputFacts.

Lemma on_event_held (st : InputState) (ev : event) :
  up (on_event st ev) = up st /\ down (on_event st ev) = down st
  /\ left (on_event st ev) = left st /\ right (on_event st ev) = right st.
Proof. destruct ev as [[]| |]; simpl; auto. Qed.

Lemma on_event_edges (st : InputState) (ev : event) :
  (interact_pressed (on_event st ev) = true
   <-> interact_pressed st = true \/ ev = KEYDOWN K_e)
  /\ (confirm_pressed (on_event st ev) = true
      <-> confirm_pressed st = true \/ ev = KEYDOWN K_RETURN)
  /\ (cancel_pressed (on_event st ev) = true
      <-> cancel_pressed st = true \/ ev = KEYDOWN K_ESCAPE).
Proof.
  destruct ev as [[]| |]; simpl; repeat split; intros; auto;
    try (destruct H as [H|H]; [exact H|discriminate H]).
Qed.

Lemma fold_on_event (events : list event) :
  forall st,
    let st' := fold_left on_event events st in
    up st' = up st /\ down st' = down st /\ left st' = left st /\ right st' = right st
    /\ (interact_pressed st' = true
        <-> interact_pressed st = true \/ In (KEYDOWN K_e) events)
    /\ (confirm_pressed st' = true
        <-> confirm_pressed st = true \/ In (KEYDOWN K_RETURN) events)
    /\ (cancel_pressed st' = true
        <-> cancel_pressed st = true \/ In (KEYDOWN K_ESCAPE) events).
Proof.
  induction events as [|ev events IH]; intros st; cbn zeta.
  - simpl. tauto.
  - cbn [fold_left]. specialize (IH (on_event st ev)). cbn zeta in IH.
    destruct IH as (U & D & L & R & I & C & X).
    destruct (on_event_held st ev) as (U' & D' & L' & R').
    destruct (on_event_edges st ev) as (I' & C' & X').
    rewrite U, D, L, R, I, C, X, I', C', X'. simpl.
    repeat split; try assumption; intros; intuition auto.
Qed.

(** X1: the four movement flags of a frame are the held keys W, S, A
    and D, whatever the events; and each of the three edge flags is set
    exactly when the events of the frame contain a key press of E, Return
    or Escape respectively. *)
Theorem build_input_state_flags (keys : key -> bool) (events : list event) :
  let st := build_input_state keys events in
  up st = keys K_w /\ down st = keys K_s /\ left st = keys K_a /\ right st = keys K_d
  /\ (interact_pressed st = true <-> In (KEYDOWN K_e) events)
  /\ (confirm_pressed st = true <-> In (KEYDOWN K_RETURN) events)
  /\ (cancel_pressed st = true <-> In (KEYDOWN K_ESCAPE) events).
Proof.
  cbn zeta. unfold build_input_state.
  match goal with |- context [fold_left on_event events ?s] =>
    destruct (fold_on_event events s) as (U & D & L & R & I & C & X) end.
  cbn zeta in *. simpl in U, D, L, R, I, C, X.
  rewrite U, D, L, R, I, C, X.
  repeat split; try reflexivity; intros; intuition discriminate.
Qed.

End InputFacts.

(** ** Moving a selection *)

Section Selection.

Lemma presses_nil (k : key) : presses k [] = 0.
Proof. reflexivity. Qed.

Lemma presses_cons (k : key) (ev : event) (events : list event) :
  presses k (ev :: events)
  = (if decide (ev = KEYDOWN k) then 1 else 0) + presses k events.
Proof.
  unfold presses. rewrite filter_cons.
  destruct (decide (ev = KEYDOWN k)); cbn [length]; lia.
Qed.

Lemma presses_nonneg (k : key) (events : list event) : 0 <= presses k events.
Proof. unfold presses. lia. Qed.

(** The arrow presses of a frame are summed: each Down adds one, each Up
    takes one away, other events count for nothing. *)
Lemma move_selection_sum (events : list event) :
  forall sel,
    move_selection sel events = sel + presses K_DOWN events - presses K_UP events.
Proof.
  unfold move_selection.
  induction events as [|ev events IH]; intros sel; cbn [fold_left].
  - rewrite !presses_nil. lia.
  - rewrite IH, !presses_cons.
    destruct ev as [[]| |];
      repeat match goal with
             | |- context [decide ?P] => destruct (decide P); try discriminate; try congruence
             end; lia.
Qed.

(** X2: in the menu each Down press moves the selection one option
    further and each Up press one back, wrapping around the three options:
    from an option in range, the selection after the events of a frame is
    the start plus the Down presses minus the Up presses, modulo 3. *)
Theorem menu_selection_wraps (sel : Z) (events : list event) :
  0 <= sel < 3 ->
  Menu.move sel events = (sel + presses K_DOWN events - presses K_UP events) mod 3
  /\ 0 <= Menu.move sel events < 3.
Proof.
  intros Hsel.
  assert (H : Menu.move sel events
              = (sel + presses K_DOWN events - presses K_UP events) mod 3).
  { revert sel Hsel. unfold Menu.move.
    induction events as [|ev events IH]; intros sel Hsel; cbn [fold_left].
    - rewrite !presses_nil. rewrite Z.mod_small; lia.
    - rewrite !presses_cons.
      assert (Hup : 0 <= (sel - 1) mod 3 < 3) by (apply Z.mod_pos_bound; lia).
      assert (Hdn : 0 <= (sel + 1) mod 3 < 3) by (apply Z.mod_pos_bound; lia).
      set (D := presses K_DOWN events). set (U := presses K_UP events).
      destruct ev as [[]| |];
        repeat match goal with
               | |- context [decide ?P] => destruct (decide P); try discriminate; try congruence
               end;
        rewrite IH by assumption; fold D U;
        try (f_equal; lia).
      + replace ((sel - 1) mod 3 + D - U) with ((sel - 1) mod 3 + (D - U)) by lia.
        rewrite Zplus_mod_idemp_l. f_equal. lia.
      + replace ((sel + 1) mod 3 + D - U) with ((sel + 1) mod 3 + (D - U)) by lia.
        rewrite Zplus_mod_idemp_l. f_equal. lia. }
  split; [exact H|]. rewrite H. apply Z.mod_pos_bound. lia.
Qed.

(** Up on the first option selects the last one. *)
Lemma menu_selection_wraps_witness :
  Menu.move 0 [KEYDOWN K_UP] = (0 + presses K_DOWN [KEYDOWN K_UP]
                                - presses K_UP [KEYDOWN K_UP]) mod 3
  /\ 0 <= Menu.move 0 [KEYDOWN K_UP] < 3.
Proof. apply (menu_selection_wraps 0 [KEYDOWN K_UP]). lia. Defined.

End Selection.

Section DialogueSelection.

Variable files : Files.

(** X3: on a dialogue node with choices, the arrow presses of a frame are
    summed and the sum is clamped once, to the first and to the last
    choice: there is no wrap-around.  Without a confirm (and on a node
    without action) nothing else changes. *)
Theorem dialogue_selection_clamps (return_scene : scene) (d : DialogueState)
    (app : App) (st : InputState) (events : list event)
    (node : pydict) (opts : list pyval) :
  cancel_pressed st = false -> confirm_pressed st = false ->
  Dialogue.current_node d = Ok (PDict node) ->
  Dict.get "choices" node = Some (PList opts) -> opts <> [] ->
  Dict.get "action" node = None ->
  let n := Z.of_nat (length opts) in
  let i := Z.max 0 (Z.min (n - 1)
                      (selected_choice d + presses K_DOWN events - presses K_UP events)) in
  Dialogue.handle_input files return_scene d app st events
  = Ok (Dialogue.with_node d (node_id d) i, app, no_transition)
  /\ 0 <= i < n.
Proof.
  intros Hc Hk Hnode Hch Hne Hact n i.
  assert (Hn : 0 < n).
  { unfold n. destruct opts; [congruence|]. cbn [length]. lia. }
  split; [|unfold i; lia].
  unfold Dialogue.handle_input. rewrite Hc, Hnode. cbn [bind].
  unfold Py.get_default, Dict.get_default. rewrite Hch. cbn [bind].
  destruct opts as [|c cs]; [congruence|].
  rewrite Hk.
  unfold Dialogue.node_action, Py.get_default, Dict.get_default. rewrite Hact.
  cbn [bind].
  assert (Ht : Py.truthy (PDict node) = true).
  { destruct node; [discriminate Hch|reflexivity]. }
  rewrite Ht. cbn [negb].
  assert (Hi : clamp_selection (move_selection (selected_choice d) events)
                 (Z.of_nat (length (c :: cs))) = i).
  { rewrite move_selection_sum. fold n.
    unfold clamp_selection, i.
    set (s := selected_choice d + presses K_DOWN events - presses K_UP events).
    destruct (s <? 0) eqn:E1.
    - apply Z.ltb_lt in E1. destruct (0 >=? n) eqn:E2; [apply Z.geb_le in E2; lia|]. lia.
    - apply Z.ltb_ge in E1. destruct (s >=? n) eqn:E2.
      + apply Z.geb_le in E2. lia.
      + rewrite Z.geb_leb in E2. apply Z.leb_gt in E2. lia. }
  rewrite Hi. reflexivity.
Qed.

End DialogueSelection.

(** Two Down presses in one frame on the two choices of the node [intro]. *)
Lemma dialogue_selection_clamps_witness :
  let i := Z.max 0 (Z.min (2 - 1)
                      (0 + presses K_DOWN [KEYDOWN K_DOWN; KEYDOWN K_DOWN]
                       - presses K_UP [KEYDOWN K_DOWN; KEYDOWN K_DOWN])) in
  Dialogue.handle_input game_files (MenuScene 0) (dialogue_at aya_nodes "intro" 0)
    fresh_app (pressing false false false) [KEYDOWN K_DOWN; KEYDOWN K_DOWN]
  = Ok (Dialogue.with_node (dialogue_at aya_nodes "intro" 0) (PStr "intro") i,
        fresh_app, no_transition)
  /\ 0 <= i < 2.
Proof.
  apply (dialogue_selection_clamps game_files (MenuScene 0)
           (dialogue_at aya_nodes "intro" 0) fresh_app (pressing false false false)
           [KEYDOWN K_DOWN; KEYDOWN K_DOWN]
           [ ("speaker", PStr "Aya"); ("text", PStr "Got a strange e-mail?");
             ("choices",
              PList [ PDict [ ("label", PStr "Report it"); ("trust_delta", PInt 2);
                              ("next", PStr "praise") ];
                      PDict [ ("label", PStr "Click the link"); ("trust_delta", PInt (-1)) ] ]) ]
           [ PDict [ ("label", PStr "Report it"); ("trust_delta", PInt 2);
                     ("next", PStr "praise") ];
             PDict [ ("label", PStr "Click the link"); ("trust_delta", PInt (-1)) ] ]);
    try reflexivity; discriminate.
Defined.

(** ** Order of floats *)

Section FloatOrder.

Lemma SFcompare_antisym (x y : float) :
  SFcompare y x = option_map CompOpp (SFcompare x y).
Proof.
  destruct x as [sx|sx| |sx mx ex], y as [sy|sy| |sy my ey]; simpl;
    try reflexivity;
    try (destruct sx; reflexivity); try (destruct sy; reflexivity);
    try (destruct sx, sy; reflexivity).
  assert (A : Pos.compare_cont Eq my mx = CompOpp (Pos.compare_cont Eq mx my))
    by (symmetry; apply (Pos.compare_cont_antisym mx my Eq)).
  destruct sx, sy; try reflexivity;
    rewrite (Z.compare_antisym ex ey);
    destruct (ex ?= ey) eqn:E; simpl; try reflexivity;
    rewrite A; destruct (Pos.compare_cont Eq mx my); reflexivity.
Qed.

Lemma ltb_asym (x y : float) : PyFloat.ltb x y = true -> PyFloat.ltb y x = false.
Proof.
  unfold PyFloat.ltb, SFltb. rewrite (SFcompare_antisym x y).
  destruct (SFcompare x y) as [[]|]; simpl; congruence.
Qed.

Lemma ltb_irrefl (x : float) : PyFloat.ltb x x = false.
Proof.
  destruct (PyFloat.ltb x x) eqn:E; [|reflexivity].
  pose proof (ltb_asym x x E). congruence.
Qed.

(** Two floats that are not NaN are comparable. *)
Lemma not_ltb_leb (x y : float) :
  x <> S754_nan -> y <> S754_nan -> PyFloat.ltb x y = false -> SFleb y x = true.
Proof.
  intros Hx Hy.
  assert (Hc : SFcompare x y <> None).
  { destruct x as [sx|sx| |sx mx ex], y as [sy|sy| |sy my ey]; try congruence;
      simpl; discriminate. }
  unfold PyFloat.ltb, SFltb, SFleb. rewrite (SFcompare_antisym x y).
  destruct (SFcompare x y) as [[]|]; simpl; congruence.
Qed.

Lemma clamp_float_cases (v lo hi : float) :
  let r := clamp PyFloat.ltb v lo hi in
  PyFloat.ltb hi lo = false ->
  PyFloat.ltb r lo = false /\ PyFloat.ltb hi r = false.
Proof.
  cbn zeta. intros H. unfold clamp.
  destruct (PyFloat.ltb v lo) eqn:E1.
  - split; [apply ltb_irrefl|exact H].
  - destruct (PyFloat.ltb hi v) eqn:E2.
    + split; [exact H|apply ltb_irrefl].
    + split; assumption.
Qed.

End FloatOrder.

(** X4: for bounds with [lo <= hi], [clamp] never returns a value below
    [lo] or above [hi], returns a value that lies between them unchanged,
    and clamping its result again changes nothing; a NaN passes through
    unclamped. *)
Theorem clamp_within_bounds (v lo hi : float) :
  PyFloat.ltb hi lo = false ->
  let r := clamp PyFloat.ltb v lo hi in
  PyFloat.ltb r lo = false /\ PyFloat.ltb hi r = false
  /\ (PyFloat.ltb v lo = false -> PyFloat.ltb hi v = false -> r = v)
  /\ clamp PyFloat.ltb r lo hi = r
  /\ clamp PyFloat.ltb S754_nan lo hi = S754_nan
  /\ (v <> S754_nan -> lo <> S754_nan -> hi <> S754_nan ->
      SFleb lo r = true /\ SFleb r hi = true).
Proof.
  intros H r.
  destruct (clamp_float_cases v lo hi H) as [L U]. fold r in L, U.
  split; [exact L|]. split; [exact U|].
  split; [intros A B; unfold r, clamp; rewrite A, B; reflexivity|].
  split; [unfold clamp at 1; rewrite L, U; reflexivity|].
  split; [unfold clamp, PyFloat.ltb, SFltb; destruct lo, hi; reflexivity|].
  intros Hv Hlo Hhi.
  assert (Hr : r <> S754_nan).
  { unfold r, clamp. destruct (PyFloat.ltb v lo); [exact Hlo|].
    destruct (PyFloat.ltb hi v); assumption. }
  split; apply not_ltb_leb; assumption.
Qed.

(** The zoom range of the world scene and a request above it. *)
Lemma clamp_within_bounds_witness :
  let r := clamp PyFloat.ltb (PyFloat.of_Z 3) PyFloat.one (PyFloat.lit 5 2) in
  PyFloat.ltb r PyFloat.one = false /\ PyFloat.ltb (PyFloat.lit 5 2) r = false
  /\ (PyFloat.ltb (PyFloat.of_Z 3) PyFloat.one = false ->
      PyFloat.ltb (PyFloat.lit 5 2) (PyFloat.of_Z 3) = false -> r = PyFloat.of_Z 3)
  /\ clamp PyFloat.ltb r PyFloat.one (PyFloat.lit 5 2) = r
  /\ clamp PyFloat.ltb S754_nan PyFloat.one (PyFloat.lit 5 2) = S754_nan
  /\ (PyFloat.of_Z 3 <> S754_nan -> PyFloat.one <> S754_nan ->
      PyFloat.lit 5 2 <> S754_nan ->
      SFleb PyFloat.one r = true /\ SFleb r (PyFloat.lit 5 2) = true).
Proof.
  apply (clamp_within_bounds (PyFloat.of_Z 3) PyFloat.one (PyFloat.lit 5 2)).
  vm_compute. reflexivity.
Defined.

(** ** Integers held exactly by a double *)

Section ExactIntegers.

Lemma digits2_pos_bounds (m : positive) :
  2 ^ (Z.pos (digits2_pos m) - 1) <= Z.pos m < 2 ^ Z.pos (digits2_pos m).
Proof.
  induction m as [m IH|m IH|]; cbn [digits2_pos].
  - rewrite Pos2Z.inj_succ.
    replace (Z.succ (Z.pos (digits2_pos m)) - 1) with (Z.succ (Z.pos (digits2_pos m) - 1)) by lia.
    rewrite !Z.pow_succ_r by lia. lia.
  - rewrite Pos2Z.inj_succ.
    replace (Z.succ (Z.pos (digits2_pos m)) - 1) with (Z.succ (Z.pos (digits2_pos m) - 1)) by lia.
    rewrite !Z.pow_succ_r by lia. lia.
  - simpl. lia.
Qed.

Lemma digits2_pos_le (m : positive) (n : Z) :
  0 <= n -> Z.pos m < 2 ^ n -> Z.pos (digits2_pos m) <= n.
Proof.
  intros Hn Hm. destruct (Z_le_gt_dec (Z.pos (digits2_pos m)) n) as [|Hgt]; [assumption|].
  exfalso. pose proof (digits2_pos_bounds m) as [Hlo _].
  assert (2 ^ n <= 2 ^ (Z.pos (digits2_pos m) - 1)) by (apply Z.pow_le_mono_r; lia).
  lia.
Qed.

Lemma iter_xO_shiftl (m k : positive) :
  Z.pos (Pos.iter xO m k) = Z.shiftl (Z.pos m) (Z.pos k).
Proof.
  cbn [Z.shiftl]. apply (Pos.iter_swap_gen _ _ Z.pos xO (Z.mul 2)). reflexivity.
Qed.

Lemma digits2_pos_iter_xO (m k : positive) :
  digits2_pos (Pos.iter xO m k) = (digits2_pos m + k)%positive.
Proof.
  induction k as [|k IH] using Pos.peano_ind.
  - cbn. lia.
  - rewrite Pos.iter_succ. cbn [digits2_pos]. rewrite IH. lia.
Qed.

(** A mantissa of 53 digits at an exponent within the range is left as it
    is by the rounding. *)
Lemma binary_round_aux_exact (s : bool) (m : positive) (e : Z) :
  Z.pos (digits2_pos m) = 53 -> -1074 <= e <= 971 ->
  binary_round_aux PyFloat.prec PyFloat.emax s (Z.pos m) e loc_Exact = S754_finite s m e.
Proof.
  intros Hd He.
  unfold binary_round_aux, shr_fexp, fexp, emin, PyFloat.prec, PyFloat.emax.
  cbn [Zdigits2 shr_record_of_loc]. rewrite Hd.
  replace (Z.max (53 + e - 53) (3 - 1024 - 53) - e) with 0 by lia.
  cbn [shr shr_m loc_of_shr_record round_nearest_even Zdigits2 shr_record_of_loc].
  rewrite Hd.
  replace (Z.max (53 + e - 53) (3 - 1024 - 53) - e) with 0 by lia.
  cbn [shr shr_m].
  destruct (e <=? 1024 - 53) eqn:E; [reflexivity|].
  apply Z.leb_gt in E. lia.
Qed.

Lemma binary_round_small (s : bool) (m : positive) :
  Z.pos m < 2 ^ 53 ->
  exists m' e,
    binary_round PyFloat.prec PyFloat.emax s m 0 = S754_finite s m' e
    /\ e <= 0 /\ Z.shiftl (Z.pos m') e = Z.pos m.
Proof.
  intros Hm.
  assert (Hd : Z.pos (digits2_pos m) <= 53) by (apply digits2_pos_le; lia).
  unfold binary_round, shl_align, fexp, emin, PyFloat.prec, PyFloat.emax.
  replace (Z.max (Z.pos (digits2_pos m) + 0 - 53) (3 - 1024 - 53) - 0)
    with (Z.pos (digits2_pos m) - 53) by lia.
  replace (Z.max (Z.pos (digits2_pos m) + 0 - 53) (3 - 1024 - 53))
    with (Z.pos (digits2_pos m) - 53) by lia.
  destruct (Z.pos (digits2_pos m) - 53) as [|p|k] eqn:E; [|lia|].
  - exists m, 0. split; [|split; [lia|reflexivity]].
    apply (binary_round_aux_exact s m 0); lia.
  - exists (Pos.iter xO m k), (Z.neg k).
    split; [|split; [lia|]].
    + fold PyFloat.prec PyFloat.emax.
      apply binary_round_aux_exact; [|lia].
      rewrite digits2_pos_iter_xO. lia.
    + rewrite iter_xO_shiftl.
      change (Z.neg k) with (- Z.pos k). rewrite <- Z.shiftr_opp_r, Z.opp_involutive.
      rewrite Z.shiftr_shiftl_l by lia. rewrite Z.sub_diag. reflexivity.
Qed.

(** [int(float(x)) == x] for an integer that a double holds exactly. *)
Lemma to_int_of_Z (x : Z) :
  Z.abs x < 2 ^ 53 -> PyFloat.to_int (PyFloat.of_Z x) = Ok x.
Proof.
  intros Hx. unfold PyFloat.of_Z, binary_normalize.
  destruct x as [|m|m]; [reflexivity| |].
  - destruct (binary_round_small false m) as (m' & e & -> & He & Hs); [lia|].
    cbn [PyFloat.to_int cond_Zopp]. rewrite Hs. reflexivity.
  - destruct (binary_round_small true m) as (m' & e & -> & He & Hs); [lia|].
    cbn [PyFloat.to_int cond_Zopp]. rewrite Hs. reflexivity.
Qed.

Lemma of_int_of_Z (x : Z) :
  Z.abs x < 2 ^ 53 -> PyFloat.of_int x = Ok (PyFloat.of_Z x).
Proof.
  intros Hx. unfold PyFloat.of_int, PyFloat.of_Z, binary_normalize.
  destruct x as [|m|m]; [reflexivity| |].
  - destruct (binary_round_small false m) as (m' & e & -> & _); [lia|]. reflexivity.
  - destruct (binary_round_small true m) as (m' & e & -> & _); [lia|]. reflexivity.
Qed.

End ExactIntegers.

(** ** The constructor of the world scene *)

Ltac inv_bind H :=
  match type of H with
  | bind ?r _ = Ok _ =>
      let E := fresh "E" in
      destruct r eqn:E; cbn [bind] in H; [|discriminate H|discriminate H]
  end.

Section WorldInit.

Variable K : Constants.
Variable files : Files.

(** What a successful construction has done, step by step. *)
Lemma WorldScene_init_inv (app app' : App) (arg : option string)
    (spawn : option (float * float)) (zoom_arg : option float) (w : WorldState) :
  WorldScene_init K files app arg spawn zoom_arg = Ok (w, app') ->
  exists (sv : pydict) (kx ky : Z) (z0 : float),
    Py.setdefault_setitem (save app) "world" "map" (PStr (map_id w)) = Ok sv
    /\ app' = {| save := sv; slot := slot app |}
    /\ (map_file files ("data/maps/" +:+ map_id w +:+ ".json") = None
        /\ provider w = Generated (GeneratedMap_init K (map_id w))
        \/ exists t, map_file files ("data/maps/" +:+ map_id w +:+ ".json") = Some (Ok t)
                     /\ provider w = Tiled t)
    /\ (match zoom_arg with
        | Some z => z0 = z
        | None => _map_default_zoom (provider w) = Ok z0
        end)
    /\ (match arg with Some m => map_id w = m | None => True end)
    /\ (match spawn with
        | Some xy => PyFloat.to_int (fst xy) = Ok kx /\ PyFloat.to_int (snd xy) = Ok ky
        | None => True
        end)
    /\ w = {| map_id := map_id w; provider := provider w;
              player := Rect.mk kx ky (PLAYER_W K) (PLAYER_H K);
              zoom := clamp PyFloat.ltb z0 PyFloat.one (PyFloat.lit 5 2);
              camera_x := PyFloat.zero; camera_y := PyFloat.zero;
              near_npc_label := None; near_portal_label := None;
              near_book_label := None |}.
Proof.
  intros H. unfold WorldScene_init in H.
  inv_bind H. rename a into mid, E into Emid.
  inv_bind H. rename a into sv, E into Esv.
  inv_bind H. rename a into prov, E into Eprov.
  inv_bind H. rename a into pxy, E into Epxy.
  inv_bind H. rename a into ix, E into Eix.
  inv_bind H. rename a into iy, E into Eiy.
  inv_bind H. rename a into z, E into Ez.
  injection H as <- <-. cbn [map_id provider].
  exists sv, ix, iy, z.
  split; [exact Esv|]. split; [reflexivity|].
  split.
  { destruct (map_file files _) as [loaded|].
    - right. destruct loaded as [t| |]; cbn [bind] in Eprov; try discriminate.
      injection Eprov as <-. exists t. auto.
    - left. injection Eprov as <-. auto. }
  split.
  { destruct zoom_arg; [injection Ez as <-; reflexivity|exact Ez]. }
  split.
  { destruct arg; [injection Emid as <-; reflexivity|exact I]. }
  split.
  { destruct spawn; [injection Epxy as <-; auto|exact I]. }
  reflexivity.
Qed.


Lemma set_same (k : string) (v : pyval) (d : pydict) :
  Dict.get k d = Some v -> Dict.set k v d = d.
Proof.
  induction d as [|[k0 v0] d IH]; simpl; [discriminate|].
  destruct (String.eqb_spec k0 k) as [->|Hne].
  - intros [= ->]. reflexivity.
  - intros H. rewrite IH by exact H. reflexivity.
Qed.

(** [WorldScene(app)]: the map and the position are read from the save. *)
Lemma WorldScene_init_saved (app : App) (wd pl : pydict) (mid : string)
    (vx vy : pyval) (fx fy : float) (kx ky : Z) (prov : MapProvider) (dz : float) :
  Dict.get "world" (save app) = Some (PDict wd) ->
  Dict.get "map" wd = Some (PStr mid) ->
  Dict.get "player" (save app) = Some (PDict pl) ->
  Dict.get "x" pl = Some vx -> Py.float_ vx = Ok fx -> PyFloat.to_int fx = Ok kx ->
  Dict.get "y" pl = Some vy -> Py.float_ vy = Ok fy -> PyFloat.to_int fy = Ok ky ->
  provider_of K files mid = Ok prov ->
  _map_default_zoom prov = Ok dz ->
  WorldScene_init K files app None None None
  = Ok (world_at K mid prov kx ky dz, {| save := save app; slot := slot app |}).
Proof.
  intros Hw Hm Hp Hx Hfx Hkx Hy Hfy Hky Hprov Hdz.
  unfold provider_of in Hprov.
  unfold WorldScene_init.
  unfold Dict.get_default at 1. rewrite Hw.
  unfold Py.get_default, Dict.get_default. rewrite Hm.
  cbn [bind Py.str Py.chars].
  unfold Py.setdefault_setitem, Py.setdefault. rewrite Hw.
  cbn [Py.setitem bind].
  rewrite (set_same "map" (PStr mid) wd Hm), (set_same "world" (PDict wd) (save app) Hw).
  rewrite Hprov. cbn [bind].
  unfold Py.getitem at 1. rewrite Hp. cbn [bind].
  unfold Py.getitem. rewrite Hx, Hy. cbn [bind].
  rewrite Hfx, Hfy. cbn [bind fst snd]. rewrite Hkx, Hky. cbn [bind].
  rewrite Hdz. cbn [bind]. reflexivity.
Qed.

Lemma zero_below_one (z : float) :
  PyFloat.ltb z PyFloat.one = false -> PyFloat.eqb z PyFloat.zero = false.
Proof.
  intros H.
  destruct z as [s|s| |s m e]; try reflexivity; try (destruct s; reflexivity).
  destruct s; vm_compute in H; discriminate H.
Qed.

(** X5: every world scene that the constructor returns has a zoom that is
    not below 1.0 and not above 2.5 (a NaN apart, it lies in that range),
    so the divisions by the zoom never divide by zero; its player has the
    size of the constants, the camera is at the origin and no hint is
    shown; the save in memory names the map of the scene, and the save
    file is not written. *)
Theorem world_scene_constructed (app app' : App) (arg : option string)
    (spawn : option (float * float)) (zoom_arg : option float) (w : WorldState) :
  WorldScene_init K files app arg spawn zoom_arg = Ok (w, app') ->
  PyFloat.ltb (zoom w) PyFloat.one = false
  /\ PyFloat.ltb (PyFloat.lit 5 2) (zoom w) = false
  /\ (zoom w <> S754_nan ->
      SFleb PyFloat.one (zoom w) = true /\ SFleb (zoom w) (PyFloat.lit 5 2) = true)
  /\ PyFloat.eqb (zoom w) PyFloat.zero = false
  /\ Rect.w (player w) = PLAYER_W K /\ Rect.h (player w) = PLAYER_H K
  /\ camera_x w = PyFloat.zero /\ camera_y w = PyFloat.zero
  /\ near_npc_label w = None /\ near_portal_label w = None /\ near_book_label w = None
  /\ (exists wd, Dict.get "world" (save app') = Some (PDict wd)
                 /\ Dict.get "map" wd = Some (PStr (map_id w)))
  /\ slot app' = slot app.
Proof.
  intros H.
  destruct (WorldScene_init_inv app app' arg spawn zoom_arg w H)
    as (sv & kx & ky & z0 & Hsv & -> & _ & _ & _ & _ & Hw).
  assert (Hb : PyFloat.ltb (PyFloat.lit 5 2) PyFloat.one = false) by (vm_compute; reflexivity).
  destruct (clamp_float_cases z0 PyFloat.one (PyFloat.lit 5 2) Hb) as [L U].
  assert (Hz : zoom w = clamp PyFloat.ltb z0 PyFloat.one (PyFloat.lit 5 2))
    by (rewrite Hw; reflexivity).
  rewrite <- Hz in L, U.
  split; [exact L|]. split; [exact U|].
  split.
  { intros Hn. split; apply not_ltb_leb; try assumption; vm_compute; discriminate. }
  split; [apply zero_below_one; exact L|].
  rewrite Hw. cbn [player Rect.w Rect.h camera_x camera_y near_npc_label
                     near_portal_label near_book_label save slot].
  repeat (split; [reflexivity|]).
  split; [|reflexivity].
  unfold Py.setdefault_setitem, Py.setdefault in Hsv.
  destruct (Dict.get "world" (save app)) as [v|] eqn:Ew.
  - inv_bind Hsv. injection Hsv as <-.
    destruct v; cbn [Py.setitem] in E; try discriminate. injection E as <-.
    eexists. split; [apply get_set_eq|]. apply get_set_eq.
  - cbn [Py.setitem bind] in Hsv. injection Hsv as <-.
    eexists. split; [apply get_set_eq|]. reflexivity.
Qed.

End WorldInit.

(** ** Loading and writing the save *)

Section SaveFacts.

Lemma has_keys (k : string) (d : pydict) : Dict.has k d = true <-> In k (keys d).
Proof.
  unfold Dict.has, keys. induction d as [|[k0 v0] d IH]; simpl.
  - split; [discriminate|tauto].
  - destruct (String.eqb_spec k0 k) as [->|Hne].
    + split; auto.
    + rewrite IH. split; [auto|]. intros [H|H]; [congruence|exact H].
Qed.

Lemma keys_set (k : string) (v : pyval) (d : pydict) :
  keys (Dict.set k v d) = if Dict.has k d then keys d else keys d ++ [k].
Proof.
  unfold Dict.has, keys. induction d as [|[k0 v0] d IH]; simpl; [reflexivity|].
  destruct (String.eqb_spec k0 k) as [->|Hne]; simpl; [reflexivity|].
  rewrite IH. destruct (Dict.get k d); reflexivity.
Qed.

Lemma keys_set_present (k : string) (v : pyval) (d : pydict) :
  In k (keys d) -> keys (Dict.set k v d) = keys d.
Proof.
  intros H. rewrite keys_set. apply has_keys in H. rewrite H. reflexivity.
Qed.

Lemma NoDup_keys_set (k : string) (v : pyval) (d : pydict) :
  List.NoDup (keys d) -> List.NoDup (keys (Dict.set k v d)).
Proof.
  intros H. rewrite keys_set. destruct (Dict.has k d) eqn:E; [exact H|].
  assert (Hn : ~ In k (keys d)).
  { intros Hin. apply has_keys in Hin. congruence. }
  apply List.NoDup_rev in H. rewrite <- (List.rev_involutive (keys d ++ [k])).
  apply List.NoDup_rev. rewrite List.rev_app_distr. simpl.
  constructor; [|exact H]. rewrite <- List.in_rev. exact Hn.
Qed.

Lemma keys_set_prefix (k : string) (v : pyval) (d : pydict) :
  exists rest, keys (Dict.set k v d) = keys d ++ rest.
Proof.
  rewrite keys_set. destruct (Dict.has k d); [exists []; rewrite List.app_nil_r|exists [k]];
    reflexivity.
Qed.

Lemma get_none_keys (k : string) (d : pydict) : Dict.get k d = None <-> ~ In k (keys d).
Proof.
  rewrite <- has_keys. unfold Dict.has. destruct (Dict.get k d); split; congruence.
Qed.

Lemma get_app (k : string) (l1 l2 : pydict) :
  Dict.get k (l1 ++ l2)
  = match Dict.get k l1 with Some v => Some v | None => Dict.get k l2 end.
Proof.
  induction l1 as [|[k0 v0] l1 IH]; simpl; [reflexivity|].
  destruct (String.eqb k0 k); auto.
Qed.

(** In a dict (no key twice) the order of the entries does not matter to
    a lookup. *)
Lemma get_rev_unique (k : string) (d : pydict) :
  List.NoDup (keys d) -> Dict.get k (rev d) = Dict.get k d.
Proof.
  unfold keys. induction d as [|[k0 v0] d IH]; intros H; simpl; [reflexivity|].
  inversion H as [|? ? Hnin Hnd]; subst.
  change (rev d ++ [(k0, v0)]) with (List.rev d ++ [(k0, v0)]).
  rewrite get_app, IH by assumption. simpl.
  destruct (String.eqb_spec k0 k) as [->|Hne].
  - apply get_none_keys in Hnin. rewrite Hnin. reflexivity.
  - destruct (Dict.get k d); reflexivity.
Qed.

(** *** The merge over the defaults *)

Lemma update_keys (d : pydict) :
  forall base,
    List.NoDup (keys base) ->
    List.NoDup (keys (Dict.update base d))
    /\ exists rest, keys (Dict.update base d) = keys base ++ rest.
Proof.
  unfold Dict.update.
  induction d as [|[k v] d IH]; intros base Hb; cbn [fold_left fst snd].
  - split; [exact Hb|]. exists []. rewrite List.app_nil_r. reflexivity.
  - destruct (IH (Dict.set k v base) (NoDup_keys_set k v base Hb)) as [Hn [rest Hr]].
    split; [exact Hn|].
    destruct (keys_set_prefix k v base) as [r0 Hr0].
    exists (r0 ++ rest). rewrite Hr, Hr0, List.app_assoc. reflexivity.
Qed.

Lemma set_app_absent (k : string) (v : pyval) (pre : pydict) :
  ~ In k (keys pre) -> Dict.set k v pre = pre ++ [(k, v)].
Proof.
  unfold keys. induction pre as [|[k0 v0] pre IH]; simpl; intros H; [reflexivity|].
  destruct (String.eqb_spec k0 k) as [->|Hne]; [tauto|].
  rewrite IH by tauto. reflexivity.
Qed.

Lemma set_app_here (k : string) (v v0 : pyval) (pre post : pydict) :
  ~ In k (keys pre) ->
  Dict.set k v (pre ++ (k, v0) :: post) = pre ++ (k, v) :: post.
Proof.
  unfold keys. induction pre as [|[k1 v1] pre IH]; simpl; intros H.
  - rewrite String.eqb_refl. reflexivity.
  - destruct (String.eqb_spec k1 k) as [->|Hne]; [tauto|].
    rewrite IH by tauto. reflexivity.
Qed.

(** Merging a dict over a dict that holds a prefix of its keys, in the
    same order, gives the dict merged in. *)
Lemma update_onto_prefix (l1 : pydict) :
  forall (pre base l2 : pydict),
    keys l1 = keys base ->
    List.NoDup (keys (pre ++ l1 ++ l2)) ->
    fold_left (fun acc kv => Dict.set (fst kv) (snd kv) acc) (l1 ++ l2) (pre ++ base)
    = pre ++ l1 ++ l2.
Proof.
  induction l1 as [|[k v] l1 IH]; intros pre base l2 Hk Hn.
  - destruct base; [|discriminate Hk]. cbn [app]. rewrite List.app_nil_r.
    revert pre Hn. induction l2 as [|[k v] l2 IH2]; intros pre Hn; cbn [fold_left fst snd].
    + rewrite List.app_nil_r. reflexivity.
    + cbn [app] in Hn.
      assert (Hnin : ~ In k (keys pre)).
      { unfold keys in *. rewrite List.map_app in Hn. cbn [map fst] in Hn.
        apply List.NoDup_remove_2 in Hn. intros Hin. apply Hn.
        apply List.in_or_app. left. exact Hin. }
      rewrite set_app_absent by exact Hnin.
      rewrite IH2.
      * rewrite <- List.app_assoc. reflexivity.
      * rewrite <- List.app_assoc. exact Hn.
  - destruct base as [|[k0 v0] base]; [discriminate Hk|].
    cbn [keys map fst] in Hk. injection Hk as <- Hk.
    cbn [app fold_left fst snd].
    assert (Hnin : ~ In k (keys pre)).
    { unfold keys in *. rewrite List.map_app in Hn. cbn [app map fst] in Hn.
      apply List.NoDup_remove_2 in Hn. intros Hin. apply Hn.
      apply List.in_or_app. left. exact Hin. }
    rewrite set_app_here by exact Hnin.
    replace (pre ++ (k, v) :: base) with ((pre ++ [(k, v)]) ++ base)
      by (rewrite <- List.app_assoc; reflexivity).
    rewrite IH.
    + rewrite <- List.app_assoc. reflexivity.
    + exact Hk.
    + rewrite <- List.app_assoc. exact Hn.
Qed.

(** *** The five sections *)

Lemma ensure_dict_keys (k : string) (dflt : pyval) (base : pydict) :
  In k (keys base) -> keys (SaveSystem.ensure_dict k dflt base) = keys base.
Proof.
  intros H. unfold SaveSystem.ensure_dict.
  destruct (Dict.get k base) as [[]|]; try reflexivity; apply keys_set_present; exact H.
Qed.

Lemma ensure_dict_same (k : string) (dflt : pyval) (base x : pydict) :
  Dict.get k base = Some (PDict x) -> SaveSystem.ensure_dict k dflt base = base.
Proof. intros H. unfold SaveSystem.ensure_dict. rewrite H. reflexivity. Qed.

Lemma get_ensure_world_map (base w : pydict) :
  Dict.get "world" base = Some (PDict w) ->
  exists base',
    SaveSystem.ensure_world_map base = Ok base'
    /\ keys base' = keys base
    /\ (Dict.has "map" w = true -> base' = base)
    /\ forall k, Dict.get k base'
                 = if String.eqb "world" k
                   then Some (if Dict.has "map" w then PDict w
                              else PDict (Dict.set "map" (PStr "city") w))
                   else Dict.get k base.
Proof.
  intros H. unfold SaveSystem.ensure_world_map, Py.getitem. rewrite H. cbn [bind].
  assert (Hin : In "world" (keys base)) by (apply has_keys; unfold Dict.has; rewrite H; reflexivity).
  destruct (Dict.has "map" w) eqn:E.
  - exists base. split; [reflexivity|]. split; [reflexivity|]. split; [reflexivity|].
    intros k. destruct (String.eqb_spec "world" k) as [<-|]; [exact H|reflexivity].
  - rewrite (setitem2_dict _ _ _ _ _ H). eexists. split; [reflexivity|].
    split; [apply keys_set_present; exact Hin|]. split; [discriminate|].
    intros k. apply get_set.
Qed.

Lemma get_ensure_challenges (base c : pydict) :
  Dict.get "completed" base = Some (PDict c) ->
  exists base',
    SaveSystem.ensure_challenges base = Ok base'
    /\ keys base' = keys base
    /\ ((exists l, Dict.get "challenges" c = Some (PList l)) -> base' = base)
    /\ forall k, Dict.get k base'
                 = if String.eqb "completed" k
                   then Some (match Dict.get "challenges" c with
                              | Some (PList _) => PDict c
                              | _ => PDict (Dict.set "challenges" (PList []) c)
                              end)
                   else Dict.get k base.
Proof.
  intros H. unfold SaveSystem.ensure_challenges, Py.getitem. rewrite H. cbn [bind].
  assert (Hin : In "completed" (keys base))
    by (apply has_keys; unfold Dict.has; rewrite H; reflexivity).
  destruct (Dict.get "challenges" c) as [[]|] eqn:E;
    try (rewrite (setitem2_dict _ _ _ _ _ H); eexists; split; [reflexivity|];
         split; [apply keys_set_present; exact Hin|];
         split; [intros [l0 Hl0]; discriminate Hl0|];
         intros k; apply get_set).
  exists base. split; [reflexivity|]. split; [reflexivity|]. split; [reflexivity|].
  intros k. destruct (String.eqb_spec "completed" k) as [<-|]; [exact H|reflexivity].
Qed.

(** The part of [load_save] after the merge (lines 44-64), on a merged
    document [b0]. *)
Lemma normalisation (b0 : pydict) :
  (exists rest, keys b0 = keys SaveSystem.default_save ++ rest) ->
  List.NoDup (keys b0) ->
  exists doc,
    (let base := SaveSystem.ensure_dict "world" (PDict [ ("map", PStr "city") ]) b0 in
     do base <- SaveSystem.ensure_world_map base;
     let base := SaveSystem.ensure_dict "player" SaveSystem.default_player base in
     let base := SaveSystem.ensure_dict "trust" (PDict []) base in
     let base := SaveSystem.ensure_dict "scores" SaveSystem.default_scores base in
     let base := SaveSystem.ensure_dict "completed" (PDict [ ("challenges", PList []) ]) base in
     SaveSystem.ensure_challenges base) = Ok doc
    /\ keys doc = keys b0
    /\ (forall k, Dict.get k doc = loaded_section k (Dict.get k b0))
    /\ (normal_save b0 -> doc = b0).
Proof.
  intros [rest Hk] Hn. cbn zeta.
  assert (Hin : forall k, In k (keys SaveSystem.default_save) -> In k (keys b0)).
  { intros k H. rewrite Hk. apply List.in_or_app. left. exact H. }
  set (b1 := SaveSystem.ensure_dict "world" _ b0).
  assert (K1 : keys b1 = keys b0) by (apply ensure_dict_keys, Hin; simpl; tauto).
  destruct (ensure_dict_is_dict "world" [("map", PStr "city")] b0) as [w Hw]. fold b1 in Hw.
  destruct (get_ensure_world_map b1 w Hw) as (b2 & -> & K2 & S2 & G2). cbn [bind].
  set (b3 := SaveSystem.ensure_dict "player" _ b2).
  assert (K3 : keys b3 = keys b2) by (apply ensure_dict_keys; rewrite K2, K1; apply Hin; simpl; tauto).
  set (b4 := SaveSystem.ensure_dict "trust" _ b3).
  assert (K4 : keys b4 = keys b3)
    by (apply ensure_dict_keys; rewrite K3, K2, K1; apply Hin; simpl; tauto).
  set (b5 := SaveSystem.ensure_dict "scores" _ b4).
  assert (K5 : keys b5 = keys b4)
    by (apply ensure_dict_keys; rewrite K4, K3, K2, K1; apply Hin; simpl; tauto).
  set (b6 := SaveSystem.ensure_dict "completed" _ b5).
  assert (K6 : keys b6 = keys b5)
    by (apply ensure_dict_keys; rewrite K5, K4, K3, K2, K1; apply Hin; simpl; tauto).
  destruct (ensure_dict_is_dict "completed" [("challenges", PList [])] b5) as [c Hc].
  fold b6 in Hc.
  destruct (get_ensure_challenges b6 c Hc) as (b7 & -> & K7 & S7 & G7).
  exists b7. split; [reflexivity|].
  split; [rewrite K7, K6, K5, K4, K3, K2, K1; reflexivity|].
  split.
  - assert (Hw0 : Some (PDict w) = match Dict.get "world" b0 with
                                   | Some (PDict x) => Some (PDict x)
                                   | _ => Some (PDict [("map", PStr "city")])
                                   end).
    { rewrite <- Hw. unfold b1. rewrite get_ensure_dict, String.eqb_refl. reflexivity. }
    assert (Hc0 : Some (PDict c) = match Dict.get "completed" b0 with
                                   | Some (PDict x) => Some (PDict x)
                                   | _ => Some (PDict [("challenges", PList [])])
                                   end).
    { rewrite <- Hc. unfold b6, b5, b4, b3. rewrite !get_ensure_dict.
      cbn [String.eqb Ascii.eqb Bool.eqb]. rewrite G2.
      cbn [String.eqb Ascii.eqb Bool.eqb]. unfold b1. rewrite get_ensure_dict.
      reflexivity. }
    intros k. rewrite G7. unfold loaded_section.
    destruct (String.eqb_spec "completed" k) as [<-|N5].
    { cbn [String.eqb Ascii.eqb Bool.eqb].
      destruct (Dict.get "completed" b0) as [[]|]; injection Hc0 as ->; reflexivity. }
    unfold b6, b5, b4, b3. rewrite !get_ensure_dict, !G2. unfold b1.
    rewrite !get_ensure_dict.
    destruct (String.eqb_spec "world" k) as [<-|N1].
    { cbn [String.eqb Ascii.eqb Bool.eqb].
      destruct (Dict.get "world" b0) as [[]|]; injection Hw0 as ->; reflexivity. }
    destruct (String.eqb_spec "scores" k) as [<-|N4].
    { cbn [String.eqb Ascii.eqb Bool.eqb].
      destruct (Dict.get "scores" b0) as [[]|]; reflexivity. }
    destruct (String.eqb_spec "trust" k) as [<-|N3].
    { cbn [String.eqb Ascii.eqb Bool.eqb].
      destruct (Dict.get "trust" b0) as [[]|]; reflexivity. }
    destruct (String.eqb_spec "player" k) as [<-|N2].
    { cbn [String.eqb Ascii.eqb Bool.eqb].
      destruct (Dict.get "player" b0) as [[]|]; reflexivity. }
    rewrite !(String.eqb_sym k).
    rewrite (proj2 (String.eqb_neq _ _) N1), (proj2 (String.eqb_neq _ _) N2),
      (proj2 (String.eqb_neq _ _) N3), (proj2 (String.eqb_neq _ _) N4),
      (proj2 (String.eqb_neq _ _) N5).
    reflexivity.
  - intros (_ & _ & (w0 & Hw0 & Hm0) & [p Hp] & [t Ht] & [s Hs] & (c0 & l0 & Hc0 & Hl0)).
    assert (E1 : b1 = b0) by (apply (ensure_dict_same _ _ _ _ Hw0)).
    rewrite E1 in Hw. rewrite Hw0 in Hw. injection Hw as <-.
    assert (E2 : b2 = b0) by (rewrite (S2 Hm0); exact E1).
    assert (E3 : b3 = b0).
    { unfold b3. rewrite E2. apply (ensure_dict_same _ _ _ _ Hp). }
    assert (E4 : b4 = b0).
    { unfold b4. rewrite E3. apply (ensure_dict_same _ _ _ _ Ht). }
    assert (E5 : b5 = b0).
    { unfold b5. rewrite E4. apply (ensure_dict_same _ _ _ _ Hs). }
    assert (E6 : b6 = b0).
    { unfold b6. rewrite E5. apply (ensure_dict_same _ _ _ _ Hc0). }
    rewrite E6 in Hc. rewrite Hc0 in Hc. injection Hc as <-.
    rewrite S7 by (exists l0; exact Hl0). exact E6.
Qed.


Lemma update_pair_set (base b : pydict) (e : pyval) :
  SaveSystem.update_pair base e = Ok b -> exists k v, b = Dict.set k v base.
Proof.
  unfold SaveSystem.update_pair. intros H.
  assert (A : forall k v,
             match k with
             | PStr s => Ok (Dict.set s v base)
             | PList _ | PDict _ => Raise TypeError
             | _ => Unmodelled
             end = Ok b -> exists k' v', b = Dict.set k' v' base).
  { intros k v Hk. destruct k; try discriminate. injection Hk as <-. eauto. }
  destruct e as [| | | |s|l|d]; try discriminate.
  - destruct (Py.is_ascii s); [|discriminate].
    destruct s as [|a [|b0 [|]]]; try discriminate. injection H as <-. eauto.
  - destruct l as [|k [|v [|]]]; try discriminate. exact (A _ _ H).
  - destruct d as [|[k1 v1] [|[k2 v2] [|]]]; try discriminate.
    injection H as <-. eauto.
Qed.

Lemma update_pairs_keys (l : list pyval) :
  forall base b,
    SaveSystem.update_pairs base l = Ok b ->
    List.NoDup (keys base) ->
    List.NoDup (keys b) /\ exists rest, keys b = keys base ++ rest.
Proof.
  induction l as [|e l IH]; intros base b H Hn; cbn [SaveSystem.update_pairs] in H.
  - injection H as <-. split; [exact Hn|]. exists []. rewrite List.app_nil_r. reflexivity.
  - destruct (SaveSystem.update_pair base e) as [b1| |] eqn:E; cbn [bind] in H;
      try discriminate.
    destruct (update_pair_set _ _ _ E) as (k & v & ->).
    destruct (IH _ _ H (NoDup_keys_set k v base Hn)) as [Hn' [rest Hr]].
    split; [exact Hn'|].
    destruct (keys_set_prefix k v base) as [r0 Hr0].
    exists (r0 ++ rest). rewrite Hr, Hr0, List.app_assoc. reflexivity.
Qed.

Lemma dict_update_keys (base b : pydict) (data : pyval) :
  SaveSystem.dict_update base data = Ok b ->
  List.NoDup (keys base) ->
  List.NoDup (keys b) /\ exists rest, keys b = keys base ++ rest.
Proof.
  intros H Hn. destruct data; cbn [SaveSystem.dict_update] in H; try discriminate.
  - exact (update_pairs_keys _ _ _ H Hn).
  - exact (update_pairs_keys _ _ _ H Hn).
  - injection H as <-. apply update_keys. exact Hn.
Qed.

Lemma default_keys_unique : List.NoDup (keys SaveSystem.default_save).
Proof.
  cbn. repeat constructor; cbn; intros H;
    repeat (destruct H as [H|H]; [discriminate H|]); exact H.
Qed.

Lemma loaded_section_default (k : string) (in_file : option pyval) :
  loaded_section k (match in_file with
                    | Some v => Some v
                    | None => Dict.get k SaveSystem.default_save
                    end)
  = loaded_section k in_file.
Proof.
  destruct in_file as [v|]; [reflexivity|].
  unfold loaded_section.
  destruct (String.eqb_spec k "world") as [->|N1]; [reflexivity|].
  destruct (String.eqb_spec k "player") as [->|N2]; [reflexivity|].
  destruct (String.eqb_spec k "trust") as [->|N3]; [reflexivity|].
  destruct (String.eqb_spec k "scores") as [->|N4]; [reflexivity|].
  destruct (String.eqb_spec k "completed") as [->|N5]; [reflexivity|].
  unfold SaveSystem.default_save. cbn [Dict.get].
  rewrite !(String.eqb_sym _ k).
  rewrite (proj2 (String.eqb_neq _ _) N1), (proj2 (String.eqb_neq _ _) N2),
    (proj2 (String.eqb_neq _ _) N3), (proj2 (String.eqb_neq _ _) N4),
    (proj2 (String.eqb_neq _ _) N5).
  reflexivity.
Qed.

Lemma loaded_sections_normal (doc : pydict) (src : string -> option pyval) :
  (exists rest, keys doc = keys SaveSystem.default_save ++ rest) ->
  List.NoDup (keys doc) ->
  (forall k, Dict.get k doc = loaded_section k (src k)) ->
  normal_save doc.
Proof.
  intros Hk Hn G. split; [exact Hk|]. split; [exact Hn|].
  split.
  { rewrite (G "world"). unfold loaded_section. cbn [String.eqb Ascii.eqb Bool.eqb].
    destruct (src "world") as [[]|]; try (eexists; split; reflexivity).
    destruct (Dict.has "map" d) eqn:E; eexists; (split; [reflexivity|]); [exact E|].
    unfold Dict.has. rewrite get_set_eq. reflexivity. }
  split.
  { rewrite (G "player"). unfold loaded_section. cbn [String.eqb Ascii.eqb Bool.eqb].
    destruct (src "player") as [[]|]; eexists; reflexivity. }
  split.
  { rewrite (G "trust"). unfold loaded_section. cbn [String.eqb Ascii.eqb Bool.eqb].
    destruct (src "trust") as [[]|]; eexists; reflexivity. }
  split.
  { rewrite (G "scores"). unfold loaded_section. cbn [String.eqb Ascii.eqb Bool.eqb].
    destruct (src "scores") as [[]|]; eexists; reflexivity. }
  rewrite (G "completed"). unfold loaded_section. cbn [String.eqb Ascii.eqb Bool.eqb].
  destruct (src "completed") as [[]|]; try (do 2 eexists; split; reflexivity).
  destruct (Dict.get "challenges" d) as [[]|] eqn:E;
    try (do 2 eexists; split; [reflexivity|]; apply get_set_eq).
  do 2 eexists. split; [reflexivity|]. exact E.
Qed.

(** Whatever the file holds, a document that [load_save] returns is in
    normal form. *)
Lemma load_save_normal (f : save_file) (doc : pydict) :
  SaveSystem.load_save f = Ok doc -> normal_save doc.
Proof.
  intros H.
  assert (Hd : normal_save SaveSystem.default_save).
  { split; [exists []; reflexivity|]. split; [apply default_keys_unique|].
    split; [eexists; split; reflexivity|].
    repeat (split; [eexists; reflexivity|]). do 2 eexists. split; reflexivity. }
  destruct f as [| |data]; cbn [SaveSystem.load_save] in H;
    try (injection H as <-; exact Hd).
  destruct (SaveSystem.dict_update SaveSystem.default_save data) as [b0| |] eqn:E;
    cbn [bind] in H; try discriminate.
  destruct (dict_update_keys _ _ _ E default_keys_unique) as [Hn Hk].
  destruct (normalisation b0 Hk Hn) as (doc' & Hdoc & Hkeys & G & _).
  cbn zeta in Hdoc. rewrite Hdoc in H. injection H as <-.
  apply (loaded_sections_normal doc' (fun k => Dict.get k b0)).
  - rewrite Hkeys. exact Hk.
  - rewrite Hkeys. exact Hn.
  - exact G.
Qed.

Lemma split_by_keys (doc : pydict) (ks rest : list string) :
  keys doc = ks ++ rest ->
  exists l1 l2, doc = l1 ++ l2 /\ keys l1 = ks.
Proof.
  intros H. exists (firstn (length ks) doc), (skipn (length ks) doc).
  split; [symmetry; apply List.firstn_skipn|].
  unfold keys in *. rewrite <- List.firstn_map, H.
  rewrite List.firstn_app, Nat.sub_diag, List.firstn_all. cbn [firstn].
  apply List.app_nil_r.
Qed.

(** A document in normal form is a fixed point of the loading. *)
Lemma load_save_fixed (doc : pydict) :
  normal_save doc -> SaveSystem.load_save (Parsed (PDict doc)) = Ok doc.
Proof.
  intros Hnorm. pose proof Hnorm as (Hk & Hn & _).
  cbn [SaveSystem.load_save SaveSystem.dict_update bind].
  assert (Hu : Dict.update SaveSystem.default_save doc = doc).
  { destruct Hk as [rest Hk].
    destruct (split_by_keys doc _ _ Hk) as (l1 & l2 & -> & Hl1).
    unfold Dict.update.
    apply (update_onto_prefix l1 [] SaveSystem.default_save l2 Hl1). exact Hn. }
  rewrite Hu.
  destruct (normalisation doc Hk Hn) as (doc' & Hdoc & _ & _ & Hsame).
  cbn zeta in Hdoc. rewrite Hdoc. rewrite (Hsame Hnorm). reflexivity.
Qed.

End SaveFacts.

(** What [load_save] returns for an object, key by key *)
Lemma load_save_by_key (d : pydict) :
  exists doc,
    SaveSystem.load_save (Parsed (PDict d)) = Ok doc
    /\ forall k, Dict.get k doc = loaded_section k (Dict.get k (rev d)).
Proof.
  cbn [SaveSystem.load_save SaveSystem.dict_update bind].
  destruct (update_keys d SaveSystem.default_save default_keys_unique) as [Hn Hk].
  destruct (normalisation _ Hk Hn) as (doc & Hdoc & _ & G & _).
  cbn zeta in Hdoc. exists doc. split; [exact Hdoc|].
  intros k. rewrite G, get_update. apply loaded_section_default.
Qed.

(** X8: for every JSON object in the save file [load_save] returns a
    document, and each key of the document is settled on its own from the
    last entry of that key in the object: [player], [trust] and [scores]
    keep a dict and replace anything else by their defaults, [world] keeps
    a dict and gains the map [city] when it names none, [completed] keeps
    a dict and gains an empty list when [challenges] is not a list, and
    every other key is taken over as it is. *)
Theorem load_save_sections (d : pydict) :
  exists doc,
    SaveSystem.load_save (Parsed (PDict d)) = Ok doc
    /\ forall k, Dict.get k doc = loaded_section k (Dict.get k (rev d)).
Proof.
  destruct (load_save_by_key d) as (doc & Hdoc & G).
  exists doc. split; [exact Hdoc|]. intros k. apply G.
Qed.

(** X9: the normalisation of [load_save] is idempotent: a save file whose
    JSON object is a document that [load_save] has returned loads as that
    same document, key for key and in the same order. *)
Theorem load_save_idempotent (f : save_file) (doc : pydict) :
  SaveSystem.load_save f = Ok doc ->
  SaveSystem.load_save (Parsed (PDict doc)) = Ok doc.
Proof.
  intros H. apply load_save_fixed. exact (load_save_normal f doc H).
Qed.

(** A save file with a score, a trust entry, a key of its own and a
    [completed] entry that is not a dict: what it loads as loads as itself. *)
Lemma load_save_idempotent_witness :
  SaveSystem.load_save
    (Parsed (PDict [ ("note", PStr "kept");
                     ("scores", PDict [ ("total", PInt 100) ]);
                     ("trust", PDict [ ("aya", PInt 2) ]);
                     ("completed", PInt 0) ]))
  = Ok [ ("world", PDict [ ("map", PStr "city") ]);
         ("player", SaveSystem.default_player);
         ("trust", PDict [ ("aya", PInt 2) ]);
         ("scores", PDict [ ("total", PInt 100) ]);
         ("completed", PDict [ ("challenges", PList []) ]);
         ("note", PStr "kept") ]
  /\ SaveSystem.load_save
       (Parsed (PDict [ ("world", PDict [ ("map", PStr "city") ]);
                        ("player", SaveSystem.default_player);
                        ("trust", PDict [ ("aya", PInt 2) ]);
                        ("scores", PDict [ ("total", PInt 100) ]);
                        ("completed", PDict [ ("challenges", PList []) ]);
                        ("note", PStr "kept") ]))
     = Ok [ ("world", PDict [ ("map", PStr "city") ]);
            ("player", SaveSystem.default_player);
            ("trust", PDict [ ("aya", PInt 2) ]);
            ("scores", PDict [ ("total", PInt 100) ]);
            ("completed", PDict [ ("challenges", PList []) ]);
            ("note", PStr "kept") ].
Proof.
  split; [vm_compute; reflexivity|].
  apply (load_save_idempotent
           (Parsed (PDict [ ("note", PStr "kept");
                            ("scores", PDict [ ("total", PInt 100) ]);
                            ("trust", PDict [ ("aya", PInt 2) ]);
                            ("completed", PInt 0) ]))).
  vm_compute. reflexivity.
Defined.

(** ** The menu *)

Section MenuFacts.

Variable K : Constants.
Variable files : Files.

Lemma default_save_start (app : App) (prov : MapProvider) (dz : float) :
  save app = SaveSystem.default_save ->
  provider_of K files "city" = Ok prov ->
  _map_default_zoom prov = Ok dz ->
  WorldScene_init K files app None None None
  = Ok (world_at K "city" prov 200 200 dz,
        {| save := SaveSystem.default_save; slot := slot app |}).
Proof.
  intros Hs Hprov Hdz.
  rewrite (WorldScene_init_saved K files app [("map", PStr "city")]
             [("x", PFloat (PyFloat.of_Z 200)); ("y", PFloat (PyFloat.of_Z 200))]
             "city" (PFloat (PyFloat.of_Z 200)) (PFloat (PyFloat.of_Z 200))
             (PyFloat.of_Z 200) (PyFloat.of_Z 200) 200 200 prov dz);
    try (rewrite Hs; reflexivity); try reflexivity; try assumption.
Qed.

(** X6: New Game discards whatever the application held: the document in
    memory becomes the default save and the save file is overwritten with
    it, and the game enters the map [city] with the player at (200, 200).
    Load Game without a readable save file starts at the same place, and
    leaves the file as it is. *)
Theorem menu_new_game (sel : Z) (app : App) (st : InputState) (events : list event)
    (prov : MapProvider) (dz : float) :
  confirm_pressed st = true ->
  provider_of K files "city" = Ok prov ->
  _map_default_zoom prov = Ok dz ->
  (Menu.move sel events = 0 ->
   Menu.handle_input K files sel app st events
   = Ok (0, {| save := SaveSystem.default_save;
               slot := Parsed (PDict SaveSystem.default_save) |},
         goto (WorldScene (world_at K "city" prov 200 200 dz))))
  /\ (Menu.move sel events = 1 -> slot app = Absent \/ slot app = Unparsable ->
      Menu.handle_input K files sel app st events
      = Ok (1, {| save := SaveSystem.default_save; slot := slot app |},
            goto (WorldScene (world_at K "city" prov 200 200 dz)))).
Proof.
  intros Hc Hprov Hdz. split.
  - intros Hm. unfold Menu.handle_input. rewrite Hm, Hc. cbn [Z.eqb].
    rewrite (default_save_start _ prov dz) by (assumption || reflexivity).
    reflexivity.
  - intros Hm Hslot. unfold Menu.handle_input. rewrite Hm, Hc. cbn [Z.eqb].
    assert (Hl : SaveSystem.load_save (slot app) = Ok SaveSystem.default_save)
      by (destruct Hslot as [-> | ->]; reflexivity).
    rewrite Hl. cbn [bind].
    rewrite (default_save_start _ prov dz) by (assumption || reflexivity).
    reflexivity.
Qed.

Lemma store_position_value (w : WorldState) (app : App) (pl : pydict) :
  Dict.get "player" (save app) = Some (PDict pl) ->
  List.NoDup (keys (save app)) ->
  exists sv pl',
    World.store_position w app = Ok {| save := sv; slot := Parsed (PDict sv) |}
    /\ List.NoDup (keys sv)
    /\ Dict.get "player" sv = Some (PDict pl')
    /\ Dict.get "x" pl' = Some (PFloat (PyFloat.of_Z (Rect.x (player w))))
    /\ Dict.get "y" pl' = Some (PFloat (PyFloat.of_Z (Rect.y (player w))))
    /\ forall k, k <> "player" -> Dict.get k sv = Dict.get k (save app).
Proof.
  intros Hpl Hn. unfold World.store_position.
  rewrite (setitem2_dict _ _ _ _ _ Hpl). cbn [bind].
  rewrite (setitem2_dict _ (Dict.set "x" _ pl) _ _ _) by apply get_set_eq.
  cbn [bind]. do 2 eexists. split; [reflexivity|].
  split; [do 2 apply NoDup_keys_set; exact Hn|].
  split; [apply get_set_eq|].
  split; [rewrite get_set_ne by discriminate; apply get_set_eq|].
  split; [apply get_set_eq|].
  intros k Hk. rewrite !get_set_ne by congruence. reflexivity.
Qed.

(** X7: leaving the world with Escape and choosing Load Game resumes the
    game where it was left: Escape stores the position of the player in
    the document and writes the file, and the world scene built from the
    loaded file is on the same map with the player at the same pixel. *)
Theorem load_game_resumes (w : WorldState) (app : App) (st1 st2 : InputState)
    (ev1 ev2 : list event) (pl wd : pydict) (prov : MapProvider) (dz : float) :
  cancel_pressed st1 = true ->
  List.NoDup (keys (save app)) ->
  Dict.get "player" (save app) = Some (PDict pl) ->
  Dict.get "world" (save app) = Some (PDict wd) ->
  Dict.get "map" wd = Some (PStr (map_id w)) ->
  Z.abs (Rect.x (player w)) < 2 ^ 53 -> Z.abs (Rect.y (player w)) < 2 ^ 53 ->
  confirm_pressed st2 = true -> Menu.move 0 ev2 = 1 ->
  provider_of K files (map_id w) = Ok prov ->
  _map_default_zoom prov = Ok dz ->
  exists sv doc,
    World.handle_input K files w app st1 ev1
    = Ok (w, {| save := sv; slot := Parsed (PDict sv) |}, goto (MenuScene 0))
    /\ Menu.handle_input K files 0 {| save := sv; slot := Parsed (PDict sv) |} st2 ev2
       = Ok (1, {| save := doc; slot := Parsed (PDict sv) |},
             goto (WorldScene (world_at K (map_id w) prov
                                 (Rect.x (player w)) (Rect.y (player w)) dz))).
Proof.
  intros Hc Hn Hpl Hwd Hmap Hx Hy Hconf Hmove Hprov Hdz.
  destruct (store_position_value w app pl Hpl Hn)
    as (sv & pl' & Hstore & Hn' & Hpl' & Hpx & Hpy & Hsame).
  exists sv.
  destruct (load_save_by_key sv) as (doc & Hload & G).
  exists doc. split.
  - unfold World.handle_input. rewrite Hc, Hstore. reflexivity.
  - unfold Menu.handle_input. rewrite Hmove, Hconf. cbn [Z.eqb slot].
    rewrite Hload. cbn [bind].
    rewrite (WorldScene_init_saved K files _ wd pl' (map_id w)
               (PFloat (PyFloat.of_Z (Rect.x (player w))))
               (PFloat (PyFloat.of_Z (Rect.y (player w))))
               (PyFloat.of_Z (Rect.x (player w))) (PyFloat.of_Z (Rect.y (player w)))
               (Rect.x (player w)) (Rect.y (player w)) prov dz);
      try assumption; try reflexivity; try (apply to_int_of_Z; assumption).
    + cbn [save]. rewrite G, get_rev_unique by exact Hn'.
      rewrite Hsame by discriminate. rewrite Hwd.
      unfold loaded_section. cbn [String.eqb Ascii.eqb Bool.eqb].
      unfold Dict.has. rewrite Hmap. reflexivity.
    + cbn [save]. rewrite G, get_rev_unique by exact Hn'. rewrite Hpl'. reflexivity.
Qed.

End MenuFacts.

(** A new game on the generated city. *)
Lemma world_scene_constructed_witness :
  let w := world_at sample_constants "city"
             (Generated (GeneratedMap_init sample_constants "city")) 200 200 PyFloat.one in
  PyFloat.ltb (zoom w) PyFloat.one = false
  /\ PyFloat.ltb (PyFloat.lit 5 2) (zoom w) = false
  /\ (zoom w <> S754_nan ->
      SFleb PyFloat.one (zoom w) = true /\ SFleb (zoom w) (PyFloat.lit 5 2) = true)
  /\ PyFloat.eqb (zoom w) PyFloat.zero = false
  /\ Rect.w (player w) = PLAYER_W sample_constants
  /\ Rect.h (player w) = PLAYER_H sample_constants
  /\ camera_x w = PyFloat.zero /\ camera_y w = PyFloat.zero
  /\ near_npc_label w = None /\ near_portal_label w = None /\ near_book_label w = None
  /\ (exists wd, Dict.get "world" (save fresh_app) = Some (PDict wd)
                 /\ Dict.get "map" wd = Some (PStr (map_id w)))
  /\ slot fresh_app = slot fresh_app.
Proof.
  apply (world_scene_constructed sample_constants no_files fresh_app fresh_app
           None None None).
  vm_compute. reflexivity.
Defined.

Lemma menu_new_game_witness :
  let start := world_at sample_constants "city"
                 (Generated (GeneratedMap_init sample_constants "city"))
                 200 200 PyFloat.one in
  (Menu.move 0 [KEYDOWN K_RETURN] = 0 ->
   Menu.handle_input sample_constants no_files 0
     {| save := [("trust", PDict [("aya", PInt 5)])]; slot := Unparsable |}
     (pressing false true false) [KEYDOWN K_RETURN]
   = Ok (0, {| save := SaveSystem.default_save;
               slot := Parsed (PDict SaveSystem.default_save) |},
         goto (WorldScene start)))
  /\ (Menu.move 0 [KEYDOWN K_RETURN] = 1 ->
      slot {| save := [("trust", PDict [("aya", PInt 5)])]; slot := Unparsable |} = Absent
      \/ slot {| save := [("trust", PDict [("aya", PInt 5)])]; slot := Unparsable |}
         = Unparsable ->
      Menu.handle_input sample_constants no_files 0
        {| save := [("trust", PDict [("aya", PInt 5)])]; slot := Unparsable |}
        (pressing false true false) [KEYDOWN K_RETURN]
      = Ok (1, {| save := SaveSystem.default_save; slot := Unparsable |},
            goto (WorldScene start))).
Proof.
  apply (menu_new_game sample_constants no_files 0
           {| save := [("trust", PDict [("aya", PInt 5)])]; slot := Unparsable |}
           (pressing false true false) [KEYDOWN K_RETURN]
           (Generated (GeneratedMap_init sample_constants "city")) PyFloat.one);
    reflexivity.
Defined.

(** Escape at the door of house 1, then Down and Return in the menu. *)
Lemma load_game_resumes_witness :
  exists sv doc,
    World.handle_input sample_constants no_files city_at_door fresh_app
      (pressing false false true) [KEYDOWN K_ESCAPE]
    = Ok (city_at_door, {| save := sv; slot := Parsed (PDict sv) |}, goto (MenuScene 0))
    /\ Menu.handle_input sample_constants no_files 0
         {| save := sv; slot := Parsed (PDict sv) |}
         (pressing false true false) [KEYDOWN K_DOWN; KEYDOWN K_RETURN]
       = Ok (1, {| save := doc; slot := Parsed (PDict sv) |},
             goto (WorldScene (world_at sample_constants (map_id city_at_door)
                                 (Generated (GeneratedMap_init sample_constants "city"))
                                 (Rect.x (player city_at_door))
                                 (Rect.y (player city_at_door)) PyFloat.one))).
Proof.
  apply (load_game_resumes sample_constants no_files city_at_door fresh_app
           (pressing false false true) (pressing false true false)
           [KEYDOWN K_ESCAPE] [KEYDOWN K_DOWN; KEYDOWN K_RETURN]
           [("x", PFloat (PyFloat.of_Z 200)); ("y", PFloat (PyFloat.of_Z 200))]
           [("map", PStr "city")]
           (Generated (GeneratedMap_init sample_constants "city")) PyFloat.one);
    try reflexivity.
  apply default_keys_unique.
Defined.

(** ** The frame update of the world *)

Section UpdateFacts.

Variable K : Constants.

Lemma push_back_size (dx dy : float) (p c : Rect.t) :
  Rect.w (World.push_back dx dy p c) = Rect.w p
  /\ Rect.h (World.push_back dx dy p c) = Rect.h p.
Proof.
  unfold World.push_back.
  destruct (Rect.colliderect p c); [|auto].
  destruct (PyFloat.gtb dx PyFloat.zero), (PyFloat.ltb dx PyFloat.zero),
    (PyFloat.gtb dy PyFloat.zero), (PyFloat.ltb dy PyFloat.zero); auto.
Qed.

Lemma push_back_loop_size (dx dy : float) (cs : list Rect.t) :
  forall p, Rect.w (fold_left (World.push_back dx dy) cs p) = Rect.w p
            /\ Rect.h (fold_left (World.push_back dx dy) cs p) = Rect.h p.
Proof.
  induction cs as [|c cs IH]; intros p; cbn [fold_left]; [auto|].
  destruct (IH (World.push_back dx dy p c)) as [-> ->]. apply push_back_size.
Qed.

(** A step changes nothing but the position of the player. *)
Lemma move_and_collide_frame (dx dy : float) (w w' : WorldState) :
  World._move_and_collide dx dy w = Ok w' ->
  w' = World.with_player w (player w')
  /\ Rect.w (player w') = Rect.w (player w) /\ Rect.h (player w') = Rect.h (player w).
Proof.
  unfold World._move_and_collide. intros H.
  destruct (PyFloat.eqb dx PyFloat.zero && PyFloat.eqb dy PyFloat.zero).
  - injection H as <-. destruct w; auto.
  - inv_bind H. inv_bind H. injection H as <-. cbn [player World.with_player].
    split; [reflexivity|].
    match goal with
    | |- context [fold_left _ ?cs ?p0] =>
        destruct (push_back_loop_size dx dy cs p0) as [-> ->]
    end.
    split; reflexivity.
Qed.

Lemma integrate_frame (st : InputState) (dt : float) (w w' : WorldState) :
  World.integrate K st dt w = Ok w' ->
  w' = World.with_player w (player w')
  /\ Rect.w (player w') = Rect.w (player w) /\ Rect.h (player w') = Rect.h (player w).
Proof.
  unfold World.integrate. destruct (World.displacement K st dt) as [dx dy]. intros H.
  inv_bind H. rename a into w1.
  destruct (move_and_collide_frame _ _ _ _ E) as (E1 & W1 & H1).
  destruct (move_and_collide_frame _ _ _ _ H) as (E2 & W2 & H2).
  split; [|split; congruence].
  rewrite E2, E1 at 1. destruct w; reflexivity.
Qed.

(** What a successful [update] has done. *)
Lemma update_inv (st : InputState) (dt : float) (w w' : WorldState) (app app' : App)
    (r : SceneResult) :
  World.update K st dt w app = Ok (w', app', r) ->
  exists (w1 : WorldState) (vw vh : Z) (sv1 sv2 sv3 : pydict),
    World.integrate K st dt w = Ok w1
    /\ view_size K w1 = Ok (vw, vh)
    /\ Py.setdefault_setitem (save app) "world" "map" (PStr (map_id w)) = Ok sv1
    /\ Py.setitem2 sv1 "player" "x" (PFloat (PyFloat.of_Z (Rect.x (player w1)))) = Ok sv2
    /\ Py.setitem2 sv2 "player" "y" (PFloat (PyFloat.of_Z (Rect.y (player w1)))) = Ok sv3
    /\ r = no_transition
    /\ app' = {| save := sv3; slot := slot app |}
    /\ w' = {| map_id := map_id w; provider := provider w; player := player w1;
               zoom := zoom w;
               camera_x :=
                 clamp PyFloat.ltb
                   (PyFloat.sub
                      (PyFloat.add (PyFloat.of_Z (Rect.x (player w1)))
                         (PyFloat.mul (PyFloat.of_Z (Rect.w (player w1))) PyFloat.half))
                      (PyFloat.mul (PyFloat.of_Z vw) PyFloat.half))
                   PyFloat.zero
                   (World.max0 (PyFloat.of_Z (Rect.w (World._world_bounds w) - vw)));
               camera_y :=
                 clamp PyFloat.ltb
                   (PyFloat.sub
                      (PyFloat.add (PyFloat.of_Z (Rect.y (player w1)))
                         (PyFloat.mul (PyFloat.of_Z (Rect.h (player w1))) PyFloat.half))
                      (PyFloat.mul (PyFloat.of_Z vh) PyFloat.half))
                   PyFloat.zero
                   (World.max0 (PyFloat.of_Z (Rect.h (World._world_bounds w) - vh)));
               near_npc_label := near_npc_label w;
               near_portal_label := near_portal_label w;
               near_book_label := near_book_label w |}.
Proof.
  intros H. unfold World.update in H.
  inv_bind H. rename a into w1, E into Ei.
  destruct (integrate_frame _ _ _ _ Ei) as (Ew1 & _ & _).
  assert (F : map_id w1 = map_id w /\ provider w1 = provider w /\ zoom w1 = zoom w
              /\ near_npc_label w1 = near_npc_label w
              /\ near_portal_label w1 = near_portal_label w
              /\ near_book_label w1 = near_book_label w
              /\ World._world_bounds w1 = World._world_bounds w).
  { rewrite Ew1. unfold World._world_bounds. cbn. repeat split. }
  destruct F as (F1 & F2 & F3 & F4 & F5 & F6 & F7).
  inv_bind H. rename a into fw, E into Efw.
  inv_bind H. rename a into kw, E into Ekw.
  inv_bind H. rename a into fh, E into Efh.
  inv_bind H. rename a into kh, E into Ekh.
  inv_bind H. rename a into sv1, E into E1.
  inv_bind H. rename a into sv2, E into E2.
  inv_bind H. rename a into sv3, E into E3.
  injection H as <- <- <-.
  exists w1, (Z.max 160 kw), (Z.max 120 kh), sv1, sv2, sv3.
  split; [reflexivity|].
  split; [unfold view_size; rewrite Efw; cbn [bind]; rewrite Ekw; cbn [bind];
          rewrite Efh; cbn [bind]; rewrite Ekh; reflexivity|].
  cbn [map_id] in E1. rewrite F1 in E1.
  split; [exact E1|]. split; [exact E2|]. split; [exact E3|].
  split; [reflexivity|]. split; [reflexivity|].
  rewrite F1, F2, F3, F4, F5, F6, F7. reflexivity.
Qed.

End UpdateFacts.

Section DictInversion.

Lemma setitem2_inv (d d' : pydict) (k1 k2 : string) (x : pyval) :
  Py.setitem2 d k1 k2 x = Ok d' ->
  exists inner, Dict.get k1 d = Some (PDict inner)
                /\ d' = Dict.set k1 (PDict (Dict.set k2 x inner)) d.
Proof.
  unfold Py.setitem2, Py.getitem. intros H.
  destruct (Dict.get k1 d) as [v|]; cbn [bind] in H; [|discriminate].
  destruct v; cbn [Py.setitem bind] in H; try discriminate.
  injection H as <-. eauto.
Qed.

Lemma setdefault_setitem_inv (d d' : pydict) (k1 k2 : string) (x : pyval) :
  Py.setdefault_setitem d k1 k2 x = Ok d' ->
  exists inner, Dict.get k1 d' = Some (PDict inner)
                /\ Dict.get k2 inner = Some x
                /\ forall k, k <> k1 -> Dict.get k d' = Dict.get k d.
Proof.
  unfold Py.setdefault_setitem, Py.setdefault. intros H.
  destruct (Dict.get k1 d) as [v|] eqn:E.
  - destruct v; cbn [Py.setitem bind] in H; try discriminate.
    injection H as <-. eexists. split; [apply get_set_eq|]. split; [apply get_set_eq|].
    intros k Hk. apply get_set_ne. congruence.
  - cbn [Py.setitem bind] in H. injection H as <-.
    eexists. split; [apply get_set_eq|]. split; [apply (get_set_eq k2 x [])|].
    intros k Hk. rewrite !get_set_ne by congruence. reflexivity.
Qed.

End DictInversion.

Section UpdateTheorems.

Variable K : Constants.

(** X10: a frame update of the world never writes the save file and asks
    for no transition; it leaves in the document in memory the map id of
    the scene and the position of the player after the move, as floats,
    and touches no other section of the document. *)
Theorem update_mirrors_position (st : InputState) (dt : float) (w w' : WorldState)
    (app app' : App) (r : SceneResult) :
  World.update K st dt w app = Ok (w', app', r) ->
  r = no_transition
  /\ slot app' = slot app
  /\ map_id w' = map_id w /\ provider w' = provider w /\ zoom w' = zoom w
  /\ (exists wd, Dict.get "world" (save app') = Some (PDict wd)
                 /\ Dict.get "map" wd = Some (PStr (map_id w')))
  /\ (exists pl, Dict.get "player" (save app') = Some (PDict pl)
                 /\ Dict.get "x" pl = Some (PFloat (PyFloat.of_Z (Rect.x (player w'))))
                 /\ Dict.get "y" pl = Some (PFloat (PyFloat.of_Z (Rect.y (player w')))))
  /\ (forall k, k <> "world" -> k <> "player" ->
        Dict.get k (save app') = Dict.get k (save app)).
Proof.
  intros H.
  destruct (update_inv K st dt w w' app app' r H)
    as (w1 & vw & vh & sv1 & sv2 & sv3 & _ & _ & E1 & E2 & E3 & -> & -> & ->).
  cbn [map_id provider zoom player save slot].
  repeat (split; [reflexivity|]).
  destruct (setdefault_setitem_inv _ _ _ _ _ E1) as (wd & Hwd & Hmap & Hsame1).
  destruct (setitem2_inv _ _ _ _ _ E2) as (p1 & Hp1 & ->).
  destruct (setitem2_inv _ _ _ _ _ E3) as (p2 & Hp2 & ->).
  rewrite get_set_eq in Hp2. injection Hp2 as <-.
  split.
  { exists wd. split; [|exact Hmap].
    rewrite !get_set_ne by discriminate. exact Hwd. }
  split.
  { eexists. split; [apply get_set_eq|].
    split; [rewrite get_set_ne by discriminate; apply get_set_eq|apply get_set_eq]. }
  intros k Hk1 Hk2. rewrite !get_set_ne by congruence. apply Hsame1. exact Hk1.
Qed.

Lemma max0_not_below (v : float) : PyFloat.ltb (World.max0 v) PyFloat.zero = false.
Proof.
  unfold World.max0, PyFloat.gtb.
  destruct (PyFloat.ltb PyFloat.zero v) eqn:E; [apply ltb_asym; exact E|reflexivity].
Qed.

Lemma binary_round_aux_sign (s : bool) (m e : Z) (l : location) :
  match binary_round_aux PyFloat.prec PyFloat.emax s m e l with
  | S754_zero s' | S754_infinity s' | S754_finite s' _ _ => s' = s
  | S754_nan => True
  end.
Proof.
  unfold binary_round_aux.
  destruct (shr_fexp _ _ m e l) as [mrs' e'].
  destruct (shr_fexp _ _ _ e' loc_Exact) as [mrs'' e''].
  destruct (shr_m mrs''); [reflexivity| |exact I].
  destruct (e'' <=? _); reflexivity.
Qed.

Lemma of_Z_nonpos (n : Z) : n <= 0 -> PyFloat.gtb (PyFloat.of_Z n) PyFloat.zero = false.
Proof.
  intros Hn. unfold PyFloat.of_Z, binary_normalize.
  destruct n as [|p|p]; [reflexivity|lia|].
  unfold binary_round. destruct (shl_align _ _ _) as [mz ez].
  pose proof (binary_round_aux_sign true (Z.pos mz) ez loc_Exact) as Hs.
  destruct (binary_round_aux _ _ true (Z.pos mz) ez loc_Exact) as [s|s| |s m e];
    try subst s; reflexivity.
Qed.

(** X11: after a frame update the camera is never left of (above) the
    origin and never beyond the largest offset at which the view still
    lies on the map, [max(0, map size - view size)]; the view is the screen
    divided by the zoom and at least 160 by 120.  On a map that is not
    wider than the view the horizontal offset is zero. *)
Theorem camera_stays_on_map (st : InputState) (dt : float) (w w' : WorldState)
    (app app' : App) (r : SceneResult) :
  World.update K st dt w app = Ok (w', app', r) ->
  exists vw vh,
    view_size K w' = Ok (vw, vh) /\ 160 <= vw /\ 120 <= vh
    /\ PyFloat.ltb (camera_x w') PyFloat.zero = false
    /\ PyFloat.ltb (World.max0 (PyFloat.of_Z (Rect.w (World._world_bounds w') - vw)))
         (camera_x w') = false
    /\ PyFloat.ltb (camera_y w') PyFloat.zero = false
    /\ PyFloat.ltb (World.max0 (PyFloat.of_Z (Rect.h (World._world_bounds w') - vh)))
         (camera_y w') = false
    /\ (Rect.w (World._world_bounds w') <= vw ->
        PyFloat.eqb (camera_x w') PyFloat.zero = true \/ camera_x w' = S754_nan)
    /\ (Rect.h (World._world_bounds w') <= vh ->
        PyFloat.eqb (camera_y w') PyFloat.zero = true \/ camera_y w' = S754_nan).
Proof.
  intros H.
  destruct (update_inv K st dt w w' app app' r H)
    as (w1 & vw & vh & sv1 & sv2 & sv3 & Hi & Hv & _ & _ & _ & _ & _ & Hw').
  destruct (integrate_frame K _ _ _ _ Hi) as (Ew1 & _ & _).
  assert (Hz : zoom w1 = zoom w) by (rewrite Ew1; reflexivity).
  assert (Hb : World._world_bounds w' = World._world_bounds w)
    by (rewrite Hw'; reflexivity).
  exists vw, vh.
  split.
  { unfold view_size in *. rewrite Hz in Hv. rewrite Hw'. exact Hv. }
  assert (Hsz : 160 <= vw /\ 120 <= vh).
  { unfold view_size in Hv. repeat inv_bind Hv. injection Hv as <- <-. lia. }
  split; [tauto|]. split; [tauto|].
  rewrite Hb.
  assert (Hx : camera_x w' = clamp PyFloat.ltb
                 (PyFloat.sub
                    (PyFloat.add (PyFloat.of_Z (Rect.x (player w1)))
                       (PyFloat.mul (PyFloat.of_Z (Rect.w (player w1))) PyFloat.half))
                    (PyFloat.mul (PyFloat.of_Z vw) PyFloat.half))
                 PyFloat.zero
                 (World.max0 (PyFloat.of_Z (Rect.w (World._world_bounds w) - vw))))
    by (rewrite Hw'; reflexivity).
  assert (Hy : camera_y w' = clamp PyFloat.ltb
                 (PyFloat.sub
                    (PyFloat.add (PyFloat.of_Z (Rect.y (player w1)))
                       (PyFloat.mul (PyFloat.of_Z (Rect.h (player w1))) PyFloat.half))
                    (PyFloat.mul (PyFloat.of_Z vh) PyFloat.half))
                 PyFloat.zero
                 (World.max0 (PyFloat.of_Z (Rect.h (World._world_bounds w) - vh))))
    by (rewrite Hw'; reflexivity).
  rewrite Hx, Hy.
  match goal with
  | |- context [clamp PyFloat.ltb ?t PyFloat.zero (World.max0 ?v)] =>
      destruct (clamp_float_cases t PyFloat.zero (World.max0 v) (max0_not_below v))
        as [Lx Ux]
  end.
  match goal with
  | |- context [clamp PyFloat.ltb ?t PyFloat.zero
                  (World.max0 (PyFloat.of_Z (Rect.h (World._world_bounds w) - vh)))] =>
      destruct (clamp_float_cases t PyFloat.zero
                  (World.max0 (PyFloat.of_Z (Rect.h (World._world_bounds w) - vh)))
                  (max0_not_below _)) as [Ly Uy]
  end.
  split; [exact Lx|]. split; [exact Ux|]. split; [exact Ly|]. split; [exact Uy|].
  assert (Hzero : forall t n, n <= 0 ->
            let c := clamp PyFloat.ltb t PyFloat.zero (World.max0 (PyFloat.of_Z n)) in
            PyFloat.eqb c PyFloat.zero = true \/ c = S754_nan).
  { intros t n Hn. cbn zeta. unfold World.max0. rewrite (of_Z_nonpos n Hn).
    unfold clamp. destruct (PyFloat.ltb t PyFloat.zero) eqn:A; [left; reflexivity|].
    destruct (PyFloat.ltb PyFloat.zero t) eqn:B; [left; reflexivity|].
    destruct t as [s|s| |s m e]; auto.
    - destruct s; [vm_compute in A|vm_compute in B]; discriminate.
    - destruct s; [vm_compute in A|vm_compute in B]; discriminate. }
  split; intros Hle; apply Hzero; lia.
Qed.

End UpdateTheorems.

Section IdleFrames.

Variable K : Constants.

Lemma mul_zero_finite (s : bool) (f : float) :
  finite f -> exists s', PyFloat.mul (S754_zero s) f = S754_zero s'.
Proof.
  destruct f as [sf|sf| |sf m e]; cbn; intros H; try contradiction; eauto.
Qed.

(** X12: a frame in which no direction is held, or in which the opposite
    directions are held together on both axes, leaves the world scene as
    it is: the two steps return at once, whatever the colliders, even for
    a player that stands inside one.  (The speed constant and [dt] are
    finite.) *)
Theorem idle_frame_keeps_player (st : InputState) (dt : float) (w : WorldState) :
  left st = right st -> up st = down st ->
  finite (PLAYER_SPEED K) -> finite dt ->
  World.integrate K st dt w = Ok w.
Proof.
  intros Hlr Hud Hs Hdt.
  assert (Hv : exists sx sy, World.velocity st = (S754_zero sx, S754_zero sy)).
  { unfold World.velocity. rewrite Hlr, Hud.
    destruct (right st), (down st); vm_compute; eauto. }
  destruct Hv as (sx & sy & Hv).
  unfold World.integrate, World.displacement. rewrite Hv.
  destruct (mul_zero_finite sx _ Hs) as [sx1 ->].
  destruct (mul_zero_finite sy _ Hs) as [sy1 ->].
  destruct (mul_zero_finite sx1 _ Hdt) as [sx2 ->].
  destruct (mul_zero_finite sy1 _ Hdt) as [sy2 ->].
  unfold World._move_and_collide.
  replace (PyFloat.eqb (S754_zero sx2) PyFloat.zero) with true by (destruct sx2; reflexivity).
  replace (PyFloat.eqb (S754_zero sy2) PyFloat.zero) with true by (destruct sy2; reflexivity).
  replace (PyFloat.eqb PyFloat.zero PyFloat.zero) with true by reflexivity.
  reflexivity.
Qed.

End IdleFrames.

(** Left and right held together in the corridor, the player standing
    inside the post. *)
Lemma idle_frame_keeps_player_witness :
  World.integrate sample_constants (keys_held true true false false)
    (PyFloat.lit 17 1000) (world_on corridor (Rect.mk 12 40 16 16))
  = Ok (world_on corridor (Rect.mk 12 40 16 16)).
Proof.
  apply (idle_frame_keeps_player sample_constants (keys_held true true false false));
    try reflexivity; exact I.
Defined.

(** One frame to the right from the start of a new game. *)
Lemma update_mirrors_position_witness :
  no_transition = no_transition
  /\ slot {| save := save_at 201 200; slot := Absent |} = slot fresh_app
  /\ map_id (city_scene 201 200) = map_id (city_scene 200 200)
  /\ provider (city_scene 201 200) = provider (city_scene 200 200)
  /\ zoom (city_scene 201 200) = zoom (city_scene 200 200)
  /\ (exists wd, Dict.get "world" (save {| save := save_at 201 200; slot := Absent |})
                 = Some (PDict wd)
                 /\ Dict.get "map" wd = Some (PStr (map_id (city_scene 201 200))))
  /\ (exists pl, Dict.get "player" (save {| save := save_at 201 200; slot := Absent |})
                 = Some (PDict pl)
                 /\ Dict.get "x" pl
                    = Some (PFloat (PyFloat.of_Z (Rect.x (player (city_scene 201 200)))))
                 /\ Dict.get "y" pl
                    = Some (PFloat (PyFloat.of_Z (Rect.y (player (city_scene 201 200))))))
  /\ (forall k, k <> "world" -> k <> "player" ->
        Dict.get k (save {| save := save_at 201 200; slot := Absent |})
        = Dict.get k (save fresh_app)).
Proof.
  apply (update_mirrors_position sample_constants (keys_held false true false false)
           (PyFloat.lit 17 1000) (city_scene 200 200) (city_scene 201 200)
           fresh_app {| save := save_at 201 200; slot := Absent |} no_transition).
  vm_compute. reflexivity.
Defined.

Lemma camera_stays_on_map_witness :
  exists vw vh,
    view_size sample_constants (city_scene 201 200) = Ok (vw, vh)
    /\ 160 <= vw /\ 120 <= vh
    /\ PyFloat.ltb (camera_x (city_scene 201 200)) PyFloat.zero = false
    /\ PyFloat.ltb (World.max0 (PyFloat.of_Z
                                  (Rect.w (World._world_bounds (city_scene 201 200)) - vw)))
         (camera_x (city_scene 201 200)) = false
    /\ PyFloat.ltb (camera_y (city_scene 201 200)) PyFloat.zero = false
    /\ PyFloat.ltb (World.max0 (PyFloat.of_Z
                                  (Rect.h (World._world_bounds (city_scene 201 200)) - vh)))
         (camera_y (city_scene 201 200)) = false
    /\ (Rect.w (World._world_bounds (city_scene 201 200)) <= vw ->
        PyFloat.eqb (camera_x (city_scene 201 200)) PyFloat.zero = true
        \/ camera_x (city_scene 201 200) = S754_nan)
    /\ (Rect.h (World._world_bounds (city_scene 201 200)) <= vh ->
        PyFloat.eqb (camera_y (city_scene 201 200)) PyFloat.zero = true
        \/ camera_y (city_scene 201 200) = S754_nan).
Proof.
  apply (camera_stays_on_map sample_constants (keys_held false true false false)
           (PyFloat.lit 17 1000) (city_scene 200 200) (city_scene 201 200)
           fresh_app {| save := save_at 201 200; slot := Absent |} no_transition).
  vm_compute. reflexivity.
Defined.

(** ** The three nearest-entry loops *)

Section Closest.

Lemma closest_npc_loop_last (p : Rect.t) (l : list Npc) :
  forall (best : option Npc) (bd : Z),
    let dist := fun n => World.center_dist_sq p (npc_rect n) in
    let r := World.closest_npc_loop p l best bd in
    (r = best /\ forall m, In m l -> bd < dist m)
    \/ (exists n, r = Some n /\ last_nearest dist bd l n).
Proof.
  induction l as [|npc l IH]; intros best bd; cbn zeta; cbn [World.closest_npc_loop].
  - left. split; [reflexivity|]. intros m [].
  - destruct (World.center_dist_sq p (npc_rect npc) <=? bd) eqn:E.
    + apply Z.leb_le in E. right.
      destruct (IH (Some npc) (World.center_dist_sq p (npc_rect npc)))
        as [[-> Hall] | (n & -> & before & after & -> & Hn & Hb & Ha)].
      * exists npc. split; [reflexivity|]. exists [], l.
        split; [reflexivity|]. split; [exact E|]. split; [intros m []|exact Hall].
      * exists n. split; [reflexivity|]. exists (npc :: before), after.
        split; [reflexivity|]. split; [lia|]. split; [|exact Ha].
        intros m [<-|Hm]; [exact Hn|apply Hb; exact Hm].
    + apply Z.leb_gt in E.
      destruct (IH best bd) as [[-> Hall] | (n & -> & before & after & -> & Hn & Hb & Ha)].
      * left. split; [reflexivity|]. intros m [<-|Hm]; [exact E|apply Hall; exact Hm].
      * right. exists n. split; [reflexivity|]. exists (npc :: before), after.
        split; [reflexivity|]. split; [exact Hn|]. split; [|exact Ha].
        intros m [<-|Hm]; [lia|apply Hb; exact Hm].
Qed.

Lemma closest_rect_loop_last (p : Rect.t) (l : list Interactable) :
  (forall o, In o l -> Rect.colliderect p (rect o) = false) ->
  forall (best : option Interactable) (bd : Z),
    let dist := fun o => World.center_dist_sq p (rect o) in
    let r := World.closest_rect_loop p l best bd in
    (r = best /\ forall m, In m l -> bd < dist m)
    \/ (exists n, r = Some n /\ last_nearest dist bd l n).
Proof.
  induction l as [|o l IH]; intros Hno best bd; cbn zeta; cbn [World.closest_rect_loop].
  - left. split; [reflexivity|]. intros m [].
  - rewrite (Hno o (or_introl eq_refl)).
    assert (Hno' : forall o', In o' l -> Rect.colliderect p (rect o') = false)
      by (intros o' Ho'; apply Hno; right; exact Ho').
    destruct (World.center_dist_sq p (rect o) <=? bd) eqn:E.
    + apply Z.leb_le in E. right.
      destruct (IH Hno' (Some o) (World.center_dist_sq p (rect o)))
        as [[-> Hall] | (n & -> & before & after & -> & Hn & Hb & Ha)].
      * exists o. split; [reflexivity|]. exists [], l.
        split; [reflexivity|]. split; [exact E|]. split; [intros m []|exact Hall].
      * exists n. split; [reflexivity|]. exists (o :: before), after.
        split; [reflexivity|]. split; [lia|]. split; [|exact Ha].
        intros m [<-|Hm]; [exact Hn|apply Hb; exact Hm].
    + apply Z.leb_gt in E.
      destruct (IH Hno' best bd)
        as [[-> Hall] | (n & -> & before & after & -> & Hn & Hb & Ha)].
      * left. split; [reflexivity|]. intros m [<-|Hm]; [exact E|apply Hall; exact Hm].
      * right. exists n. split; [reflexivity|]. exists (o :: before), after.
        split; [reflexivity|]. split; [exact Hn|]. split; [|exact Ha].
        intros m [<-|Hm]; [lia|apply Hb; exact Hm].
Qed.

(** X13: [_closest_npc] returns nothing exactly when every NPC of the map
    is farther than the radius from the player, centre to centre;
    otherwise it returns an NPC within the radius that no NPC of the list
    is closer than, and of several equally near ones the last in the list. *)
Theorem closest_npc_is_nearest (w : WorldState) (npcs : list Npc) (max_dist : Z) :
  World._npcs w = Ok npcs ->
  let dist := fun n => World.center_dist_sq (player w) (npc_rect n) in
  exists r,
    World._closest_npc max_dist w = Ok r
    /\ (r = None <-> forall m, In m npcs -> max_dist * max_dist < dist m)
    /\ (forall n, r = Some n -> last_nearest dist (max_dist * max_dist) npcs n).
Proof.
  intros Hn dist. unfold World._closest_npc. rewrite Hn. cbn [bind].
  eexists. split; [reflexivity|].
  destruct (closest_npc_loop_last (player w) npcs None (max_dist * max_dist))
    as [[-> Hall] | (n & -> & Hlast)].
  - split; [tauto|]. intros n [=].
  - split.
    + split; [discriminate|]. intros Hall.
      destruct Hlast as (before & after & -> & Hle & _).
      specialize (Hall n (List.in_elt n before after)). fold (dist n) in Hle. lia.
    + intros n' [= <-]. exact Hlast.
Qed.

(** X14: [_closest_portal] and [_closest_book] return the first entry of
    the list whose rectangle overlaps the player, at once and whatever its
    distance; when no rectangle overlaps they return nothing exactly when
    every entry is farther than the radius, and otherwise the nearest
    entry, the last of several equally near ones. *)
Theorem closest_rect_first_overlap (w : WorldState) (portals books : list Interactable)
    (max_dist : Z) :
  World._portals w = Ok portals -> World._books w = Ok books ->
  let dist := fun o => World.center_dist_sq (player w) (rect o) in
  let rule := fun (l : list Interactable) (res : result (option Interactable)) =>
    (forall before o after,
        l = before ++ o :: after ->
        (forall o', In o' before -> Rect.colliderect (player w) (rect o') = false) ->
        Rect.colliderect (player w) (rect o) = true ->
        res = Ok (Some o))
    /\ ((forall o, In o l -> Rect.colliderect (player w) (rect o) = false) ->
        exists r,
          res = Ok r
          /\ (r = None <-> forall m, In m l -> max_dist * max_dist < dist m)
          /\ (forall n, r = Some n -> last_nearest dist (max_dist * max_dist) l n)) in
  rule portals (World._closest_portal max_dist w)
  /\ rule books (World._closest_book max_dist w).
Proof.
  intros Hp Hb dist rule.
  assert (R : forall l, rule l (Ok (World.closest_rect_loop (player w) l None
                                      (max_dist * max_dist)))).
  { intros l. split.
    - intros before o after -> Hbefore Ho.
      rewrite (first_overlap_found (player w) before after o Hbefore Ho). reflexivity.
    - intros Hno. eexists. split; [reflexivity|].
      destruct (closest_rect_loop_last (player w) l Hno None (max_dist * max_dist))
        as [[-> Hall] | (n & -> & Hlast)].
      + split; [tauto|]. intros n [=].
      + split.
        * split; [discriminate|]. intros Hall.
          destruct Hlast as (before & after & -> & Hle & _).
          specialize (Hall n (List.in_elt n before after)). fold (dist n) in Hle. lia.
        * intros n' [= <-]. exact Hlast. }
  unfold World._closest_portal, World._closest_book. rewrite Hp, Hb. cbn [bind].
  split; apply R.
Qed.

End Closest.

(** ** Generated maps *)

Section GeneratedMaps.

Variable K : Constants.
Variable files : Files.

(** X15: the generated map of an id other than [city] and [house_1] has
    no [npcs] attribute.  The world scene of such a map is constructed
    without error when no map file exists, and every frame of it in which
    Escape is not pressed raises [AttributeError] from [_npcs]. *)
Theorem generated_map_without_npcs (mid : string) (app app' : App)
    (xy : float * float) (z : option float) (w : WorldState) (st : InputState)
    (events : list event) :
  mid <> "city" -> mid <> "house_1" ->
  map_file files ("data/maps/" +:+ mid +:+ ".json") = None ->
  WorldScene_init K files app (Some mid) (Some xy) z = Ok (w, app') ->
  cancel_pressed st = false ->
  World._npcs w = Raise AttributeError
  /\ World.handle_input K files w app' st events = Raise AttributeError.
Proof.
  intros H1 H2 Hfile Hinit Hc.
  destruct (WorldScene_init_inv K files app app' _ _ _ w Hinit)
    as (sv & kx & ky & z0 & _ & _ & Hprov & _ & Hmid & _ & _).
  cbn in Hmid. rewrite Hmid in Hprov.
  destruct Hprov as [[_ Hprov] | (t & Ht & _)]; [|congruence].
  assert (Hn : World._npcs w = Raise AttributeError).
  { unfold World._npcs. rewrite Hprov. cbn [GeneratedMap_init gen_npcs].
    rewrite (proj2 (String.eqb_neq _ _) H1), (proj2 (String.eqb_neq _ _) H2).
    reflexivity. }
  split; [exact Hn|].
  unfold World.handle_input. rewrite Hc.
  unfold World._nearest_interactable, World._closest_npc.
  change (World._npcs (World.with_labels w None None None)) with (World._npcs w).
  rewrite Hn. reflexivity.
Qed.

End GeneratedMaps.

(** The map [house_2] of the portal that the source keeps commented out. *)
Lemma generated_map_without_npcs_witness :
  World._npcs (world_at sample_constants "house_2"
                 (Generated (GeneratedMap_init sample_constants "house_2"))
                 240 300 (PyFloat.lit 16 10))
  = Raise AttributeError
  /\ World.handle_input sample_constants no_files
       (world_at sample_constants "house_2"
          (Generated (GeneratedMap_init sample_constants "house_2"))
          240 300 (PyFloat.lit 16 10))
       {| save := Dict.set "world" (PDict [ ("map", PStr "house_2") ])
                    SaveSystem.default_save;
          slot := Absent |}
       (pressing false false false) []
     = Raise AttributeError.
Proof.
  apply (generated_map_without_npcs sample_constants no_files "house_2" fresh_app
           {| save := Dict.set "world" (PDict [ ("map", PStr "house_2") ])
                        SaveSystem.default_save;
              slot := Absent |}
           (PyFloat.of_Z 240, PyFloat.of_Z 300) (Some (PyFloat.lit 16 10)));
    try discriminate; reflexivity.
Defined.

(** ** Interactions of the world scene *)

Section Interactions.

Variable K : Constants.
Variable files : Files.

Lemma portal_target_fallback (w : WorldState) (data : pydict) :
  (exists vx e, Dict.get "target_x" data = Some vx /\ Py.float_ vx = Raise e)
  \/ (exists vy e fx,
        Py.float_ (Dict.get_default "target_x" (PInt (Rect.x (player w))) data) = Ok fx
        /\ Dict.get "target_y" data = Some vy /\ Py.float_ vy = Raise e) ->
  World.portal_target w data
  = Ok (PyFloat.of_Z (Rect.x (player w)), PyFloat.of_Z (Rect.y (player w))).
Proof.
  unfold World.portal_target, Dict.get_default.
  intros [(vx & e & -> & ->) | (vy & e & fx & Hx & Hy & Hvy)]; [reflexivity|].
  unfold Dict.get_default in Hx. rewrite Hx, Hy. cbn [bind]. rewrite Hvy. reflexivity.
Qed.

(** X16: a portal without a [target_map], or with an empty one, shows its
    prompt and does nothing else: pressing interact on it gives no
    transition, and neither the document in memory nor the save file
    changes. *)
Theorem portal_without_target (w : WorldState) (app : App) (st : InputState)
    (events : list event) (o : Interactable) (d : Z) :
  cancel_pressed st = false ->
  World._nearest_interactable w = Ok (Some (NearPortal o d)) ->
  Dict.get "target_map" (props o) = None
  \/ Dict.get "target_map" (props o) = Some (PStr "") ->
  World.portal_target w (props o) <> Unmodelled ->
  World.portal_zoom (props o) <> Unmodelled ->
  World.handle_input K files w app st events
  = Ok (World.with_labels w None
          (Some (Py.str (Py.or_else (Dict.get_default "prompt" PNone (props o))
                           (PStr (if String.eqb (map_id w) "city"
                                  then "Press E to enter" else "Press E to exit")))))
          None,
        app, no_transition).
Proof.
  intros Hc Hnear Hmap Ht Hz. unfold World.handle_input. rewrite Hc.
  change (World._nearest_interactable (World.with_labels w None None None))
    with (World._nearest_interactable w).
  rewrite Hnear. cbn [bind].
  cbn [near_npc_label near_book_label World.with_labels map_id].
  destruct (interact_pressed st); [|reflexivity].
  change (World.portal_target (World.with_labels _ _ _ _) (props o))
    with (World.portal_target w (props o)).
  assert (Htm : Py.text_truthy (Py.str (Dict.get_default "target_map" (PStr "") (props o)))
                = false).
  { unfold Dict.get_default. destruct Hmap as [-> | ->]; reflexivity. }
  rewrite Htm.
  assert (A : exists txy, World.portal_target w (props o) = Ok txy).
  { unfold World.portal_target, try_except in *.
    match goal with |- context [match ?r with _ => _ end] => destruct r end;
      eauto; congruence. }
  destruct A as [txy ->]. cbn [bind].
  assert (B : exists z, World.portal_zoom (props o) = Ok z).
  { unfold World.portal_zoom, try_except in *.
    destruct (Dict.get_default "target_zoom" PNone (props o)); eauto;
      match goal with |- context [match ?r with _ => _ end] => destruct r end;
      eauto; congruence. }
  destruct B as [z ->]. cbn [bind]. reflexivity.
Qed.

(** X17: the target coordinates of a portal are read together, under one
    [try]: when either of them is present but not a number, both fall
    back, and the player enters the target map at the pixel position held
    on the map left, whatever the other coordinate says. *)
Theorem portal_fallback_position (w : WorldState) (app : App) (st : InputState)
    (events : list event) (o : Interactable) (d : Z) (target : string)
    (z : option float) (pl : pydict) :
  cancel_pressed st = false -> interact_pressed st = true ->
  World._nearest_interactable w = Ok (Some (NearPortal o d)) ->
  Dict.get "target_map" (props o) = Some (PStr target) -> target <> "" ->
  (exists vx e, Dict.get "target_x" (props o) = Some vx /\ Py.float_ vx = Raise e)
  \/ (exists vy e fx,
        Py.float_ (Dict.get_default "target_x" (PInt (Rect.x (player w))) (props o)) = Ok fx
        /\ Dict.get "target_y" (props o) = Some vy /\ Py.float_ vy = Raise e) ->
  World.portal_zoom (props o) = Ok z ->
  Z.abs (Rect.x (player w)) < 2 ^ 53 -> Z.abs (Rect.y (player w)) < 2 ^ 53 ->
  Dict.get "player" (save app) = Some (PDict pl) ->
  (Dict.get "world" (save app) = None
   \/ exists wd, Dict.get "world" (save app) = Some (PDict wd)) ->
  (map_file files ("data/maps/" +:+ target +:+ ".json") = None
   \/ exists t dz, map_file files ("data/maps/" +:+ target +:+ ".json") = Some (Ok t)
                   /\ _map_default_zoom (Tiled t) = Ok dz) ->
  exists w1 app' w',
    World.handle_input K files w app st events = Ok (w1, app', goto (WorldScene w'))
    /\ map_id w' = target
    /\ Rect.x (player w') = Rect.x (player w)
    /\ Rect.y (player w') = Rect.y (player w).
Proof.
  intros Hc Hi Hnear Hmap Hne Hbad Hz Hx Hy Hpl Hworld Hfile.
  unfold World.handle_input. rewrite Hc.
  change (World._nearest_interactable (World.with_labels w None None None))
    with (World._nearest_interactable w).
  rewrite Hnear. cbn [bind]. rewrite Hi.
  cbn [near_npc_label near_book_label World.with_labels map_id].
  set (w1 := World.with_labels (World.with_labels w None None None) None _ None).
  assert (Hp1 : player w1 = player w) by reflexivity.
  rewrite (portal_target_fallback w1 (props o)) by (rewrite Hp1; exact Hbad).
  rewrite Hz. cbn [bind].
  unfold Dict.get_default. rewrite Hmap. cbn [Py.str Py.text_truthy].
  rewrite (proj2 (String.eqb_neq _ _) Hne). cbn [negb].
  destruct (store_position_ok w1 app pl Hpl) as (sv & -> & Hsame).
  cbn [bind Py.chars].
  assert (Hworld' : Dict.get "world" sv = None
                    \/ exists wd, Dict.get "world" sv = Some (PDict wd)).
  { rewrite Hsame by discriminate. exact Hworld. }
  destruct (WorldScene_init_at K files {| save := sv; slot := Parsed (PDict sv) |} target
              (PyFloat.of_Z (Rect.x (player w1))) (PyFloat.of_Z (Rect.y (player w1)))
              (Rect.x (player w)) (Rect.y (player w)) z)
    as (w' & app' & -> & Hid & Hpx & Hpy);
    try (rewrite Hp1; apply to_int_of_Z; assumption); try assumption.
  cbn [bind]. exists w1, app', w'. auto.
Qed.

End Interactions.

Section Overlays.

Variable K : Constants.
Variable files : Files.

(** X18: reading a book changes nothing but the hint: interact on the
    nearest book opens its page over the world scene, the title and the
    text defaulting to [Book] and to the empty text, and any of Escape,
    Return and E on the page leads back to that very world scene; the
    player, the map and the document in memory are the same throughout,
    and the save file is not written. *)
Theorem book_opens_and_closes (w : WorldState) (app : App) (st1 st2 : InputState)
    (ev1 ev2 : list event) (o : Interactable) (d : Z) :
  cancel_pressed st1 = false -> interact_pressed st1 = true ->
  World._nearest_interactable w = Ok (Some (NearBook o d)) ->
  let w1 := World.with_labels w None None
              (Some (Py.str (Py.or_else (Dict.get_default "prompt" PNone (props o))
                               (PStr "Press E to read")))) in
  let page := InfoScene (WorldScene w1)
                {| info_title := Py.str (Dict.get_default "title" (PStr "Book") (props o));
                   info_text := Py.str (Dict.get_default "text" (PStr "") (props o)) |} in
  scene_handle_input K files (WorldScene w) app st1 ev1 = Ok (WorldScene w1, app, goto page)
  /\ scene_handle_input K files page app st2 ev2
     = Ok (page, app,
           if cancel_pressed st2 || confirm_pressed st2 || interact_pressed st2
           then goto (WorldScene w1) else no_transition)
  /\ player w1 = player w /\ map_id w1 = map_id w /\ provider w1 = provider w.
Proof.
  intros Hc Hi Hnear w1 page.
  split; [|split; [reflexivity|repeat split]].
  cbn [scene_handle_input]. unfold World.handle_input. rewrite Hc.
  change (World._nearest_interactable (World.with_labels w None None None))
    with (World._nearest_interactable w).
  rewrite Hnear. cbn [bind]. rewrite Hi. reflexivity.
Qed.

(** X19: interact on the nearest NPC opens the dialogue of the NPC over
    the world scene, with the document in memory untouched: the file is
    the one the NPC names, or [npc_aya.json] when it names none; the
    dialogue starts on the node [start_node] of the file, or on [intro],
    with the first choice selected, over the [nodes] of the file, or over
    no nodes at all. *)
Theorem talk_opens_dialogue (w : WorldState) (app : App) (st : InputState)
    (events : list event) (n : Npc) (d : Z) (path : string) (data : pydict) :
  cancel_pressed st = false -> interact_pressed st = true ->
  World._nearest_interactable w = Ok (Some (NearNpc n d)) ->
  Py.or_else (npc_dialogue n) (PStr "data/dialogues/npc_aya.json") = PStr path ->
  json_file files path = Ok (PDict data) ->
  let w1 := World.with_labels w (Some (Text ("Press E to talk to " +:+ npc_id n)))
              None None in
  scene_handle_input K files (WorldScene w) app st events
  = Ok (WorldScene w1, app,
        goto (DialogueScene (WorldScene w1)
                {| dialogue_path := path; dlg_npc_id := npc_id n;
                   nodes := Dict.get_default "nodes" (PDict []) data;
                   node_id := Dict.get_default "start_node" (PStr "intro") data;
                   selected_choice := 0; portrait_anim_time := PyFloat.zero |})).
Proof.
  intros Hc Hi Hnear Hpath Hfile w1.
  cbn [scene_handle_input]. unfold World.handle_input. rewrite Hc.
  change (World._nearest_interactable (World.with_labels w None None None))
    with (World._nearest_interactable w).
  rewrite Hnear. cbn [bind]. rewrite Hi, Hpath.
  unfold DialogueScene_init. rewrite Hfile. reflexivity.
Qed.

End Overlays.

(** ** Transitions between the scenes *)

Ltac explode H :=
  repeat (first
    [ discriminate H
    | match type of H with
      | bind ?r _ = Ok _ =>
          let E := fresh "E" in destruct r eqn:E; cbn [bind] in H
      | (if ?b then _ else _) = Ok _ =>
          let E := fresh "E" in destruct b eqn:E
      | match ?x with _ => _ end = Ok _ =>
          let E := fresh "E" in destruct x eqn:E
      end ]).

Section Flow.

Variable K : Constants.
Variable files : Files.

Lemma challenge_init_return (ret sc : scene) (id : string) :
  ChallengeScene_init files ret id = Ok sc -> exists c, sc = ChallengeScene ret c.
Proof.
  intros H. destruct (ChallengeScene_init_shape files ret sc id H) as (c & -> & _). eauto.
Qed.

Lemma node_action_result (ret : scene) (d d' : DialogueState) (app app' : App)
    (node : pyval) (r : SceneResult) :
  Dialogue.node_action files ret d app node = Ok (d', app', r) ->
  r = no_transition \/ r = goto ret \/ exists c, r = goto (ChallengeScene ret c).
Proof.
  unfold Dialogue.node_action. intros H.
  destruct (Py.get_default node "action" PNone) as [action| |]; cbn [bind] in H;
    try discriminate H.
  match type of H with
  | bind ?l _ = Ok _ => destruct l as [[p|]| |] eqn:El; cbn [bind] in H;
                        try discriminate H
  end.
  - injection H as ->. explode El.
    injection El as <- <- <-.
    match goal with
    | E : ChallengeScene_init _ _ _ = Ok _ |- _ =>
        destruct (challenge_init_return _ _ _ E) as [c0 ->]
    end.
    right. right. eauto.
  - destruct (negb (Py.truthy node)); injection H as <- <- <-; auto.
Qed.

Lemma dialogue_result (ret : scene) (d d' : DialogueState) (app app' : App)
    (st : InputState) (events : list event) (r : SceneResult) :
  Dialogue.handle_input files ret d app st events = Ok (d', app', r) ->
  r = no_transition \/ r = goto ret \/ exists c, r = goto (ChallengeScene ret c).
Proof.
  unfold Dialogue.handle_input. intros H.
  destruct (cancel_pressed st); [injection H as <- <- <-; auto|].
  repeat match type of H with
         | Dialogue.node_action _ _ _ _ _ = Ok _ => fail 1
         | bind ?r _ = Ok _ =>
             let E := fresh "E" in destruct r eqn:E; cbn [bind] in H; try discriminate H
         | (if ?b then _ else _) = Ok _ =>
             let E := fresh "E" in destruct b eqn:E
         | match ?x with _ => _ end = Ok _ =>
             let E := fresh "E" in destruct x eqn:E; try discriminate H
         end;
    try (apply node_action_result in H; exact H);
    injection H as <- <- <-; auto.
Qed.

Lemma challenge_result (ret : scene) (c c' : ChallengeState) (app app' : App)
    (st : InputState) (events : list event) (r : SceneResult) :
  Challenge.handle_input ret c app st events = Ok (c', app', r) ->
  r = no_transition \/ r = goto ret \/ exists rs, r = goto (ResultsScene ret rs).
Proof.
  unfold Challenge.handle_input, ResultsScene_init. intros H. explode H;
    injection H as <- <- <-; eauto.
Qed.

Lemma world_result (w w' : WorldState) (app app' : App) (st : InputState)
    (events : list event) (r : SceneResult) :
  World.handle_input K files w app st events = Ok (w', app', r) ->
  quit_game r = false.
Proof.
  unfold World.handle_input. intros H. explode H;
    injection H as <- <- <-; reflexivity.
Qed.

End Flow.

Section FlowTheorems.

Variable K : Constants.
Variable files : Files.

(** X20: an overlay scene (page, dialogue, quiz, results) never loses the
    scene it was opened over: whatever the input, the overlay keeps its
    return scene, and every transition it asks for goes either to that
    return scene or to another overlay over the same return scene (the
    quiz of a dialogue, the results of a quiz); an overlay never quits the
    game. *)
Theorem overlay_returns (s s' ret : scene) (app app' : App) (st : InputState)
    (events : list event) (r : SceneResult) :
  return_of s = Some ret ->
  scene_handle_input K files s app st events = Ok (s', app', r) ->
  return_of s' = Some ret
  /\ (forall s2, next_scene r = Some s2 -> s2 = ret \/ return_of s2 = Some ret)
  /\ quit_game r = false.
Proof.
  intros Hret H. destruct s as [sel|w|ret0 i|ret0 d|ret0 c|ret0 rs];
    cbn [return_of] in Hret; try discriminate; injection Hret as ->;
    cbn [scene_handle_input] in H.
  - injection H as <- <- <-. split; [reflexivity|].
    unfold Info.handle_input.
    destruct (cancel_pressed st || confirm_pressed st || interact_pressed st);
      cbn [next_scene quit_game goto no_transition]; split; try reflexivity;
      intros s2 [=]; subst; auto.
  - destruct (Dialogue.handle_input files ret d app st events) as [[[d1 app1] r1]| |] eqn:E;
      cbn [bind] in H; try discriminate. injection H as <- <- <-.
    split; [reflexivity|].
    destruct (dialogue_result files _ _ _ _ _ _ _ _ E) as [-> | [-> | [c ->]]];
      cbn [next_scene quit_game goto no_transition]; split; try reflexivity;
      intros s2 [=]; subst; auto.
  - destruct (Challenge.handle_input ret c app st events) as [[[c1 app1] r1]| |] eqn:E;
      cbn [bind] in H; try discriminate. injection H as <- <- <-.
    split; [reflexivity|].
    destruct (challenge_result _ _ _ _ _ _ _ _ E) as [-> | [-> | [rs ->]]];
      cbn [next_scene quit_game goto no_transition]; split; try reflexivity;
      intros s2 [=]; subst; auto.
  - injection H as <- <- <-. split; [reflexivity|].
    unfold Results.handle_input.
    destruct (confirm_pressed st || cancel_pressed st);
      cbn [next_scene quit_game goto no_transition]; split; try reflexivity;
      intros s2 [=]; subst; auto.
Qed.

Lemma menu_result (sel sel' : Z) (app app' : App) (st : InputState)
    (events : list event) (r : SceneResult) :
  Menu.handle_input K files sel app st events = Ok (sel', app', r) ->
  quit_game r = confirm_pressed st && (Menu.move sel events =? 2).
Proof.
  unfold Menu.handle_input. intros H.
  destruct (confirm_pressed st); [|injection H as <- <- <-; reflexivity].
  destruct (Menu.move sel events =? 0) eqn:E0.
  { apply Z.eqb_eq in E0. rewrite E0. explode H. injection H as <- <- <-. reflexivity. }
  destruct (Menu.move sel events =? 1) eqn:E1.
  { apply Z.eqb_eq in E1. rewrite E1. explode H. injection H as <- <- <-. reflexivity. }
  destruct (Menu.move sel events =? 2) eqn:E2; injection H as <- <- <-; reflexivity.
Qed.

Lemma handle_input_quits (s s' : scene) (app app' : App) (st : InputState)
    (events : list event) (r : SceneResult) :
  scene_handle_input K files s app st events = Ok (s', app', r) ->
  quit_game r = match s with
                | MenuScene sel => confirm_pressed st && (Menu.move sel events =? 2)
                | _ => false
                end.
Proof.
  intros H. destruct s as [sel|w|ret i|ret d|ret c|ret rs].
  - cbn [scene_handle_input] in H.
    destruct (Menu.handle_input K files sel app st events) as [[[s1 a1] r1]| |] eqn:E;
      cbn [bind] in H; try discriminate. injection H as <- <- <-.
    exact (menu_result _ _ _ _ _ _ _ E).
  - cbn [scene_handle_input] in H.
    destruct (World.handle_input K files w app st events) as [[[w1 a1] r1]| |] eqn:E;
      cbn [bind] in H; try discriminate. injection H as <- <- <-.
    exact (world_result K files _ _ _ _ _ _ _ E).
  - cbn [scene_handle_input] in H. injection H as <- <- <-.
    unfold Info.handle_input.
    destruct (cancel_pressed st || confirm_pressed st || interact_pressed st); reflexivity.
  - cbn [scene_handle_input] in H.
    destruct (Dialogue.handle_input files ret d app st events) as [[[d1 a1] r1]| |] eqn:E;
      cbn [bind] in H; try discriminate. injection H as <- <- <-.
    destruct (dialogue_result files _ _ _ _ _ _ _ _ E) as [-> | [-> | [c ->]]]; reflexivity.
  - cbn [scene_handle_input] in H.
    destruct (Challenge.handle_input ret c app st events) as [[[c1 a1] r1]| |] eqn:E;
      cbn [bind] in H; try discriminate. injection H as <- <- <-.
    destruct (challenge_result _ _ _ _ _ _ _ _ E) as [-> | [-> | [rs' ->]]]; reflexivity.
  - cbn [scene_handle_input] in H. injection H as <- <- <-.
    unfold Results.handle_input.
    destruct (confirm_pressed st || cancel_pressed st); reflexivity.
Qed.

Lemma scene_update_result (s s' : scene) (app app' : App) (st : InputState)
    (dt : float) (r : SceneResult) :
  scene_update K s app st dt = Ok (s', app', r) -> r = no_transition.
Proof.
  intros H. destruct s as [sel|w|ret i|ret d|ret c|ret rs]; cbn [scene_update] in H;
    try (injection H as <- <- <-; reflexivity).
  - destruct (World.update K st dt w app) as [[[w1 a1] r1]| |] eqn:E;
      cbn [bind] in H; try discriminate. injection H as <- <- <-.
    destruct (update_inv K _ _ _ _ _ _ _ E)
      as (? & ? & ? & ? & ? & ? & _ & _ & _ & _ & _ & -> & _). reflexivity.
Qed.

(** X21: the game loop ends on a QUIT event of the window or on Return
    pressed with the menu option Quit selected, and on nothing else: no
    other scene and no other key ends it, Escape included, which only
    leads from a scene back to the scene before it and is ignored by the
    menu. *)
Theorem game_ends_only_on_quit (s s' : scene) (app app' : App) (held : key -> bool)
    (events : list event) (dt : float) (running : bool) :
  frame K files s app held events dt = Ok (s', app', running) ->
  running = false
  <-> In QUIT events
      \/ exists sel, s = MenuScene sel /\ In (KEYDOWN K_RETURN) events
                      /\ Menu.move sel events = 2.
Proof.
  unfold frame. intros H.
  destruct (scene_handle_input K files s app (build_input_state held events) events)
    as [[[s1 a1] r1]| |] eqn:E1; cbn [bind] in H; try discriminate.
  destruct (scene_update K (switch s1 r1) a1 (build_input_state held events) dt)
    as [[[s2 a2] r2]| |] eqn:E2; cbn [bind] in H; try discriminate.
  injection H as <- <- <-.
  rewrite (scene_update_result _ _ _ _ _ _ _ E2).
  rewrite (handle_input_quits _ _ _ _ _ _ _ E1).
  cbn [quit_game no_transition negb]. rewrite andb_true_r.
  assert (Hq : existsb (fun ev => match ev with QUIT => true | _ => false end) events = true
               <-> In QUIT events).
  { rewrite List.existsb_exists. split.
    - intros (ev & Hin & Hev). destruct ev; try discriminate. exact Hin.
    - intros Hin. exists QUIT. auto. }
  assert (Hc : confirm_pressed (build_input_state held events) = true
               <-> In (KEYDOWN K_RETURN) events).
  { unfold build_input_state.
    match goal with |- context [fold_left on_event events ?s0] =>
      destruct (fold_on_event events s0) as (_ & _ & _ & _ & _ & C & _) end.
    cbn zeta in C. rewrite C. cbn [confirm_pressed]. intuition discriminate. }
  rewrite andb_false_iff, !negb_false_iff, Hq.
  destruct s as [sel|w|ret i|ret d|ret c|ret rs];
    try (split; [intros [A|A]; [auto|discriminate A]
                |intros [A|(sel & A & _)]; [auto|discriminate A]]).
  rewrite andb_true_iff, Hc, Z.eqb_eq. split.
  - intros [A|[A B]]; [auto|]. right. exists sel. auto.
  - intros [A|(sel0 & [= <-] & A & B)]; auto.
Qed.

End FlowTheorems.

(** ** The quiz scene *)

Section QuizFacts.

Variable files : Files.

(** X22: a quiz set without questions (no [questions] key, or an empty
    list) constructs with 0 maximum points, and its first frame without
    Escape goes straight to the results with 0 of 0 points, graded N/A;
    the set is not recorded as completed and nothing is written. *)
Theorem quiz_without_questions (ret : scene) (id cat : string) (data : pydict)
    (app : App) (st : InputState) (events : list event) :
  json_file files ("data/challenges/" +:+ id +:+ ".json") = Ok (PDict data) ->
  Dict.get "questions" data = None \/ Dict.get "questions" data = Some (PList []) ->
  Py.chars (Py.str (Dict.get_default "category" (PStr "phishing") data)) = Ok cat ->
  cancel_pressed st = false ->
  exists c,
    ChallengeScene_init files ret id = Ok (ChallengeScene ret c)
    /\ max_points c = 0
    /\ Challenge.handle_input ret c app st events
       = Ok (c, app,
             goto (ResultsScene ret
                     {| res_title := Py.str (Dict.get_default "title" (PStr id) data);
                        points := 0; res_max_points := 0 |}))
    /\ Results._grade {| res_title := Py.str (Dict.get_default "title" (PStr id) data);
                         points := 0; res_max_points := 0 |} = None.
Proof.
  intros Hfile Hq Hcat Hc.
  unfold ChallengeScene_init. rewrite Hfile. cbn [bind Py.get_default].
  rewrite Hcat. cbn [bind].
  assert (Hqs : Dict.get_default "questions" (PList []) data = PList []).
  { unfold Dict.get_default. destruct Hq as [-> | ->]; reflexivity. }
  rewrite Hqs. cbn [iterate bind sum_points].
  eexists. split; [reflexivity|]. split; [reflexivity|].
  split; [|reflexivity].
  unfold Challenge.handle_input. rewrite Hc. reflexivity.
Qed.

End QuizFacts.

Section QuizRuns.

Lemma usable_lookup (qs : list pyval) (i : Z) :
  Forall usable_question qs -> 0 <= i < Z.of_nat (length qs) ->
  exists q, Py.getindex (PList qs) i = Ok q /\ usable_question q.
Proof.
  intros Hall Hi. cbn [Py.getindex]. unfold Py.list_index.
  destruct (Z.ltb_spec i 0); [lia|].
  destruct (Z.leb_spec 0 i); [|lia].
  destruct (Z.ltb_spec i (Z.of_nat (length qs))); [|lia]. cbn [andb].
  destruct (qs !! Z.to_nat i) as [q|] eqn:E.
  - exists q. split; [reflexivity|].
    apply (proj1 (List.Forall_forall _ _) Hall).
    apply list_elem_of_In. eapply list_elem_of_lookup_2. exact E.
  - apply lookup_ge_None in E. lia.
Qed.

Lemma award_usable (cat : string) (pts : Z) (sv : pydict) :
  scores_usable cat sv ->
  exists sv', Challenge.award cat pts sv = Ok sv' /\ scores_usable cat sv'.
Proof.
  intros ([t Ht] & [b Hb] & Hcomp).
  destruct (award_ok cat pts t b sv Ht Hb) as (sv' & Haw & Ht' & Hb' & Hsame).
  exists sv'. split; [exact Haw|].
  split; [eauto|]. split; [eauto|].
  unfold completed_ok in *. rewrite Hsame by discriminate. exact Hcomp.
Qed.

Lemma record_completed_usable (id cat : string) (sv : pydict) :
  scores_usable cat sv ->
  exists sv', Challenge.record_completed id sv = Ok sv' /\ scores_usable cat sv'.
Proof.
  intros ([t Ht] & [b Hb] & Hcomp).
  destruct (record_completed_ok id sv Hcomp) as (sv' & Hrec & Hok & _).
  exists sv'. split; [exact Hrec|].
  split; [exists t; rewrite (record_completed_keeps_scores _ _ _ _ Hrec); exact Ht|].
  split; [exists b; rewrite (record_completed_keeps_scores _ _ _ _ Hrec); exact Hb|].
  exact Hok.
Qed.

(** One frame of a quiz that stands on a question: the frame returns, and
    unless it asks for a transition the quiz stands on a question again. *)
Lemma quiz_frame_returns (ret : scene) (c : ChallengeState) (app : App)
    (st : InputState) (events : list event) :
  on_a_question c -> scores_usable (category c) (save app) ->
  exists c' app' r,
    Challenge.handle_input ret c app st events = Ok (c', app', r)
    /\ category c' = category c
    /\ (next_scene r = None ->
        on_a_question c' /\ scores_usable (category c) (save app')).
Proof.
  intros (qs & Hq & Hall & Hqi) Hs.
  unfold Challenge.handle_input.
  destruct (cancel_pressed st).
  { do 3 eexists. split; [reflexivity|]. split; [reflexivity|]. intros [=]. }
  rewrite Hq.
  assert (Hne : Py.truthy (PList qs) = true).
  { destruct qs; [cbn in Hqi; lia|reflexivity]. }
  rewrite Hne. cbn [negb].
  destruct (usable_lookup qs (qi c) Hall Hqi)
    as (q & -> & d & -> & [n Hn] & [ci Hci] & [p Hp]).
  cbn [bind Py.get_default].
  destruct (showing_feedback c) eqn:Hfb.
  - destruct (confirm_pressed st).
    + cbn [questions Challenge.with_progress qi]. rewrite Hq. cbn [Py.len bind].
      destruct (Z.geb_spec (qi c + 1) (Z.of_nat (length qs))).
      * cbn [challenge_set_id Challenge.with_progress].
        destruct (record_completed_usable (challenge_set_id c) _ _ Hs) as (sv' & -> & Hs').
        cbn [bind]. do 3 eexists. split; [reflexivity|]. split; [reflexivity|].
        intros [=].
      * do 3 eexists. split; [reflexivity|]. split; [reflexivity|]. intros _.
        split; [|exact Hs].
        exists qs. cbn [questions qi Challenge.with_progress]. split; [exact Hq|].
        split; [exact Hall|lia].
    + do 3 eexists. split; [reflexivity|]. split; [reflexivity|]. intros _.
      split; [|exact Hs]. exists qs. auto.
  - rewrite Hn. cbn [bind].
    set (sel := if _ >=? n then _ else _).
    destruct (confirm_pressed st).
    + rewrite Hci. cbn [bind].
      destruct (sel =? ci).
      * rewrite Hp. cbn [bind category Challenge.with_progress].
        destruct (award_usable (category c) p _ Hs) as (sv' & -> & Hs').
        cbn [bind]. do 3 eexists. split; [reflexivity|]. split; [reflexivity|].
        intros _. split; [|exact Hs'].
        exists qs. cbn [questions qi Challenge.with_progress]. auto.
      * do 3 eexists. split; [reflexivity|]. split; [reflexivity|].
        intros _. split; [|exact Hs].
        exists qs. cbn [questions qi Challenge.with_progress]. auto.
    + do 3 eexists. split; [reflexivity|]. split; [reflexivity|].
      intros _. split; [|exact Hs].
      exists qs. cbn [questions qi Challenge.with_progress]. auto.
Qed.

Lemma quiz_run_returns (ret : scene) (frames : list frame_input) :
  forall (c : ChallengeState) (app : App) (log : list (Z * Z)),
    on_a_question c -> scores_usable (category c) (save app) ->
    exists c' app' r log', play ret c app frames log = Ok (c', app', r, log').
Proof.
  induction frames as [|[st events] frames IH]; intros c app log Hc Hs; cbn [play].
  - eauto.
  - destruct (quiz_frame_returns ret c app st events Hc Hs)
      as (c1 & app1 & r1 & -> & Hcat & Hnext).
    cbn [bind].
    destruct (next_scene r1) as [s|] eqn:E; [eauto|].
    destruct (Hnext eq_refl) as [Hc1 Hs1].
    apply IH; [exact Hc1|]. rewrite Hcat. exact Hs1.
Qed.

Lemma sum_points_usable (qs : list pyval) :
  Forall usable_question qs -> forall acc, exists total, sum_points qs acc = Ok total.
Proof.
  induction 1 as [|q qs (d & -> & _ & _ & [p Hp]) _ IH]; intros acc; cbn [sum_points].
  - eauto.
  - cbn [Py.get_default bind]. rewrite Hp. cbn [bind]. apply IH.
Qed.

(** X23: a quiz over usable questions never raises.  When the file of the
    set holds a non-empty list of questions that are objects with a list
    of choices and integer [correct_index] and [points] (where given), and
    the score buckets of the save can be read, the scene constructs, and
    every sequence of input frames is played through without an
    exception, whatever is pressed, up to the frame that asks for a
    transition or to the end of the frames. *)
Theorem quiz_never_raises (files : Files) (ret : scene) (id cat : string)
    (data : pydict) (qs : list pyval) (app : App) :
  json_file files ("data/challenges/" +:+ id +:+ ".json") = Ok (PDict data) ->
  Dict.get "questions" data = Some (PList qs) -> qs <> [] ->
  Forall usable_question qs ->
  Py.chars (Py.str (Dict.get_default "category" (PStr "phishing") data)) = Ok cat ->
  scores_usable cat (save app) ->
  exists c0,
    ChallengeScene_init files ret id = Ok (ChallengeScene ret c0)
    /\ forall frames, exists c' app' r log',
          play ret c0 app frames [] = Ok (c', app', r, log').
Proof.
  intros Hfile Hq Hne Hall Hcat Hs.
  unfold ChallengeScene_init. rewrite Hfile. cbn [bind Py.get_default].
  rewrite Hcat. cbn [bind].
  assert (Hqs : Dict.get_default "questions" (PList []) data = PList qs)
    by (unfold Dict.get_default; rewrite Hq; reflexivity).
  rewrite Hqs. cbn [iterate bind].
  destruct (sum_points_usable qs Hall 0) as [total ->]. cbn [bind].
  eexists. split; [reflexivity|].
  intros frames. apply quiz_run_returns; [|exact Hs].
  exists qs. cbn [questions qi]. split; [reflexivity|]. split; [exact Hall|].
  destruct qs; [congruence|]. cbn [length]. lia.
Qed.

End QuizRuns.

Lemma quiz_without_questions_witness :
  exists c,
    ChallengeScene_init
      {| map_file := fun _ => None;
         json_file := fun _ => Ok (PDict [ ("title", PStr "Empty") ]) |}
      (MenuScene 0) "empty" = Ok (ChallengeScene (MenuScene 0) c)
    /\ max_points c = 0
    /\ Challenge.handle_input (MenuScene 0) c fresh_app (pressing false false false) []
       = Ok (c, fresh_app,
             goto (ResultsScene (MenuScene 0)
                     {| res_title :=
                          Py.str (Dict.get_default "title" (PStr "empty")
                                    [ ("title", PStr "Empty") ]);
                        points := 0; res_max_points := 0 |}))
    /\ Results._grade
         {| res_title := Py.str (Dict.get_default "title" (PStr "empty")
                                   [ ("title", PStr "Empty") ]);
            points := 0; res_max_points := 0 |} = None.
Proof.
  apply (quiz_without_questions
           {| map_file := fun _ => None;
              json_file := fun _ => Ok (PDict [ ("title", PStr "Empty") ]) |}
           (MenuScene 0) "empty" "phishing" [ ("title", PStr "Empty") ]);
    try reflexivity.
  left. reflexivity.
Defined.

Lemma usable_phishing_questions : Forall usable_question phishing_questions.
Proof.
  repeat constructor; eexists; (split; [reflexivity|]);
    repeat split; eexists; reflexivity.
Qed.

Lemma quiz_never_raises_witness :
  exists c0,
    ChallengeScene_init game_files (MenuScene 0) "phishing_1"
    = Ok (ChallengeScene (MenuScene 0) c0)
    /\ forall frames, exists c' app' r log',
          play (MenuScene 0) c0 fresh_app frames [] = Ok (c', app', r, log').
Proof.
  apply (quiz_never_raises game_files (MenuScene 0) "phishing_1" "phishing"
           [ ("title", PStr "Phishing 1"); ("category", PStr "phishing");
             ("questions", PList phishing_questions) ]
           phishing_questions fresh_app);
    try reflexivity.
  - discriminate.
  - exact usable_phishing_questions.
  - split; [eexists; reflexivity|]. split; [eexists; reflexivity|].
    right. eexists. split; [reflexivity|]. right. eexists. reflexivity.
Defined.

(** ** Plain nodes and empty graphs of a dialogue *)

Section DialoguePlain.

Variable files : Files.

(** X24: on a dialogue node without choices, Return follows a non-empty
    [next] id, leaving the selection index and the save as they are and
    writing nothing; and a node that has neither choices nor [next] nor an
    action is never left by the dialogue itself: every frame without
    Escape returns the scene unchanged, with no transition. *)
Theorem dialogue_plain_node (ret : scene) (d : DialogueState) (app : App)
    (st : InputState) (events : list event) (node : pydict) :
  cancel_pressed st = false ->
  Dialogue.current_node d = Ok (PDict node) ->
  Dict.get "choices" node = None ->
  (forall id, confirm_pressed st = true ->
     Dict.get "next" node = Some (PStr id) -> id <> "" ->
     Dialogue.handle_input files ret d app st events
     = Ok (Dialogue.with_node d (PStr id) (selected_choice d), app, no_transition))
  /\ (node <> [] -> Dict.get "next" node = None -> Dict.get "action" node = None ->
      Dialogue.handle_input files ret d app st events = Ok (d, app, no_transition)).
Proof.
  intros Hc Hnode Hch.
  assert (Hstay : node <> [] -> Dict.get "action" node = None ->
                  Dialogue.node_action files ret d app (PDict node)
                  = Ok (d, app, no_transition)).
  { intros Hne Hact. unfold Dialogue.node_action, Py.get_default, Dict.get_default.
    rewrite Hact. cbn [bind]. destruct node; [congruence|reflexivity]. }
  split.
  - intros id Hk Hnext Hid.
    unfold Dialogue.handle_input. rewrite Hc, Hnode. cbn [bind].
    unfold Py.get_default, Dict.get_default. rewrite Hch. cbn [bind].
    rewrite Hk, Hnext. cbn [bind Py.truthy].
    rewrite (proj2 (String.eqb_neq _ _) Hid). reflexivity.
  - intros Hne Hnext Hact.
    unfold Dialogue.handle_input. rewrite Hc, Hnode. cbn [bind].
    unfold Py.get_default, Dict.get_default. rewrite Hch. cbn [bind].
    destruct (confirm_pressed st).
    + rewrite Hnext. cbn [bind Py.truthy]. apply Hstay; assumption.
    + apply Hstay; assumption.
Qed.

(** X25: a dialogue whose start node is not in its graph closes in its
    first frame.  The start node is [start_node] of the file, or [intro];
    the graph is [nodes] of the file, or empty: so a file that is an empty
    object constructs a dialogue, and the first frame writes the save and
    returns to the scene below, whatever is pressed. *)
Theorem dialogue_without_start_closes (ret : scene) (path npc start : string)
    (data ns : pydict) (app : App) (st : InputState) (events : list event) :
  json_file files path = Ok (PDict data) ->
  Dict.get_default "nodes" (PDict []) data = PDict ns ->
  Dict.get_default "start_node" (PStr "intro") data = PStr start ->
  Dict.get start ns = None ->
  exists d,
    DialogueScene_init files ret (PStr path) npc = Ok (DialogueScene ret d)
    /\ node_id d = PStr start /\ selected_choice d = 0
    /\ Dialogue.handle_input files ret d app st events
       = Ok (d, {| save := save app; slot := Parsed (PDict (save app)) |}, goto ret).
Proof.
  intros Hfile Hns Hstart Hmiss.
  unfold DialogueScene_init. rewrite Hfile. cbn [bind Py.get_default].
  rewrite Hns, Hstart. cbn [bind].
  eexists. split; [reflexivity|]. split; [reflexivity|]. split; [reflexivity|].
  unfold Dialogue.handle_input.
  destruct (cancel_pressed st); [reflexivity|].
  rewrite (missing_node_empty _).
  - cbn [bind Py.get_default Dict.get_default Dict.get].
    destruct (confirm_pressed st); reflexivity.
  - exists ns. cbn [nodes node_id]. auto.
Qed.

End DialoguePlain.

(** The node [praise] of the sample dialogue, and its last node made
    plain. *)
Lemma dialogue_plain_node_witness :
  (forall id, confirm_pressed (pressing false true false) = true ->
     Dict.get "next" [ ("speaker", PStr "Aya"); ("text", PStr "Good call.");
                       ("next", PStr "quiz") ] = Some (PStr id) -> id <> "" ->
     Dialogue.handle_input game_files (MenuScene 0) (dialogue_at aya_nodes "praise" 1)
       fresh_app (pressing false true false) [KEYDOWN K_RETURN]
     = Ok (Dialogue.with_node (dialogue_at aya_nodes "praise" 1) (PStr id)
             (selected_choice (dialogue_at aya_nodes "praise" 1)),
           fresh_app, no_transition))
  /\ ([ ("speaker", PStr "Aya"); ("text", PStr "Good call."); ("next", PStr "quiz") ] <> [] ->
      Dict.get "next" [ ("speaker", PStr "Aya"); ("text", PStr "Good call.");
                        ("next", PStr "quiz") ] = None ->
      Dict.get "action" [ ("speaker", PStr "Aya"); ("text", PStr "Good call.");
                          ("next", PStr "quiz") ] = None ->
      Dialogue.handle_input game_files (MenuScene 0) (dialogue_at aya_nodes "praise" 1)
        fresh_app (pressing false true false) [KEYDOWN K_RETURN]
      = Ok (dialogue_at aya_nodes "praise" 1, fresh_app, no_transition)).
Proof.
  apply (dialogue_plain_node game_files (MenuScene 0) (dialogue_at aya_nodes "praise" 1)
           fresh_app (pressing false true false) [KEYDOWN K_RETURN]
           [ ("speaker", PStr "Aya"); ("text", PStr "Good call.");
             ("next", PStr "quiz") ]);
    reflexivity.
Defined.

(** A dialogue file that holds the empty object. *)
Lemma dialogue_without_start_closes_witness :
  exists d,
    DialogueScene_init
      {| map_file := fun _ => None; json_file := fun _ => Ok (PDict []) |}
      (MenuScene 0) (PStr "data/dialogues/npc_ren.json") "ren"
    = Ok (DialogueScene (MenuScene 0) d)
    /\ node_id d = PStr "intro" /\ selected_choice d = 0
    /\ Dialogue.handle_input
         {| map_file := fun _ => None; json_file := fun _ => Ok (PDict []) |}
         (MenuScene 0) d fresh_app (pressing false false false) []
       = Ok (d, {| save := save fresh_app; slot := Parsed (PDict (save fresh_app)) |},
             goto (MenuScene 0)).
Proof.
  apply (dialogue_without_start_closes
           {| map_file := fun _ => None; json_file := fun _ => Ok (PDict []) |}
           (MenuScene 0) "data/dialogues/npc_ren.json" "ren" "intro" [] []);
    reflexivity.
Defined.

(** ** Reading a Tiled map *)

Section TiledFacts.

Lemma props_loop_lookup (items : list pyval) :
  Forall (fun p => exists k, prop_key p = Ok k) items ->
  forall out0, exists out,
    TiledFile.props_loop items out0 = Ok out
    /\ forall k, Dict.get k out
                 = match last_value k items with
                   | Some v => Some v
                   | None => Dict.get k out0
                   end.
Proof.
  induction 1 as [|p items [key Hkey] _ IH]; intros out0; cbn [TiledFile.props_loop last_value].
  - eauto.
  - unfold prop_key in Hkey.
    destruct p as [| | | | | |d]; cbn [Py.get_default bind] in Hkey; try discriminate.
    cbn [Py.get_default bind]. rewrite Hkey. cbn [bind].
    destruct (IH (Dict.set key (Dict.get_default "value" PNone d) out0)) as (out & -> & G).
    exists out. split; [reflexivity|]. intros k. rewrite G.
    destruct (last_value k items); [reflexivity|].
    unfold prop_key. cbn [Py.get_default bind]. rewrite Hkey.
    rewrite get_set. destruct (String.eqb key k); reflexivity.
Qed.

(** X26: [_props_list_to_dict] gives the empty dict for [None] and for
    the empty list; for a list of properties it files each value under
    the text of its name, so that a lookup finds the value of the last
    property of that name, and finds nothing for a name that no property
    has. *)
Theorem props_list_last_wins (items : list pyval) :
  Forall (fun p => exists k, prop_key p = Ok k) items ->
  TiledFile._props_list_to_dict PNone = Ok []
  /\ exists out,
       TiledFile._props_list_to_dict (PList items) = Ok out
       /\ forall k, Dict.get k out = last_value k items.
Proof.
  intros H. split; [reflexivity|].
  unfold TiledFile._props_list_to_dict.
  destruct items as [|p items].
  - exists []. split; [reflexivity|]. reflexivity.
  - cbn [Py.truthy negb iterate bind].
    destruct (props_loop_lookup (p :: items) H []) as (out & -> & G).
    exists out. split; [reflexivity|]. intros k. rewrite G.
    destruct (last_value k (p :: items)); reflexivity.
Qed.

(** *** Layers *)

Lemma layers_app_nil (a : TiledFile.Layers) : layers_app a TiledFile.no_layers = a.
Proof.
  destruct a. unfold layers_app. cbn. rewrite !List.app_nil_r. reflexivity.
Qed.

Lemma layers_app_assoc (a b c : TiledFile.Layers) :
  layers_app (layers_app a b) c = layers_app a (layers_app b c).
Proof.
  unfold layers_app. cbn. rewrite <- !List.app_assoc. reflexivity.
Qed.

(** What one layer adds does not depend on what was read before it. *)
Lemma parse_layer_adds (acc : TiledFile.Layers) (layer : pyval) :
  TiledFile.parse_layer acc layer
  = do added <- TiledFile.parse_layer TiledFile.no_layers layer;
    Ok (layers_app acc added).
Proof.
  unfold TiledFile.parse_layer.
  destruct (Py.get_default layer "type" PNone) as [ltype| |]; cbn [bind]; try reflexivity.
  destruct ltype; cbn [bind]; rewrite ?layers_app_nil; try reflexivity.
  destruct (String.eqb s "tilelayer"); cbn [bind]; rewrite ?layers_app_nil; try reflexivity.
  destruct (String.eqb s "objectgroup"); cbn [bind]; rewrite ?layers_app_nil; try reflexivity.
  destruct (Py.get_default layer "name" (PStr "")) as [nm| |]; cbn [bind]; try reflexivity.
  destruct (TiledFile.lower (Py.str nm)) as [lname| |]; cbn [bind]; try reflexivity.
  destruct (String.eqb lname "colliders").
  { destruct (TiledFile.objects_of _ layer); cbn [bind]; try reflexivity.
    unfold layers_app. cbn. rewrite !List.app_nil_r. reflexivity. }
  destruct (String.eqb lname "npcs").
  { destruct (TiledFile.objects_of _ layer); cbn [bind]; try reflexivity.
    unfold layers_app. cbn. rewrite !List.app_nil_r. reflexivity. }
  destruct (String.eqb lname "portals").
  { destruct (TiledFile.objects_of _ layer); cbn [bind]; try reflexivity.
    unfold layers_app. cbn. rewrite !List.app_nil_r. reflexivity. }
  destruct (String.eqb lname "books" || String.eqb lname "interactables").
  { destruct (TiledFile.objects_of _ layer); cbn [bind]; try reflexivity.
    unfold layers_app. cbn. rewrite !List.app_nil_r. reflexivity. }
  cbn [bind]. rewrite layers_app_nil. reflexivity.
Qed.

Lemma parse_layers_adds (layers : list pyval) :
  forall acc,
    TiledFile.parse_layers acc layers
    = do added <- TiledFile.parse_layers TiledFile.no_layers layers;
      Ok (layers_app acc added).
Proof.
  induction layers as [|layer layers IH]; intros acc; cbn [TiledFile.parse_layers bind].
  - rewrite layers_app_nil. reflexivity.
  - rewrite (parse_layer_adds acc layer).
    destruct (TiledFile.parse_layer TiledFile.no_layers layer) as [a1| |]; cbn [bind];
      try reflexivity.
    rewrite (IH (layers_app acc a1)), (IH a1).
    destruct (TiledFile.parse_layers TiledFile.no_layers layers) as [a2| |]; cbn [bind];
      try reflexivity.
    rewrite layers_app_assoc. reflexivity.
Qed.

(** X27: the layers of a map document are read one after the other and
    independently: reading a list of layers followed by another gives,
    for each of colliders, NPCs, portals and books, the objects of the
    first list followed by those of the second, in document order; and if
    the first list raises, so does the whole, with the same exception. *)
Theorem parse_layers_concatenate (l1 l2 : list pyval) :
  TiledFile.parse_layers TiledFile.no_layers (l1 ++ l2)
  = do a <- TiledFile.parse_layers TiledFile.no_layers l1;
    do b <- TiledFile.parse_layers TiledFile.no_layers l2;
    Ok (layers_app a b).
Proof.
  induction l1 as [|layer l1 IH]; cbn [app TiledFile.parse_layers bind].
  - destruct (TiledFile.parse_layers TiledFile.no_layers l2) as [b| |]; cbn [bind];
      try reflexivity.
    destruct b; reflexivity.
  - destruct (TiledFile.parse_layer TiledFile.no_layers layer) as [a1| |]; cbn [bind];
      try reflexivity.
    rewrite (parse_layers_adds (l1 ++ l2) a1), (parse_layers_adds l1 a1), IH.
    destruct (TiledFile.parse_layers TiledFile.no_layers l1) as [a| |]; cbn [bind];
      try reflexivity.
    destruct (TiledFile.parse_layers TiledFile.no_layers l2) as [b| |]; cbn [bind];
      try reflexivity.
    rewrite layers_app_assoc. reflexivity.
Qed.

End TiledFacts.

Section TilesetFacts.

Variable K : Constants.
Variable files : Files.

Lemma list_index_head (x : pyval) (rest : list pyval) :
  Py.list_index (x :: rest) 0 = Ok x.
Proof.
  unfold Py.list_index. cbn [length]. cbv zeta.
  change (0 <? 0) with false. cbv iota.
  change (0 <=? 0) with true. cbn [andb].
  destruct (Z.ltb_spec 0 (Z.of_nat (S (length rest)))); [reflexivity|lia].
Qed.

Lemma load_tileset_external (raw ts0 : pydict) (rest : list pyval) :
  Dict.get "tilesets" raw = Some (PList (PDict ts0 :: rest)) ->
  Dict.has "source" ts0 = true ->
  TiledFile._load_tileset (PDict raw) = Raise RuntimeError.
Proof.
  intros Ht Hs. unfold TiledFile._load_tileset, Py.get_default, Dict.get_default.
  rewrite Ht. cbn [bind Py.truthy negb Py.getindex].
  rewrite list_index_head. cbn [bind TiledFile.has_source]. rewrite Hs. reflexivity.
Qed.

(** X28: a map document whose first tileset is external (it has a
    [source] key) never loads: [TiledMap.__init__] does not return a map,
    it raises [RuntimeError] once the sizes, the properties and the layers
    have been read; and a world scene for a map id with such a file is
    never constructed. *)
Theorem external_tileset_never_loads (raw ts0 : pydict) (rest : list pyval) :
  Dict.get "tilesets" raw = Some (PList (PDict ts0 :: rest)) ->
  Dict.has "source" ts0 = true ->
  (forall m, TiledFile.TiledMap_init (PDict raw) <> Ok m)
  /\ (forall width height tile_w tile_h props layers,
        TiledFile.int_field (PDict raw) "width" (PInt 0) = Ok width ->
        TiledFile.int_field (PDict raw) "height" (PInt 0) = Ok height ->
        TiledFile.int_field (PDict raw) "tilewidth" (PInt 0) = Ok tile_w ->
        TiledFile.int_field (PDict raw) "tileheight" (PInt 0) = Ok tile_h ->
        TiledFile._props_list_to_dict (Dict.get_default "properties" PNone raw) = Ok props ->
        TiledFile._parse_layers (PDict raw) = Ok layers ->
        TiledFile.TiledMap_init (PDict raw) = Raise RuntimeError)
  /\ (forall mid app spawn z w app',
        map_file files ("data/maps/" +:+ mid +:+ ".json")
        = Some (TiledFile.TiledMap_init (PDict raw)) ->
        WorldScene_init K files app (Some mid) spawn z <> Ok (w, app')).
Proof.
  intros Ht Hs.
  pose proof (load_tileset_external raw ts0 rest Ht Hs) as Hl.
  assert (Hnever : forall m, TiledFile.TiledMap_init (PDict raw) <> Ok m).
  { intros m H. unfold TiledFile.TiledMap_init in H.
    repeat inv_bind H. rewrite Hl in *. discriminate. }
  split; [exact Hnever|]. split.
  - intros width height tile_w tile_h props layers H1 H2 H3 H4 H5 H6.
    unfold TiledFile.TiledMap_init. rewrite H1, H2, H3, H4. cbn [bind Py.get_default].
    rewrite H5. cbn [bind]. rewrite H6. cbn [bind]. rewrite Hl. reflexivity.
  - intros mid app spawn z w app' Hfile H.
    destruct (WorldScene_init_inv K files app app' _ _ _ w H)
      as (sv & kx & ky & z0 & _ & _ & Hprov & _ & Hmid & _ & _).
    cbn in Hmid. rewrite Hmid, Hfile in Hprov.
    destruct Hprov as [[Hn _] | (t & Ht' & _)]; [discriminate|].
    injection Ht' as Ht'. exact (Hnever t Ht').
Qed.

End TilesetFacts.

(** ** Wrapping text *)

Section WrapFacts.

Variable size : string -> Z.

Lemma append_cons (c : Ascii.ascii) (a b : string) :
  String c a +:+ b = String c (a +:+ b).
Proof. reflexivity. Qed.

Lemma append_nil_l (b : string) : EmptyString +:+ b = b.
Proof. reflexivity. Qed.

Lemma append_nil_r (s : string) : s +:+ EmptyString = s.
Proof. induction s as [|c s IH]; [reflexivity|]. change (String c (s +:+ EmptyString) = String c s). rewrite IH. reflexivity. Qed.

Lemma append_assoc (a b c : string) : (a +:+ b) +:+ c = a +:+ (b +:+ c).
Proof. induction a as [|x a IH]; [reflexivity|]. change (String x ((a +:+ b) +:+ c) = String x (a +:+ (b +:+ c))). rewrite IH. reflexivity. Qed.

Lemma squash_app (a b : string) : squash (a +:+ b) = squash a +:+ squash b.
Proof.
  induction a as [|c a IH]; [reflexivity|].
  rewrite append_cons. cbn [squash].
  destruct (Ascii.eqb c Ui.space); rewrite IH; reflexivity.
Qed.

Lemma join_lines_app (l1 l2 : list string) :
  join_lines (l1 ++ l2) = join_lines l1 +:+ join_lines l2.
Proof.
  induction l1 as [|s l1 IH]; [reflexivity|].
  cbn [app join_lines fold_right]. fold (join_lines (l1 ++ l2)). fold (join_lines l1).
  rewrite IH, append_assoc. reflexivity.
Qed.

Lemma split_space_nonempty (s : string) : Ui.split_space s <> [].
Proof.
  induction s as [|c s IH]; cbn [Ui.split_space]; [discriminate|].
  destruct (Ascii.eqb c Ui.space); [discriminate|].
  destruct (Ui.split_space s); discriminate.
Qed.

(** Splitting at the spaces loses nothing but the spaces. *)
Lemma squash_split (s : string) : squash (join_lines (Ui.split_space s)) = squash s.
Proof.
  induction s as [|c s IH]; [reflexivity|].
  cbn [Ui.split_space squash].
  destruct (Ascii.eqb c Ui.space) eqn:E.
  - cbn [join_lines fold_right]. rewrite append_nil_l. exact IH.
  - destruct (Ui.split_space s) as [|w ws] eqn:Es.
    + exfalso. exact (split_space_nonempty s Es).
    + cbn [join_lines fold_right] in *. rewrite append_cons. cbn [squash].
      rewrite E, IH. reflexivity.
Qed.

Lemma nonempty_spec (s : string) : Ui.nonempty s = true <-> s <> EmptyString.
Proof.
  unfold Ui.nonempty. destruct (String.eqb_spec s EmptyString); cbn; split; congruence.
Qed.

(** The loop over the words: what the lines and [cur] hold. *)
Lemma wrap_loop (max_width : Z) (words all : list string) :
  (forall w, In w words -> In w all) ->
  forall lines cur,
    let fits_or_word := fun s => size s <= max_width \/ In s all in
    Forall (fun l => l <> EmptyString /\ fits_or_word l) lines ->
    cur = EmptyString \/ fits_or_word cur ->
    let '(lines', cur') := fold_left (Ui.wrap_step size max_width) words (lines, cur) in
    Forall (fun l => l <> EmptyString /\ fits_or_word l) lines'
    /\ (cur' = EmptyString \/ fits_or_word cur')
    /\ squash (join_lines lines' +:+ cur')
       = squash (join_lines lines +:+ cur) +:+ squash (join_lines words)
    /\ (length lines' + (if Ui.nonempty cur' then 1 else 0)
        <= length lines + (if Ui.nonempty cur then 1 else 0) + length words)%nat.
Proof.
  induction words as [|w words IH]; intros Hall lines cur fits_or_word Hl Hc.
  - cbn [fold_left]. split; [exact Hl|]. split; [exact Hc|].
    split; [cbn; rewrite append_nil_r; reflexivity|cbn [length]; lia].
  - cbn [fold_left]. unfold Ui.wrap_step at 2.
    assert (Hw : In w all) by (apply Hall; left; reflexivity).
    assert (Hall' : forall w', In w' words -> In w' all)
      by (intros w' Hw'; apply Hall; right; exact Hw').
    set (test := if String.eqb cur EmptyString then w else cur +:+ " " +:+ w).
    assert (Hsq : squash test = squash cur +:+ squash w).
    { unfold test. destruct (String.eqb_spec cur EmptyString) as [->|_]; [reflexivity|].
      rewrite !squash_app. reflexivity. }
    destruct (size test <=? max_width) eqn:E.
    + apply Z.leb_le in E.
      specialize (IH Hall' lines test Hl (or_intror (or_introl E))).
      destruct (fold_left _ words (lines, test)) as [lines' cur'].
      destruct IH as (A & B & C & D). split; [exact A|]. split; [exact B|].
      split; [|cbn [length]; destruct (Ui.nonempty test), (Ui.nonempty cur); lia].
      rewrite C. cbn [join_lines fold_right].
      rewrite !squash_app, Hsq, !append_assoc. reflexivity.
    + destruct (Ui.nonempty cur) eqn:En.
      * assert (Hl' : Forall (fun l => l <> EmptyString /\ fits_or_word l) (lines ++ [cur])).
        { apply List.Forall_app. split; [exact Hl|]. constructor; [|constructor].
          apply nonempty_spec in En. split; [exact En|].
          destruct Hc as [Hc|Hc]; [contradiction|exact Hc]. }
        specialize (IH Hall' (lines ++ [cur]) w Hl' (or_intror (or_intror Hw))).
        destruct (fold_left _ words (lines ++ [cur], w)) as [lines' cur'].
        destruct IH as (A & B & C & D). split; [exact A|]. split; [exact B|].
        split; [|rewrite List.length_app in D; cbn [length] in *;
                  destruct (Ui.nonempty w); lia].
        rewrite C. cbn [join_lines fold_right].
        rewrite join_lines_app. cbn [join_lines fold_right].
        rewrite !squash_app. cbn [squash]. rewrite !append_nil_r, !append_assoc.
        reflexivity.
      * assert (Hcur : cur = EmptyString).
        { destruct (String.eqb_spec cur EmptyString) as [->|Hne]; [reflexivity|].
          apply nonempty_spec in Hne. congruence. }
        specialize (IH Hall' lines w Hl (or_intror (or_intror Hw))).
        destruct (fold_left _ words (lines, w)) as [lines' cur'].
        destruct IH as (A & B & C & D). split; [exact A|]. split; [exact B|].
        split; [|cbn [length]; destruct (Ui.nonempty w); lia].
        rewrite C, Hcur. cbn [join_lines fold_right].
        rewrite !squash_app. cbn [squash]. rewrite !append_nil_r, !append_assoc.
        reflexivity.
Qed.

(** X29: no line that [wrap_text] returns is empty, and each line either
    fits the width or is a single word of the text (a word that is too
    wide gets a line of its own and is not broken); there are no more
    lines than words. *)
Theorem wrap_text_lines (text : string) (max_width : Z) :
  Forall (fun line => line <> EmptyString
                      /\ (size line <= max_width \/ In line (Ui.split_space text)))
    (Ui.wrap_text size text max_width)
  /\ (length (Ui.wrap_text size text max_width) <= length (Ui.split_space text))%nat.
Proof.
  unfold Ui.wrap_text.
  pose proof (wrap_loop max_width (Ui.split_space text) (Ui.split_space text)
                (fun w H => H) [] EmptyString (List.Forall_nil _) (or_introl eq_refl)) as H.
  cbv zeta in H.
  destruct (fold_left _ (Ui.split_space text) ([], EmptyString)) as [lines cur].
  destruct H as (A & B & _ & D).
  change (Ui.nonempty EmptyString) with false in D. cbn [length] in D.
  destruct (Ui.nonempty cur) eqn:En.
  - split.
    + apply List.Forall_app. split; [exact A|]. constructor; [|constructor].
      apply nonempty_spec in En. split; [exact En|].
      destruct B as [B|B]; [contradiction|exact B].
    + rewrite List.length_app. cbn [length]. lia.
  - split; [exact A|]. lia.
Qed.

(** X30: wrapping loses and reorders nothing but spaces: the lines put
    one after the other, spaces removed, are the text with its spaces
    removed. *)
Theorem wrap_text_keeps_text (text : string) (max_width : Z) :
  squash (join_lines (Ui.wrap_text size text max_width)) = squash text.
Proof.
  unfold Ui.wrap_text.
  pose proof (wrap_loop max_width (Ui.split_space text) (Ui.split_space text)
                (fun w H => H) [] EmptyString (List.Forall_nil _) (or_introl eq_refl)) as H.
  cbv zeta in H.
  destruct (fold_left _ (Ui.split_space text) ([], EmptyString)) as [lines cur].
  destruct H as (_ & _ & C & _).
  cbn [join_lines fold_right String.append squash] in C.
  rewrite squash_split in C.
  destruct (Ui.nonempty cur) eqn:En.
  - rewrite join_lines_app. cbn [join_lines fold_right]. rewrite append_nil_r. exact C.
  - assert (Hcur : cur = EmptyString).
    { destruct (String.eqb_spec cur EmptyString) as [->|Hne]; [reflexivity|].
      apply nonempty_spec in Hne. congruence. }
    rewrite Hcur, append_nil_r in C. exact C.
Qed.

End WrapFacts.

(** ** The theorems at work *)

(** The player beside Aya in the city. *)
Lemma closest_npc_is_nearest_witness :
  exists npcs,
    World._npcs (city_scene 320 220) = Ok npcs
    /\ exists r,
         World._closest_npc 48 (city_scene 320 220) = Ok r
         /\ (r = None
             <-> forall m, In m npcs ->
                   48 * 48 < World.center_dist_sq (player (city_scene 320 220)) (npc_rect m))
         /\ (forall n, r = Some n ->
               last_nearest
                 (fun n => World.center_dist_sq (player (city_scene 320 220)) (npc_rect n))
                 (48 * 48) npcs n).
Proof.
  eexists. split; [vm_compute; reflexivity|].
  apply (closest_npc_is_nearest (city_scene 320 220)). vm_compute. reflexivity.
Defined.

(** The player on the first book of the shelf, the door far away. *)
Lemma closest_rect_first_overlap_witness :
  exists portals books,
    World._portals house_at_shelf = Ok portals
    /\ World._books house_at_shelf = Ok books
    /\ exists o after,
         books = o :: after
         /\ Rect.colliderect (player house_at_shelf) (rect o) = true
         /\ World._closest_book 48 house_at_shelf = Ok (Some o).
Proof.
  eexists. eexists. split; [vm_compute; reflexivity|]. split; [vm_compute; reflexivity|].
  eexists. eexists. split; [reflexivity|]. split; [vm_compute; reflexivity|].
  destruct (closest_rect_first_overlap house_at_shelf _ _ 48 eq_refl eq_refl)
    as [_ [Hfirst _]].
  apply (Hfirst [] _ _ eq_refl); [intros o' []|vm_compute; reflexivity].
Defined.

(** Interact pressed on the door that leads nowhere. *)
Lemma portal_without_target_witness :
  exists o d,
    World._nearest_interactable (world_on blind_door (Rect.mk 100 100 16 16))
    = Ok (Some (NearPortal o d))
    /\ World.handle_input sample_constants no_files
         (world_on blind_door (Rect.mk 100 100 16 16)) fresh_app
         (pressing true false false) []
       = Ok (World.with_labels (world_on blind_door (Rect.mk 100 100 16 16)) None
               (Some (Py.str (Py.or_else (Dict.get_default "prompt" PNone (props o))
                                (PStr "Press E to exit"))))
               None,
             fresh_app, no_transition).
Proof.
  eexists. eexists. split; [vm_compute; reflexivity|].
  eapply (portal_without_target sample_constants no_files
            (world_on blind_door (Rect.mk 100 100 16 16)) fresh_app
            (pressing true false false) []);
    [reflexivity | vm_compute; reflexivity | left; reflexivity
     | discriminate | discriminate].
Defined.

(** The door whose target column is [None]: the row 300 of the target is
    dropped with it. *)
Lemma portal_fallback_position_witness :
  exists w1 app' w',
    World.handle_input sample_constants no_files
      (world_on garbled_door (Rect.mk 100 100 16 16)) fresh_app
      (pressing true false false) []
    = Ok (w1, app', goto (WorldScene w'))
    /\ map_id w' = "house_1"
    /\ Rect.x (player w') = 100
    /\ Rect.y (player w') = 100.
Proof.
  eapply (portal_fallback_position sample_constants no_files
            (world_on garbled_door (Rect.mk 100 100 16 16)) fresh_app
            (pressing true false false) []);
    [ reflexivity | reflexivity | vm_compute; reflexivity | vm_compute; reflexivity
    | discriminate
    | left; eexists; eexists; split; vm_compute; reflexivity
    | vm_compute; reflexivity | vm_compute; reflexivity | vm_compute; reflexivity
    | vm_compute; reflexivity
    | right; eexists; vm_compute; reflexivity
    | left; reflexivity ].
Defined.

(** The first book of the shelf, opened with E and closed with Escape. *)
Lemma book_opens_and_closes_witness :
  exists o d,
    World._nearest_interactable house_at_shelf = Ok (Some (NearBook o d))
    /\ let w1 := World.with_labels house_at_shelf None None
                   (Some (Py.str (Py.or_else (Dict.get_default "prompt" PNone (props o))
                                    (PStr "Press E to read")))) in
       let page := InfoScene (WorldScene w1)
                     {| info_title := Py.str (Dict.get_default "title" (PStr "Book") (props o));
                        info_text := Py.str (Dict.get_default "text" (PStr "") (props o)) |} in
       scene_handle_input sample_constants no_files (WorldScene house_at_shelf) fresh_app
         (pressing true false false) []
       = Ok (WorldScene w1, fresh_app, goto page)
       /\ scene_handle_input sample_constants no_files page fresh_app
            (pressing false false true) []
          = Ok (page, fresh_app, goto (WorldScene w1))
       /\ player w1 = player house_at_shelf
       /\ map_id w1 = map_id house_at_shelf
       /\ provider w1 = provider house_at_shelf.
Proof.
  eexists. eexists. split; [vm_compute; reflexivity|].
  eapply (book_opens_and_closes sample_constants no_files house_at_shelf fresh_app
           (pressing true false false) (pressing false false true) [] []);
    vm_compute; reflexivity.
Defined.

(** The guard at the door, spoken to. *)
Lemma talk_opens_dialogue_witness :
  exists n d,
    World._nearest_interactable (world_on guarded_door (Rect.mk 100 100 16 16))
    = Ok (Some (NearNpc n d))
    /\ let w1 := World.with_labels (world_on guarded_door (Rect.mk 100 100 16 16))
                   (Some (Text ("Press E to talk to " +:+ npc_id n))) None None in
       scene_handle_input sample_constants guard_files
         (WorldScene (world_on guarded_door (Rect.mk 100 100 16 16))) fresh_app
         (pressing true false false) []
       = Ok (WorldScene w1, fresh_app,
             goto (DialogueScene (WorldScene w1)
                     {| dialogue_path := "data/dialogues/guard.json";
                        dlg_npc_id := npc_id n;
                        nodes := PDict [ ("intro", PDict [ ("speaker", PStr "Guard");
                                                           ("text", PStr "Halt.") ]) ];
                        node_id := PStr "intro";
                        selected_choice := 0; portrait_anim_time := PyFloat.zero |})).
Proof.
  eexists. eexists. split; [vm_compute; reflexivity|].
  eapply (talk_opens_dialogue sample_constants guard_files
           (world_on guarded_door (Rect.mk 100 100 16 16)) fresh_app
           (pressing true false false) [] _ _ "data/dialogues/guard.json"
           [ ("start_node", PStr "intro");
             ("nodes", PDict [ ("intro", PDict [ ("speaker", PStr "Guard");
                                                 ("text", PStr "Halt.") ]) ]) ]);
    vm_compute; reflexivity.
Defined.

(** The dialogue with Aya, opened over the menu, on the node that starts
    the quiz. *)
Lemma overlay_returns_witness :
  exists s' app' r,
    scene_handle_input sample_constants game_files
      (DialogueScene (MenuScene 0) (dialogue_at aya_nodes "quiz" 0)) fresh_app
      (pressing false true false) []
    = Ok (s', app', r)
    /\ return_of s' = Some (MenuScene 0)
    /\ (forall s2, next_scene r = Some s2 ->
          s2 = MenuScene 0 \/ return_of s2 = Some (MenuScene 0))
    /\ quit_game r = false.
Proof.
  eexists. eexists. eexists. split; [vm_compute; reflexivity|].
  eapply (overlay_returns sample_constants game_files
           (DialogueScene (MenuScene 0) (dialogue_at aya_nodes "quiz" 0)) _
           (MenuScene 0) fresh_app _ (pressing false true false) [] _ eq_refl).
  vm_compute. reflexivity.
Defined.

(** Up from the first option of the menu, then Return: the option Quit. *)
Lemma game_ends_only_on_quit_witness :
  exists s' app',
    frame sample_constants no_files (MenuScene 0) fresh_app (fun _ => false)
      [KEYDOWN K_UP; KEYDOWN K_RETURN] (PyFloat.lit 17 1000)
    = Ok (s', app', false)
    /\ (false = false
        <-> In QUIT [KEYDOWN K_UP; KEYDOWN K_RETURN]
            \/ exists sel,
                 MenuScene 0 = MenuScene sel
                 /\ In (KEYDOWN K_RETURN) [KEYDOWN K_UP; KEYDOWN K_RETURN]
                 /\ Menu.move sel [KEYDOWN K_UP; KEYDOWN K_RETURN] = 2).
Proof.
  eexists. eexists. split; [vm_compute; reflexivity|].
  eapply (game_ends_only_on_quit sample_constants no_files (MenuScene 0) _ fresh_app _
           (fun _ => false) [KEYDOWN K_UP; KEYDOWN K_RETURN] (PyFloat.lit 17 1000) false).
  vm_compute. reflexivity.
Defined.

(** A list of properties that names [target_map] twice. *)
Lemma props_list_last_wins_witness :
  TiledFile._props_list_to_dict PNone = Ok []
  /\ exists out,
       TiledFile._props_list_to_dict (PList door_properties) = Ok out
       /\ forall k, Dict.get k out = last_value k door_properties.
Proof.
  apply (props_list_last_wins door_properties).
  repeat (constructor; [eexists; vm_compute; reflexivity|]). constructor.
Defined.

(** The map [cellar], whose tileset is kept in a file of its own. *)
Lemma external_tileset_never_loads_witness :
  TiledFile.TiledMap_init (PDict external_document) = Raise RuntimeError
  /\ forall app spawn z w app',
       WorldScene_init sample_constants external_files app (Some "cellar") spawn z
       <> Ok (w, app').
Proof.
  destruct (external_tileset_never_loads sample_constants external_files
              external_document [ ("firstgid", PInt 1); ("source", PStr "city.tsx") ] []
              eq_refl eq_refl) as (_ & B & C).
  split.
  - eapply B; vm_compute; reflexivity.
  - intros app spawn z w app'. apply (C "cellar"). reflexivity.
Defined.
